(** * OpenThread Commissioner: the application layer and its helpers

    A shallow embedding of

    - [src/library/openthread/random.hpp]   (module [Random]),
    - [src/library/joiner_internal.cpp]     (module [Joiner]),
    - the commissioner application [CommissionerApp] (module [App]),

    together with the properties of the session core that can be read off
    that code.  Machine integers are [Z] with the wrap-around written out,
    byte arrays are [list Z], [std::map] is [gmap]. *)

From Stdlib Require Import ZArith List Lia Bool String.
From stdpp Require Import gmap strings list.
Import ListNotations.

Open Scope Z_scope.

(** ** Fixed-width unsigned integers *)

Definition uint8_t (z : Z) : Z := z mod 2^8.
Definition uint16_t (z : Z) : Z := z mod 2^16.
Definition uint32_t (z : Z) : Z := z mod 2^32.

Abbreviation ByteArray := (list Z).

Lemma uint8_t_id z : 0 <= z < 2^8 -> uint8_t z = z.
Proof. intros H. unfold uint8_t. now apply Z.mod_small. Qed.

Lemma uint16_t_id z : 0 <= z < 2^16 -> uint16_t z = z.
Proof. intros H. unfold uint16_t. now apply Z.mod_small. Qed.

Lemma uint32_t_id z : 0 <= z < 2^32 -> uint32_t z = z.
Proof. intros H. unfold uint32_t. now apply Z.mod_small. Qed.

(** ** random.hpp: the non-cryptographic generator *)

Module Random.

(** [uint32_t GetUint32(void)] is only declared in the header.  Every function
    below draws exactly one value from it; that value is the argument [r]. *)

Definition GetUint8 (r : Z) : Z := uint8_t (Z.land r 0xff).

Definition GetUint16 (r : Z) : Z := uint16_t (Z.land r 0xffff).

(** [aMin + (GetUint8() % (aMax - aMin))]: the [uint8_t] operands are promoted
    to [int], so the difference may be negative and [%] truncates towards zero
    ([Z.rem]); the sum is converted back to [uint8_t] on return.  A zero
    modulus is undefined behaviour: [None]. *)
Definition GetUint8InRange (aMin aMax r : Z) : option Z :=
  let d := aMax - aMin in
  if d =? 0 then None else Some (uint8_t (aMin + Z.rem (GetUint8 r) d)).

Definition GetUint16InRange (aMin aMax r : Z) : option Z :=
  let d := aMax - aMin in
  if d =? 0 then None else Some (uint16_t (aMin + Z.rem (GetUint16 r) d)).

(** With [uint32_t] operands all arithmetic is unsigned, modulo [2^32]. *)
Definition GetUint32InRange (aMin aMax r : Z) : option Z :=
  let d := uint32_t (aMax - aMin) in
  if d =? 0 then None else Some (uint32_t (aMin + Z.rem r d)).

(** [aJitter] is a [uint16_t] parameter, [2 * aJitter + 1] is an [int]
    converted to [uint32_t]. *)
Definition AddJitter (aValue aJitter r : Z) : option Z :=
  let aJitter := if aJitter <=? aValue then aJitter else uint16_t aValue in
  match GetUint32InRange 0 (uint32_t (2 * aJitter + 1)) r with
  | Some j => Some (uint32_t (aValue + j - aJitter))
  | None => None
  end.

Lemma GetUint8_range r : 0 <= GetUint8 r < 2^8.
Proof. unfold GetUint8, uint8_t. apply Z.mod_pos_bound. lia. Qed.

Lemma GetUint16_range r : 0 <= GetUint16 r < 2^16.
Proof. unfold GetUint16, uint16_t. apply Z.mod_pos_bound. lia. Qed.

Lemma rem_in_range x d : 0 <= x -> 0 < d -> Z.rem x d = x mod d /\ 0 <= x mod d < d.
Proof.
  intros Hx Hd. split.
  - apply Z.rem_mod_nonneg; lia.
  - apply Z.mod_pos_bound; lia.
Qed.

Example GetUint8InRange_sample : GetUint8InRange 10 20 0xDEADBEEF = Some 19.
Proof. reflexivity. Qed.

Example GetUint32InRange_sample : GetUint32InRange 5 6 0xFFFFFFFF = Some 5.
Proof. reflexivity. Qed.

(** C10: for [aMin < aMax] the three range functions return a value in
    [[aMin, aMax)] whatever the generator produced, the sum
    [aMin + x % (aMax - aMin)] is computed without wrap-around, and with
    [aMin = aMax] the modulus is zero and the result undefined. *)
Theorem GetUintInRange_bounds (aMin aMax r : Z) :
  0 <= r < 2^32 -> 0 <= aMin -> aMin < aMax ->
  (aMax < 2^8 ->
     exists v, GetUint8InRange aMin aMax r = Some v /\ aMin <= v < aMax /\
               v = aMin + GetUint8 r mod (aMax - aMin)) /\
  (aMax < 2^16 ->
     exists v, GetUint16InRange aMin aMax r = Some v /\ aMin <= v < aMax /\
               v = aMin + GetUint16 r mod (aMax - aMin)) /\
  (aMax < 2^32 ->
     exists v, GetUint32InRange aMin aMax r = Some v /\ aMin <= v < aMax /\
               v = aMin + r mod (aMax - aMin)) /\
  GetUint8InRange aMin aMin r = None /\
  GetUint16InRange aMin aMin r = None /\
  GetUint32InRange aMin aMin r = None.
Proof.
  intros Hr Hmin Hlt.
  assert (Hd : 0 < aMax - aMin) by lia.
  repeat split.
  - intros Hmax. unfold GetUint8InRange.
    destruct (Z.eqb_spec (aMax - aMin) 0) as [E|_]; [lia|].
    destruct (rem_in_range (GetUint8 r) (aMax - aMin)) as [-> Hb];
      [apply GetUint8_range | lia |].
    eexists. split; [reflexivity|]. rewrite uint8_t_id by lia. lia.
  - intros Hmax. unfold GetUint16InRange.
    destruct (Z.eqb_spec (aMax - aMin) 0) as [E|_]; [lia|].
    destruct (rem_in_range (GetUint16 r) (aMax - aMin)) as [-> Hb];
      [apply GetUint16_range | lia |].
    eexists. split; [reflexivity|]. rewrite uint16_t_id by lia. lia.
  - intros Hmax. unfold GetUint32InRange.
    rewrite (uint32_t_id (aMax - aMin)) by lia.
    destruct (Z.eqb_spec (aMax - aMin) 0) as [E|_]; [lia|].
    destruct (rem_in_range r (aMax - aMin)) as [-> Hb]; [lia | lia |].
    eexists. split; [reflexivity|]. rewrite uint32_t_id by lia. lia.
  - unfold GetUint8InRange. now rewrite Z.sub_diag.
  - unfold GetUint16InRange. now rewrite Z.sub_diag.
  - unfold GetUint32InRange. now rewrite Z.sub_diag.
Qed.

(** C10 for the range [[10, 20)] and one generator output. *)
Lemma GetUintInRange_bounds_witness :
  (0 <= 0xDEADBEEF < 2^32 /\ 0 <= 10 /\ 10 < 20) /\
  (exists v, GetUint8InRange 10 20 0xDEADBEEF = Some v /\ 10 <= v < 20 /\
             v = 10 + GetUint8 0xDEADBEEF mod (20 - 10)).
Proof.
  split; [lia|].
  apply (GetUintInRange_bounds 10 20 0xDEADBEEF); lia.
Defined.

End Random.

(** ** SHA-256 *)

Module Sha256.

(** Modelled from the spec: the [Sha256] class wraps the SHA-256 library
    dependency (section 1 of the specification); its sources are not part of
    [src/].  The digest below is FIPS 180-4 SHA-256 over byte lists; the class
    interface [Start]/[Update]/[Finish] accumulates the message and hashes it
    on [Finish]. *)

Definition kHashSize : nat := 32.

Definition add32 (a b : Z) : Z := (a + b) mod 2^32.
Definition rotr (n x : Z) : Z :=
  Z.lor (Z.shiftr x n) (Z.shiftl x (32 - n) mod 2^32).
Definition Ch (x y z : Z) : Z :=
  Z.lxor (Z.land x y) (Z.land (Z.lnot x) z).
Definition Maj (x y z : Z) : Z :=
  Z.lxor (Z.land x y) (Z.lxor (Z.land x z) (Z.land y z)).
Definition Sigma0 x := Z.lxor (rotr 2 x) (Z.lxor (rotr 13 x) (rotr 22 x)).
Definition Sigma1 x := Z.lxor (rotr 6 x) (Z.lxor (rotr 11 x) (rotr 25 x)).
Definition sigma0 x := Z.lxor (rotr 7 x) (Z.lxor (rotr 18 x) (Z.shiftr x 3)).
Definition sigma1 x := Z.lxor (rotr 17 x) (Z.lxor (rotr 19 x) (Z.shiftr x 10)).

(** The round constants are the first 32 bits of the fractional parts of the
    cube roots of the first 64 primes, the initial hash value those of the
    square roots of the first 8 primes. *)
Definition is_prime (n : nat) : bool :=
  (1 <? n)%nat && forallb (fun d => negb (n mod d =? 0)%nat) (seq 2 (n - 2)).

Definition primes : list Z :=
  map Z.of_nat (firstn 64 (List.filter is_prime (seq 2 310))).

Fixpoint cube_root_bits (bit : nat) (n x : Z) : Z :=
  match bit with
  | O => x
  | S bit' =>
      let y := x + 2 ^ Z.of_nat bit' in
      cube_root_bits bit' n (if y * y * y <=? n then y else x)
  end.

Definition frac_cube_root (p : Z) : Z := cube_root_bits 36 (p * 2 ^ 96) 0 mod 2 ^ 32.
Definition frac_sqrt (p : Z) : Z := Z.sqrt (p * 2 ^ 64) mod 2 ^ 32.

Definition K : list Z := Eval vm_compute in map frac_cube_root primes.

Record Regs := mkRegs { ra : Z; rb : Z; rc : Z; rd : Z; re : Z; rf : Z; rg : Z; rh : Z }.

Definition H0 : Regs :=
  Eval vm_compute in
    match map frac_sqrt (firstn 8 primes) with
    | [a; b; c; d; e; f; g; h] => mkRegs a b c d e f g h
    | _ => mkRegs 0 0 0 0 0 0 0 0
    end.

Example K_ends : nth 0 K 0 = 0x428a2f98 /\ nth 63 K 0 = 0xc67178f2 /\ length K = 64%nat.
Proof. repeat split. Qed.

Definition word_of_bytes (b : list Z) : Z :=
  fold_left (fun acc x => acc * 256 + x) b 0.

Definition bytes_of_word (w : Z) : list Z :=
  [ Z.land (Z.shiftr w 24) 0xff; Z.land (Z.shiftr w 16) 0xff;
    Z.land (Z.shiftr w 8) 0xff; Z.land w 0xff ].

Fixpoint words (n : nat) (bs : list Z) : list Z :=
  match n with
  | O => []
  | S n' => word_of_bytes (firstn 4 bs) :: words n' (skipn 4 bs)
  end.

Fixpoint schedule (n : nat) (w : list Z) : list Z :=
  match n with
  | O => w
  | S n' =>
      let t := length w in
      let x := add32 (add32 (sigma1 (nth (t - 2) w 0)) (nth (t - 7) w 0))
                     (add32 (sigma0 (nth (t - 15) w 0)) (nth (t - 16) w 0)) in
      schedule n' (w ++ [x])
  end.

Definition round (s : Regs) (kw : Z * Z) : Regs :=
  let t1 := add32 (add32 (add32 (rh s) (Sigma1 (re s))) (Ch (re s) (rf s) (rg s)))
                  (add32 (fst kw) (snd kw)) in
  let t2 := add32 (Sigma0 (ra s)) (Maj (ra s) (rb s) (rc s)) in
  mkRegs (add32 t1 t2) (ra s) (rb s) (rc s) (add32 (rd s) t1) (re s) (rf s) (rg s).

Definition compress (h : Regs) (block : list Z) : Regs :=
  let w := schedule 48 (words 16 block) in
  let s := fold_left round (combine K w) h in
  mkRegs (add32 (ra h) (ra s)) (add32 (rb h) (rb s)) (add32 (rc h) (rc s))
         (add32 (rd h) (rd s)) (add32 (re h) (re s)) (add32 (rf h) (rf s))
         (add32 (rg h) (rg s)) (add32 (rh h) (rh s)).

Fixpoint blocks (n : nat) (h : Regs) (bs : list Z) : Regs :=
  match n with
  | O => h
  | S n' => blocks n' (compress h (firstn 64 bs)) (skipn 64 bs)
  end.

Definition pad (msg : list Z) : list Z :=
  let l := Z.of_nat (length msg) in
  let bits := 8 * l in
  msg ++ [0x80] ++ repeat 0 (Z.to_nat ((55 - l) mod 64))
      ++ bytes_of_word (Z.shiftr bits 32) ++ bytes_of_word bits.

Definition digest (msg : list Z) : list Z :=
  let p := pad msg in
  let h := blocks (length p / 64) H0 p in
  bytes_of_word (ra h) ++ bytes_of_word (rb h) ++ bytes_of_word (rc h) ++
  bytes_of_word (rd h) ++ bytes_of_word (re h) ++ bytes_of_word (rf h) ++
  bytes_of_word (rg h) ++ bytes_of_word (rh h).

(** The class interface: the context is the message absorbed so far. *)
Definition Start : list Z := [].
Definition Update (ctx data : list Z) : list Z := ctx ++ data.
Definition Finish (ctx : list Z) : list Z := digest ctx.

Example digest_empty :
  firstn 8 (digest []) = [0xe3; 0xb0; 0xc4; 0x42; 0x98; 0xfc; 0x1c; 0x14].
Proof. vm_compute. reflexivity. Qed.

Example digest_abc :
  digest [0x61; 0x62; 0x63] =
  [ 0xba; 0x78; 0x16; 0xbf; 0x8f; 0x01; 0xcf; 0xea; 0x41; 0x41; 0x40; 0xde;
    0x5d; 0xae; 0x22; 0x23; 0xb0; 0x03; 0x61; 0xa3; 0x96; 0x17; 0x7a; 0x9c;
    0xb4; 0x10; 0xff; 0x61; 0xf2; 0x00; 0x15; 0xad ].
Proof. vm_compute. reflexivity. Qed.

Lemma byte_land_range x : 0 <= Z.land x 0xff < 2^8.
Proof.
  change 0xff with (Z.ones 8). rewrite Z.land_ones by lia.
  apply Z.mod_pos_bound. lia.
Qed.

Lemma digest_length msg : length (digest msg) = kHashSize.
Proof. reflexivity. Qed.

Lemma digest_bytes msg b : In b (digest msg) -> 0 <= b < 2^8.
Proof.
  unfold digest, bytes_of_word. cbv zeta. rewrite !in_app_iff. simpl.
  intros H.
  repeat match goal with
         | H : _ \/ _ |- _ => destruct H as [H|H]
         | H : _ = b |- _ => subst b; apply byte_land_range
         | H : False |- _ => destruct H
         end.
Qed.

End Sha256.

(** ** joiner_internal.cpp: joiner identifiers *)

Module Joiner.

(** Modelled from the spec: [kJoinerIdLength] and [kLocalExternalAddrMask] are
    declared in headers that are not part of [src/]; the specification fixes
    the joiner ID at 8 bytes and the local bit at 0x02. *)
Definition kJoinerIdLength : nat := 8.
Definition kLocalExternalAddrMask : Z := 0x02.

(** Modelled from the spec: [utils::Encode(ByteArray&, uint64_t)] lives in
    [common/utils.hpp], which is not part of [src/]; all multi-byte integers
    are big-endian, so it appends the eight bytes of the value, most
    significant first. *)
Fixpoint Encode_loop (i : nat) (aBuf : ByteArray) (aVal : Z) : ByteArray :=
  match i with
  | O => aBuf
  | S i' =>
      Encode_loop i' (aBuf ++ [Z.land (Z.shiftr aVal (8 * Z.of_nat i')) 0xff]) aVal
  end.

Definition Encode (aBuf : ByteArray) (aVal : Z) : ByteArray :=
  Encode_loop 8 aBuf aVal.

(** [joinerId[0] |= mask] on a byte array; indexing an empty array is
    undefined and left as it is. *)
Definition or_first (mask : Z) (a : ByteArray) : ByteArray :=
  match a with
  | [] => []
  | b0 :: rest => uint8_t (Z.lor b0 mask) :: rest
  end.

(** [ByteArray ComputeJoinerId(uint64_t aEui64)] *)
Definition ComputeJoinerId (aEui64 : Z) : ByteArray :=
  let eui64 := Encode [] aEui64 in
  let sha256 := Sha256.Start in
  let sha256 := Sha256.Update sha256 eui64 in
  let hash := Sha256.Finish sha256 in
  let joinerId := firstn kJoinerIdLength hash in
  or_first kLocalExternalAddrMask joinerId.

(** The joiner ID as the specification words it: SHA-256 of the big-endian
    bytes of the EUI-64, truncated to 8 bytes, byte 0 ORed with 0x02. *)
Definition be_bytes (e : Z) : list Z :=
  map (fun i => (e / 256 ^ (7 - Z.of_nat i)) mod 256) (seq 0 8).

Definition spec_joiner_id (e : Z) : list Z :=
  match firstn 8 (Sha256.digest (be_bytes e)) with
  | [] => []
  | b0 :: rest => Z.lor b0 0x02 :: rest
  end.

(** Modelled from the spec: [JoinerDiscerner] is declared in a header that is
    not part of [src/]; the static assertion of [ComputeJoinerId] fixes the
    size of [mData] at [kJoinerIdLength] bytes, modelled as an array of
    eight bytes. *)
Record JoinerDiscerner := mkDiscerner {
  mData0 : Z; mData1 : Z; mData2 : Z; mData3 : Z;
  mData4 : Z; mData5 : Z; mData6 : Z; mData7 : Z
}.

(** [aDiscerner.mData[i]] *)
Definition mData (d : JoinerDiscerner) (i : nat) : option Z :=
  match i with
  | 0%nat => Some (mData0 d) | 1%nat => Some (mData1 d)
  | 2%nat => Some (mData2 d) | 3%nat => Some (mData3 d)
  | 4%nat => Some (mData4 d) | 5%nat => Some (mData5 d)
  | 6%nat => Some (mData6 d) | 7%nat => Some (mData7 d)
  | _ => None
  end.

(** Modelled from the spec: [utils::Hex] applied to the discerner's [mData]
    lives in [common/utils.hpp], which is not part of [src/]; for
    discerner-based joiners the joiner ID is the discerner's 8-byte payload
    verbatim, so the overload used here turns the array into a [ByteArray]
    holding the same bytes in the same order. *)
Definition Hex (d : JoinerDiscerner) : ByteArray :=
  [ mData0 d; mData1 d; mData2 d; mData3 d; mData4 d; mData5 d; mData6 d; mData7 d ].

(** [ByteArray ComputeJoinerId(const JoinerDiscerner &aDiscerner)] *)
Definition ComputeJoinerId_discerner (aDiscerner : JoinerDiscerner) : ByteArray :=
  Hex aDiscerner.

Example ComputeJoinerId_zero :
  ComputeJoinerId 0 = [0xaf; 0x55; 0x70; 0xf5; 0xa1; 0x81; 0x0b; 0x7a].
Proof. vm_compute. reflexivity. Qed.

Example ComputeJoinerId_one :
  ComputeJoinerId 1 = [0xcf; 0x26; 0x62; 0x15; 0x4e; 0x6d; 0x76; 0xb2].
Proof. vm_compute. reflexivity. Qed.

Example ComputeJoinerId_sample :
  ComputeJoinerId 0x0123456789ABCDEF = [0x57; 0xc5; 0x3f; 0x5d; 0x49; 0x02; 0x97; 0x90].
Proof. vm_compute. reflexivity. Qed.

Lemma byte_of_shift e k : 0 <= k -> Z.land (Z.shiftr e (8 * k)) 0xff = (e / 256 ^ k) mod 256.
Proof.
  intros Hk. change 0xff with (Z.ones 8). rewrite Z.land_ones by lia.
  rewrite Z.shiftr_div_pow2 by lia.
  replace (2 ^ (8 * k)) with (256 ^ k); [reflexivity|].
  change 256 with (2 ^ 8). now rewrite <- Z.pow_mul_r by lia.
Qed.

Lemma Encode_be_bytes e : Encode [] e = be_bytes e.
Proof.
  unfold Encode, be_bytes. cbn [Encode_loop seq map app].
  rewrite !(byte_of_shift e) by lia. reflexivity.
Qed.

Lemma lor_mask_byte b : 0 <= b < 2^8 -> 0 <= Z.lor b 0x02 < 2^8.
Proof.
  intros Hb.
  assert (E : Z.lor b 0x02 = Z.lor b 0x02 mod 2^8).
  { rewrite <- Z.land_ones by lia. rewrite Z.land_lor_distr_l.
    rewrite Z.land_ones by lia. rewrite Z.mod_small by lia. reflexivity. }
  rewrite E. apply Z.mod_pos_bound. lia.
Qed.

Lemma land_lor_mask b m : Z.land (Z.lor b m) m = m.
Proof.
  apply Z.bits_inj'. intros n Hn.
  rewrite Z.land_spec, Z.lor_spec. destruct (Z.testbit b n), (Z.testbit m n); reflexivity.
Qed.

Lemma ComputeJoinerId_length e : length (ComputeJoinerId e) = kJoinerIdLength.
Proof. reflexivity. Qed.

(** C4: the joiner ID of an EUI-64 is the first 8 bytes of SHA-256 over the
    big-endian encoding of the EUI-64 with byte 0 ORed with 0x02; in
    particular the local bit of byte 0 is always set. *)
Theorem ComputeJoinerId_law (e : Z) :
  ComputeJoinerId e = spec_joiner_id e /\
  length (ComputeJoinerId e) = 8%nat /\
  exists b0 rest, ComputeJoinerId e = b0 :: rest /\ Z.land b0 0x02 = 0x02.
Proof.
  assert (Hspec : ComputeJoinerId e = spec_joiner_id e).
  { unfold ComputeJoinerId, spec_joiner_id. cbv zeta.
    unfold Sha256.Finish, Sha256.Update, Sha256.Start. rewrite app_nil_l.
    rewrite Encode_be_bytes. change kJoinerIdLength with 8%nat.
    pose proof (Sha256.digest_bytes (be_bytes e)) as Hbytes.
    destruct (Sha256.digest (be_bytes e)) as [|b0 tl] eqn:E; [reflexivity|].
    cbn [firstn or_first]. f_equal.
    apply uint8_t_id. apply lor_mask_byte. apply Hbytes. now left. }
  split; [exact Hspec|]. split; [reflexivity|].
  rewrite Hspec. unfold spec_joiner_id.
  pose proof (Sha256.digest_length (be_bytes e)) as Hlen.
  destruct (Sha256.digest (be_bytes e)) as [|b0 tl]; [discriminate Hlen|].
  cbn [firstn]. eexists _, _. split; [reflexivity|].
  apply land_lor_mask.
Qed.

(** C5: the joiner ID of a discerner-based joiner is the discerner's 8-byte
    payload, byte for byte. *)
Theorem ComputeJoinerId_discerner_verbatim (d : JoinerDiscerner) :
  length (ComputeJoinerId_discerner d) = kJoinerIdLength /\
  forall i : nat, (i < kJoinerIdLength)%nat ->
    ComputeJoinerId_discerner d !! i = mData d i.
Proof.
  split; [reflexivity|].
  intros i Hi. unfold kJoinerIdLength in Hi.
  do 8 (destruct i as [|i]; [reflexivity|]). lia.
Qed.

End Joiner.

(** Joiner IDs are compared, never recomputed, in what follows. *)
Opaque Joiner.ComputeJoinerId.

(** ** The commissioner application *)

Module App.

(** *** Presence bitmaps

    [mPresentFlags] is a [uint16_t]; a presence bit is tested with
    [flags & bit], set with [flags |= bit] and cleared with [flags &= ~bit]. *)

Definition bit_at (i : Z) : Z := Z.shiftl 1 i.
Definition flag_test (flags bit : Z) : bool := negb (Z.land flags bit =? 0).
Definition flag_set (flags bit : Z) : Z := uint16_t (Z.lor flags bit).
Definition flag_clear (flags bit : Z) : Z := uint16_t (Z.land flags (Z.lnot bit)).

Lemma bit_at_pow i : 0 <= i -> bit_at i = 2 ^ i.
Proof. intros Hi. unfold bit_at. now rewrite Z.shiftl_1_l. Qed.

Lemma flag_test_testbit fl i : 0 <= i -> flag_test fl (bit_at i) = Z.testbit fl i.
Proof.
  intros Hi. unfold flag_test. rewrite bit_at_pow by lia.
  destruct (Z.testbit fl i) eqn:E.
  - destruct (Z.eqb_spec (Z.land fl (2 ^ i)) 0) as [Hz|]; [|reflexivity].
    assert (Hb : Z.testbit (Z.land fl (2 ^ i)) i = true).
    { rewrite Z.land_spec, E, Z.pow2_bits_true by lia. reflexivity. }
    rewrite Hz, Z.bits_0 in Hb. discriminate.
  - replace (Z.land fl (2 ^ i)) with 0; [reflexivity|].
    symmetry. apply Z.bits_inj'. intros n Hn.
    rewrite Z.land_spec, Z.bits_0, Z.pow2_bits_eqb by lia.
    destruct (Z.eqb_spec i n) as [->|]; [now rewrite E | apply andb_false_r].
Qed.

Lemma testbit_flag_set fl i j :
  0 <= i -> 0 <= j < 16 ->
  Z.testbit (flag_set fl (bit_at i)) j = (i =? j) || Z.testbit fl j.
Proof.
  intros Hi Hj. unfold flag_set, uint16_t.
  rewrite Z.mod_pow2_bits_low by lia.
  rewrite Z.lor_spec, bit_at_pow, Z.pow2_bits_eqb by lia.
  apply orb_comm.
Qed.

Lemma testbit_flag_clear fl i j :
  0 <= i -> 0 <= j < 16 ->
  Z.testbit (flag_clear fl (bit_at i)) j = negb (i =? j) && Z.testbit fl j.
Proof.
  intros Hi Hj. unfold flag_clear, uint16_t.
  rewrite Z.mod_pow2_bits_low by lia.
  rewrite Z.land_spec, Z.lnot_spec, bit_at_pow, Z.pow2_bits_eqb by lia.
  apply andb_comm.
Qed.

(** *** Field payloads *)

(** Modelled from the spec: the payload structures of the datasets are
    declared in the public header [network_data.hpp], which is not part of
    [src/]; the application copies them as whole values and never looks
    inside. *)
Record Timestamp := mkTimestamp { mSeconds : Z; mTicks : Z; mU : Z }.
Record Channel := mkChannel { mPage : Z; mNumber : Z }.
Record ChannelMaskEntry := mkChannelMaskEntry { mMaskPage : Z; mMasks : ByteArray }.
Definition ChannelMask := list ChannelMaskEntry.
Record SecurityPolicy := mkSecurityPolicy { mRotationTime : Z; mFlags : ByteArray }.

(** A dataset member of any type, for statements that range over fields. *)
Inductive Value :=
| VUnit
| VBool (b : bool)
| VU16 (z : Z)
| VU32 (z : Z)
| VBytes (b : ByteArray)
| VString (s : string)
| VTimestamp (t : Timestamp)
| VChannel (c : Channel)
| VChannelMask (m : ChannelMask)
| VSecurityPolicy (p : SecurityPolicy).

(** *** The field-copy macros

    Each [MergeDataset] overload defines a macro [TEST_AND_SET(name)] over the
    member [m##name] and the constant [k##name##Bit] of one dataset
    structure.  A structure provides its flags word and, per field name, the
    member assignment [aDst.m##name = aSrc.m##name]. *)

Class Schema (D F : Type) := {
  flags : D -> Z;
  with_flags : Z -> D -> D;
  assign : F -> D -> D -> D;
  view : F -> D -> Value;
  flags_with_flags : forall z d, flags (with_flags z d) = z;
  view_with_flags : forall f z d, view f (with_flags z d) = view f d;
  flags_assign : forall f s d, flags (assign f s d) = flags d;
  view_assign_eq : forall f s d, view f (assign f s d) = view f s;
  view_assign_ne : forall f g s d, f <> g -> view g (assign f s d) = view g d
}.

Section FieldCopy.
Context {D F : Type} `{Schema D F} `{EqDecision F}.

(** [pos name] is the position of the bit [k##name##Bit]. *)
Variable pos : F -> Z.

Definition kBit (name : F) : Z := bit_at (pos name).

Definition present (name : F) (d : D) : bool := flag_test (flags d) (kBit name).

(** [if (aSrc.mPresentFlags & kBit) { aDst.m = aSrc.m; aDst.mPresentFlags |= kBit; }] *)
Definition TEST_AND_SET (name : F) (aSrc aDst : D) : D :=
  if present name aSrc then
    let aDst := assign name aSrc aDst in
    with_flags (flag_set (flags aDst) (kBit name)) aDst
  else aDst.

(** The same with [else { aDst.mPresentFlags &= ~kBit; }] *)
Definition TEST_AND_SET_OR_CLEAR (name : F) (aSrc aDst : D) : D :=
  if present name aSrc then
    let aDst := assign name aSrc aDst in
    with_flags (flag_set (flags aDst) (kBit name)) aDst
  else with_flags (flag_clear (flags aDst) (kBit name)) aDst.

Definition copy_fields (names : list F) (aSrc aDst : D) : D :=
  fold_left (fun d name => TEST_AND_SET name aSrc d) names aDst.

Definition replace_fields (names : list F) (aSrc aDst : D) : D :=
  fold_left (fun d name => TEST_AND_SET_OR_CLEAR name aSrc d) names aDst.

Hypothesis pos_range : forall f, 0 <= pos f < 16.
Hypothesis pos_inj : forall f g, pos f = pos g -> f = g.

Lemma present_testbit f d : present f d = Z.testbit (flags d) (pos f).
Proof. unfold present, kBit. apply flag_test_testbit. apply pos_range. Qed.

Lemma pos_eqb f g : (pos f =? pos g) = bool_decide (f = g).
Proof.
  destruct (Z.eqb_spec (pos f) (pos g)) as [E|E].
  - apply pos_inj in E. subst. now rewrite bool_decide_eq_true_2.
  - rewrite bool_decide_eq_false_2; [reflexivity|]. intros ->. now apply E.
Qed.

Lemma present_TEST_AND_SET g name s d :
  present g (TEST_AND_SET name s d) =
  (bool_decide (name = g) && present name s) || present g d.
Proof.
  unfold TEST_AND_SET. destruct (present name s) eqn:E; cbv zeta.
  - rewrite andb_true_r, !present_testbit, flags_with_flags, flags_assign.
    unfold kBit. rewrite testbit_flag_set by (apply pos_range).
    now rewrite pos_eqb.
  - now rewrite andb_false_r.
Qed.

Lemma view_TEST_AND_SET g name s d :
  view g (TEST_AND_SET name s d) =
  if bool_decide (name = g) && present name s then view g s else view g d.
Proof.
  unfold TEST_AND_SET. destruct (present name s) eqn:E; cbv zeta.
  - rewrite andb_true_r, view_with_flags. case_bool_decide as Hfg.
    + subst. apply view_assign_eq.
    + now apply view_assign_ne.
  - now rewrite andb_false_r.
Qed.

Lemma present_TEST_AND_SET_OR_CLEAR g name s d :
  present g (TEST_AND_SET_OR_CLEAR name s d) =
  if bool_decide (name = g) then present name s else present g d.
Proof.
  unfold TEST_AND_SET_OR_CLEAR. destruct (present name s) eqn:E; cbv zeta.
  - rewrite !present_testbit, flags_with_flags, flags_assign.
    unfold kBit. rewrite testbit_flag_set by (apply pos_range).
    rewrite pos_eqb. now case_bool_decide.
  - rewrite !present_testbit, flags_with_flags.
    unfold kBit. rewrite testbit_flag_clear by (apply pos_range).
    rewrite pos_eqb. now case_bool_decide.
Qed.

Lemma view_TEST_AND_SET_OR_CLEAR g name s d :
  view g (TEST_AND_SET_OR_CLEAR name s d) =
  if bool_decide (name = g) && present name s then view g s else view g d.
Proof.
  unfold TEST_AND_SET_OR_CLEAR. destruct (present name s) eqn:E; cbv zeta.
  - rewrite andb_true_r, view_with_flags. case_bool_decide as Hfg.
    + subst. apply view_assign_eq.
    + now apply view_assign_ne.
  - rewrite andb_false_r. apply view_with_flags.
Qed.

Lemma elem_of_cons_decide (n : F) names g :
  bool_decide (g ∈ n :: names) = bool_decide (n = g) || bool_decide (g ∈ names).
Proof.
  apply eq_true_iff_eq. rewrite orb_true_iff, !bool_decide_eq_true, elem_of_cons.
  split; (intros [->|Hin]; [now left | now right]).
Qed.

Lemma present_copy_fields names g s d :
  present g (copy_fields names s d) =
  (bool_decide (g ∈ names) && present g s) || present g d.
Proof.
  unfold copy_fields. revert d. induction names as [|n names IH]; intros d; cbn [fold_left].
  - reflexivity.
  - rewrite IH, present_TEST_AND_SET.
    rewrite elem_of_cons_decide.
    destruct (bool_decide (n = g)) eqn:E, (bool_decide (g ∈ names));
      try (apply bool_decide_eq_true in E; subst n);
      destruct (present g s); try reflexivity; now destruct (present g d).
Qed.

Lemma view_copy_fields names g s d :
  view g (copy_fields names s d) =
  if bool_decide (g ∈ names) && present g s then view g s else view g d.
Proof.
  unfold copy_fields. revert d. induction names as [|n names IH]; intros d; cbn [fold_left].
  - reflexivity.
  - rewrite IH, view_TEST_AND_SET.
    rewrite elem_of_cons_decide.
    destruct (bool_decide (n = g)) eqn:E, (bool_decide (g ∈ names));
      try (apply bool_decide_eq_true in E; subst n);
      destruct (present g s); try reflexivity; now destruct (present g d).
Qed.

Lemma present_replace_fields names g s d :
  present g (replace_fields names s d) =
  if bool_decide (g ∈ names) then present g s else present g d.
Proof.
  unfold replace_fields. revert d. induction names as [|n names IH]; intros d; cbn [fold_left].
  - reflexivity.
  - rewrite IH, present_TEST_AND_SET_OR_CLEAR.
    rewrite elem_of_cons_decide.
    destruct (bool_decide (n = g)) eqn:E, (bool_decide (g ∈ names));
      try (apply bool_decide_eq_true in E; subst n);
      destruct (present g s); try reflexivity; now destruct (present g d).
Qed.

Lemma view_replace_fields names g s d :
  view g (replace_fields names s d) =
  if bool_decide (g ∈ names) && present g s then view g s else view g d.
Proof.
  unfold replace_fields. revert d. induction names as [|n names IH]; intros d; cbn [fold_left].
  - reflexivity.
  - rewrite IH, view_TEST_AND_SET_OR_CLEAR.
    rewrite elem_of_cons_decide.
    destruct (bool_decide (n = g)) eqn:E, (bool_decide (g ∈ names));
      try (apply bool_decide_eq_true in E; subst n);
      destruct (present g s); try reflexivity; now destruct (present g d).
Qed.

Lemma present_flag_set f g d :
  present g (with_flags (flag_set (flags d) (kBit f)) d) = bool_decide (f = g) || present g d.
Proof.
  rewrite !present_testbit, flags_with_flags. unfold kBit.
  rewrite testbit_flag_set by (apply pos_range). now rewrite pos_eqb.
Qed.

Lemma present_flag_clear f g d :
  present g (with_flags (flag_clear (flags d) (kBit f)) d) =
  negb (bool_decide (f = g)) && present g d.
Proof.
  rewrite !present_testbit, flags_with_flags. unfold kBit.
  rewrite testbit_flag_clear by (apply pos_range). now rewrite pos_eqb.
Qed.

End FieldCopy.

(** *** The four datasets *)

(** The field names that the macros range over. *)
Inductive CommissionerDatasetField :=
| kBorderAgentLocator
| kSessionId
| kSteeringData
| kAeSteeringData
| kNmkpSteeringData
| kJoinerUdpPort
| kAeUdpPort
| kNmkpUdpPort.

#[global] Instance CommissionerDatasetField_eq_dec : EqDecision CommissionerDatasetField.
Proof. solve_decision. Defined.

Module CommissionerDataset.

Abbreviation field := CommissionerDatasetField.

(** Modelled from the spec: [struct CommissionerDataset] is declared in
    [network_data.hpp], which is not part of [src/]; its members are the
    fields the specification lists, as the application uses them. *)

Record t := mk {
  mBorderAgentLocator : Z;
  mSessionId : Z;
  mSteeringData : ByteArray;
  mAeSteeringData : ByteArray;
  mNmkpSteeringData : ByteArray;
  mJoinerUdpPort : Z;
  mAeUdpPort : Z;
  mNmkpUdpPort : Z;
  mPresentFlags : Z
}.

Definition set_mBorderAgentLocator (v : Z) (d : t) : t :=
  mk v (mSessionId d) (mSteeringData d) (mAeSteeringData d) (mNmkpSteeringData d)
     (mJoinerUdpPort d) (mAeUdpPort d) (mNmkpUdpPort d) (mPresentFlags d).
Definition set_mSessionId (v : Z) (d : t) : t :=
  mk (mBorderAgentLocator d) v (mSteeringData d) (mAeSteeringData d)
     (mNmkpSteeringData d) (mJoinerUdpPort d) (mAeUdpPort d) (mNmkpUdpPort d) (mPresentFlags d).
Definition set_mSteeringData (v : ByteArray) (d : t) : t :=
  mk (mBorderAgentLocator d) (mSessionId d) v (mAeSteeringData d) (mNmkpSteeringData d)
     (mJoinerUdpPort d) (mAeUdpPort d) (mNmkpUdpPort d) (mPresentFlags d).
Definition set_mAeSteeringData (v : ByteArray) (d : t) : t :=
  mk (mBorderAgentLocator d) (mSessionId d) (mSteeringData d) v (mNmkpSteeringData d)
     (mJoinerUdpPort d) (mAeUdpPort d) (mNmkpUdpPort d) (mPresentFlags d).
Definition set_mNmkpSteeringData (v : ByteArray) (d : t) : t :=
  mk (mBorderAgentLocator d) (mSessionId d) (mSteeringData d) (mAeSteeringData d) v
     (mJoinerUdpPort d) (mAeUdpPort d) (mNmkpUdpPort d) (mPresentFlags d).
Definition set_mJoinerUdpPort (v : Z) (d : t) : t :=
  mk (mBorderAgentLocator d) (mSessionId d) (mSteeringData d) (mAeSteeringData d)
     (mNmkpSteeringData d) v (mAeUdpPort d) (mNmkpUdpPort d) (mPresentFlags d).
Definition set_mAeUdpPort (v : Z) (d : t) : t :=
  mk (mBorderAgentLocator d) (mSessionId d) (mSteeringData d) (mAeSteeringData d)
     (mNmkpSteeringData d) (mJoinerUdpPort d) v (mNmkpUdpPort d) (mPresentFlags d).
Definition set_mNmkpUdpPort (v : Z) (d : t) : t :=
  mk (mBorderAgentLocator d) (mSessionId d) (mSteeringData d) (mAeSteeringData d)
     (mNmkpSteeringData d) (mJoinerUdpPort d) (mAeUdpPort d) v (mPresentFlags d).
Definition set_mPresentFlags (v : Z) (d : t) : t :=
  mk (mBorderAgentLocator d) (mSessionId d) (mSteeringData d) (mAeSteeringData d)
     (mNmkpSteeringData d) (mJoinerUdpPort d) (mAeUdpPort d) (mNmkpUdpPort d) v.

Definition fields : list field :=
  [ kBorderAgentLocator; kSessionId; kSteeringData; kAeSteeringData; kNmkpSteeringData;
     kJoinerUdpPort; kAeUdpPort; kNmkpUdpPort ].

Lemma comm_fields_complete f : In f fields.
Proof. destruct f; cbn; tauto. Qed.

(** [aDst.m##name = aSrc.m##name] *)
Definition assign (name : field) (aSrc aDst : t) : t :=
  match name with
  | kBorderAgentLocator => set_mBorderAgentLocator (mBorderAgentLocator aSrc) aDst
  | kSessionId => set_mSessionId (mSessionId aSrc) aDst
  | kSteeringData => set_mSteeringData (mSteeringData aSrc) aDst
  | kAeSteeringData => set_mAeSteeringData (mAeSteeringData aSrc) aDst
  | kNmkpSteeringData => set_mNmkpSteeringData (mNmkpSteeringData aSrc) aDst
  | kJoinerUdpPort => set_mJoinerUdpPort (mJoinerUdpPort aSrc) aDst
  | kAeUdpPort => set_mAeUdpPort (mAeUdpPort aSrc) aDst
  | kNmkpUdpPort => set_mNmkpUdpPort (mNmkpUdpPort aSrc) aDst
  end.

Definition view (name : field) (d : t) : Value :=
  match name with
  | kBorderAgentLocator => VU16 (mBorderAgentLocator d)
  | kSessionId => VU16 (mSessionId d)
  | kSteeringData => VBytes (mSteeringData d)
  | kAeSteeringData => VBytes (mAeSteeringData d)
  | kNmkpSteeringData => VBytes (mNmkpSteeringData d)
  | kJoinerUdpPort => VU16 (mJoinerUdpPort d)
  | kAeUdpPort => VU16 (mAeUdpPort d)
  | kNmkpUdpPort => VU16 (mNmkpUdpPort d)
  end.

(** A default-constructed dataset: no field present. *)
Definition empty : t :=
  mk 0 0 [] [] [] 0 0 0 0.

Lemma comm_view_set_flags f z d : view f (set_mPresentFlags z d) = view f d.
Proof. destruct f; reflexivity. Qed.

Lemma comm_flags_assign f s d : mPresentFlags (assign f s d) = mPresentFlags d.
Proof. destruct f; reflexivity. Qed.

Lemma comm_view_assign_eq f s d : view f (assign f s d) = view f s.
Proof. destruct f; reflexivity. Qed.

Lemma comm_view_assign_ne f g s d : f <> g -> view g (assign f s d) = view g d.
Proof. intros Hne. destruct f, g; try reflexivity; now destruct Hne. Qed.

#[global] Instance schema : Schema t field :=
  Build_Schema t field mPresentFlags set_mPresentFlags assign view
    (fun _ _ => eq_refl) comm_view_set_flags comm_flags_assign comm_view_assign_eq comm_view_assign_ne.

End CommissionerDataset.

(** The field names that the macros range over. *)
Inductive ActiveOperationalDatasetField :=
| kActiveTimestamp
| kChannel
| kChannelMask
| kExtendedPanId
| kMeshLocalPrefix
| kNetworkMasterKey
| kNetworkName
| kPanId
| kPSKc
| kSecurityPolicy.

#[global] Instance ActiveOperationalDatasetField_eq_dec : EqDecision ActiveOperationalDatasetField.
Proof. solve_decision. Defined.

Module ActiveOperationalDataset.

Abbreviation field := ActiveOperationalDatasetField.

(** Modelled from the spec: [struct ActiveOperationalDataset], likewise. *)

Record t := mk {
  mActiveTimestamp : Timestamp;
  mChannel : Channel;
  mChannelMask : ChannelMask;
  mExtendedPanId : ByteArray;
  mMeshLocalPrefix : ByteArray;
  mNetworkMasterKey : ByteArray;
  mNetworkName : string;
  mPanId : Z;
  mPSKc : ByteArray;
  mSecurityPolicy : SecurityPolicy;
  mPresentFlags : Z
}.

Definition set_mActiveTimestamp (v : Timestamp) (d : t) : t :=
  mk v (mChannel d) (mChannelMask d) (mExtendedPanId d) (mMeshLocalPrefix d)
     (mNetworkMasterKey d) (mNetworkName d) (mPanId d) (mPSKc d) (mSecurityPolicy d)
     (mPresentFlags d).
Definition set_mChannel (v : Channel) (d : t) : t :=
  mk (mActiveTimestamp d) v (mChannelMask d) (mExtendedPanId d) (mMeshLocalPrefix d)
     (mNetworkMasterKey d) (mNetworkName d) (mPanId d) (mPSKc d) (mSecurityPolicy d)
     (mPresentFlags d).
Definition set_mChannelMask (v : ChannelMask) (d : t) : t :=
  mk (mActiveTimestamp d) (mChannel d) v (mExtendedPanId d) (mMeshLocalPrefix d)
     (mNetworkMasterKey d) (mNetworkName d) (mPanId d) (mPSKc d) (mSecurityPolicy d)
     (mPresentFlags d).
Definition set_mExtendedPanId (v : ByteArray) (d : t) : t :=
  mk (mActiveTimestamp d) (mChannel d) (mChannelMask d) v (mMeshLocalPrefix d)
     (mNetworkMasterKey d) (mNetworkName d) (mPanId d) (mPSKc d) (mSecurityPolicy d)
     (mPresentFlags d).
Definition set_mMeshLocalPrefix (v : ByteArray) (d : t) : t :=
  mk (mActiveTimestamp d) (mChannel d) (mChannelMask d) (mExtendedPanId d) v
     (mNetworkMasterKey d) (mNetworkName d) (mPanId d) (mPSKc d) (mSecurityPolicy d)
     (mPresentFlags d).
Definition set_mNetworkMasterKey (v : ByteArray) (d : t) : t :=
  mk (mActiveTimestamp d) (mChannel d) (mChannelMask d) (mExtendedPanId d)
     (mMeshLocalPrefix d) v (mNetworkName d) (mPanId d) (mPSKc d) (mSecurityPolicy d)
     (mPresentFlags d).
Definition set_mNetworkName (v : string) (d : t) : t :=
  mk (mActiveTimestamp d) (mChannel d) (mChannelMask d) (mExtendedPanId d)
     (mMeshLocalPrefix d) (mNetworkMasterKey d) v (mPanId d) (mPSKc d)
     (mSecurityPolicy d) (mPresentFlags d).
Definition set_mPanId (v : Z) (d : t) : t :=
  mk (mActiveTimestamp d) (mChannel d) (mChannelMask d) (mExtendedPanId d)
     (mMeshLocalPrefix d) (mNetworkMasterKey d) (mNetworkName d) v (mPSKc d)
     (mSecurityPolicy d) (mPresentFlags d).
Definition set_mPSKc (v : ByteArray) (d : t) : t :=
  mk (mActiveTimestamp d) (mChannel d) (mChannelMask d) (mExtendedPanId d)
     (mMeshLocalPrefix d) (mNetworkMasterKey d) (mNetworkName d) (mPanId d) v
     (mSecurityPolicy d) (mPresentFlags d).
Definition set_mSecurityPolicy (v : SecurityPolicy) (d : t) : t :=
  mk (mActiveTimestamp d) (mChannel d) (mChannelMask d) (mExtendedPanId d)
     (mMeshLocalPrefix d) (mNetworkMasterKey d) (mNetworkName d) (mPanId d) (mPSKc d) v
     (mPresentFlags d).
Definition set_mPresentFlags (v : Z) (d : t) : t :=
  mk (mActiveTimestamp d) (mChannel d) (mChannelMask d) (mExtendedPanId d)
     (mMeshLocalPrefix d) (mNetworkMasterKey d) (mNetworkName d) (mPanId d) (mPSKc d)
     (mSecurityPolicy d) v.

Definition fields : list field :=
  [ kActiveTimestamp; kChannel; kChannelMask; kExtendedPanId; kMeshLocalPrefix;
     kNetworkMasterKey; kNetworkName; kPanId; kPSKc; kSecurityPolicy ].

Lemma active_fields_complete f : In f fields.
Proof. destruct f; cbn; tauto. Qed.

(** [aDst.m##name = aSrc.m##name] *)
Definition assign (name : field) (aSrc aDst : t) : t :=
  match name with
  | kActiveTimestamp => set_mActiveTimestamp (mActiveTimestamp aSrc) aDst
  | kChannel => set_mChannel (mChannel aSrc) aDst
  | kChannelMask => set_mChannelMask (mChannelMask aSrc) aDst
  | kExtendedPanId => set_mExtendedPanId (mExtendedPanId aSrc) aDst
  | kMeshLocalPrefix => set_mMeshLocalPrefix (mMeshLocalPrefix aSrc) aDst
  | kNetworkMasterKey => set_mNetworkMasterKey (mNetworkMasterKey aSrc) aDst
  | kNetworkName => set_mNetworkName (mNetworkName aSrc) aDst
  | kPanId => set_mPanId (mPanId aSrc) aDst
  | kPSKc => set_mPSKc (mPSKc aSrc) aDst
  | kSecurityPolicy => set_mSecurityPolicy (mSecurityPolicy aSrc) aDst
  end.

Definition view (name : field) (d : t) : Value :=
  match name with
  | kActiveTimestamp => VTimestamp (mActiveTimestamp d)
  | kChannel => VChannel (mChannel d)
  | kChannelMask => VChannelMask (mChannelMask d)
  | kExtendedPanId => VBytes (mExtendedPanId d)
  | kMeshLocalPrefix => VBytes (mMeshLocalPrefix d)
  | kNetworkMasterKey => VBytes (mNetworkMasterKey d)
  | kNetworkName => VString (mNetworkName d)
  | kPanId => VU16 (mPanId d)
  | kPSKc => VBytes (mPSKc d)
  | kSecurityPolicy => VSecurityPolicy (mSecurityPolicy d)
  end.

(** A default-constructed dataset: no field present. *)
Definition empty : t :=
  mk (mkTimestamp 0 0 0) (mkChannel 0 0) [] [] [] [] EmptyString 0 [] (mkSecurityPolicy 0 []) 0.

Lemma active_view_set_flags f z d : view f (set_mPresentFlags z d) = view f d.
Proof. destruct f; reflexivity. Qed.

Lemma active_flags_assign f s d : mPresentFlags (assign f s d) = mPresentFlags d.
Proof. destruct f; reflexivity. Qed.

Lemma active_view_assign_eq f s d : view f (assign f s d) = view f s.
Proof. destruct f; reflexivity. Qed.

Lemma active_view_assign_ne f g s d : f <> g -> view g (assign f s d) = view g d.
Proof. intros Hne. destruct f, g; try reflexivity; now destruct Hne. Qed.

#[global] Instance schema : Schema t field :=
  Build_Schema t field mPresentFlags set_mPresentFlags assign view
    (fun _ _ => eq_refl) active_view_set_flags active_flags_assign active_view_assign_eq active_view_assign_ne.

End ActiveOperationalDataset.

(** The field names that the macros range over. *)
Inductive BbrDatasetField :=
| kTriHostname
| kRegistrarHostname
| kRegistrarIpv6Addr.

#[global] Instance BbrDatasetField_eq_dec : EqDecision BbrDatasetField.
Proof. solve_decision. Defined.

Module BbrDataset.

Abbreviation field := BbrDatasetField.

(** Modelled from the spec: [struct BbrDataset], likewise. *)

Record t := mk {
  mTriHostname : string;
  mRegistrarHostname : string;
  mRegistrarIpv6Addr : string;
  mPresentFlags : Z
}.

Definition set_mTriHostname (v : string) (d : t) : t :=
  mk v (mRegistrarHostname d) (mRegistrarIpv6Addr d) (mPresentFlags d).
Definition set_mRegistrarHostname (v : string) (d : t) : t :=
  mk (mTriHostname d) v (mRegistrarIpv6Addr d) (mPresentFlags d).
Definition set_mRegistrarIpv6Addr (v : string) (d : t) : t :=
  mk (mTriHostname d) (mRegistrarHostname d) v (mPresentFlags d).
Definition set_mPresentFlags (v : Z) (d : t) : t :=
  mk (mTriHostname d) (mRegistrarHostname d) (mRegistrarIpv6Addr d) v.

Definition fields : list field :=
  [ kTriHostname; kRegistrarHostname; kRegistrarIpv6Addr ].

Lemma bbr_fields_complete f : In f fields.
Proof. destruct f; cbn; tauto. Qed.

(** [aDst.m##name = aSrc.m##name] *)
Definition assign (name : field) (aSrc aDst : t) : t :=
  match name with
  | kTriHostname => set_mTriHostname (mTriHostname aSrc) aDst
  | kRegistrarHostname => set_mRegistrarHostname (mRegistrarHostname aSrc) aDst
  | kRegistrarIpv6Addr => set_mRegistrarIpv6Addr (mRegistrarIpv6Addr aSrc) aDst
  end.

Definition view (name : field) (d : t) : Value :=
  match name with
  | kTriHostname => VString (mTriHostname d)
  | kRegistrarHostname => VString (mRegistrarHostname d)
  | kRegistrarIpv6Addr => VString (mRegistrarIpv6Addr d)
  end.

(** A default-constructed dataset: no field present. *)
Definition empty : t :=
  mk EmptyString EmptyString EmptyString 0.

Lemma bbr_view_set_flags f z d : view f (set_mPresentFlags z d) = view f d.
Proof. destruct f; reflexivity. Qed.

Lemma bbr_flags_assign f s d : mPresentFlags (assign f s d) = mPresentFlags d.
Proof. destruct f; reflexivity. Qed.

Lemma bbr_view_assign_eq f s d : view f (assign f s d) = view f s.
Proof. destruct f; reflexivity. Qed.

Lemma bbr_view_assign_ne f g s d : f <> g -> view g (assign f s d) = view g d.
Proof. intros Hne. destruct f, g; try reflexivity; now destruct Hne. Qed.

#[global] Instance schema : Schema t field :=
  Build_Schema t field mPresentFlags set_mPresentFlags assign view
    (fun _ _ => eq_refl) bbr_view_set_flags bbr_flags_assign bbr_view_assign_eq bbr_view_assign_ne.

End BbrDataset.


(** The field names: the inherited ones and the two of this structure. *)
Inductive PendingOperationalDatasetField :=
| kActive (f : ActiveOperationalDatasetField)
| kPendingTimestamp
| kDelayTimer.

#[global] Instance PendingOperationalDatasetField_eq_dec : EqDecision PendingOperationalDatasetField.
Proof. solve_decision. Defined.

Module PendingOperationalDataset.

Abbreviation field := PendingOperationalDatasetField.

(** Modelled from the spec: [struct PendingOperationalDataset] derives from
    [ActiveOperationalDataset] (the merge casts it to its base) and adds the
    pending timestamp and the delay timer; the flags word is the base's. *)

Record t := mk {
  base : ActiveOperationalDataset.t;
  mPendingTimestamp : Timestamp;
  mDelayTimer : Z
}.

Definition set_base (v : ActiveOperationalDataset.t) (d : t) : t :=
  mk v (mPendingTimestamp d) (mDelayTimer d).
Definition set_mPendingTimestamp (v : Timestamp) (d : t) : t :=
  mk (base d) v (mDelayTimer d).
Definition set_mDelayTimer (v : Z) (d : t) : t :=
  mk (base d) (mPendingTimestamp d) v.

Definition mPresentFlags (d : t) : Z := ActiveOperationalDataset.mPresentFlags (base d).
Definition set_mPresentFlags (v : Z) (d : t) : t :=
  set_base (ActiveOperationalDataset.set_mPresentFlags v (base d)) d.

Definition fields : list field :=
  map kActive ActiveOperationalDataset.fields ++ [ kPendingTimestamp; kDelayTimer ].

Lemma pending_fields_complete f : In f fields.
Proof. destruct f as [[]| |]; cbn; tauto. Qed.

Definition assign (name : field) (aSrc aDst : t) : t :=
  match name with
  | kActive f => set_base (ActiveOperationalDataset.assign f (base aSrc) (base aDst)) aDst
  | kPendingTimestamp => set_mPendingTimestamp (mPendingTimestamp aSrc) aDst
  | kDelayTimer => set_mDelayTimer (mDelayTimer aSrc) aDst
  end.

Definition view (name : field) (d : t) : Value :=
  match name with
  | kActive f => ActiveOperationalDataset.view f (base d)
  | kPendingTimestamp => VTimestamp (mPendingTimestamp d)
  | kDelayTimer => VU32 (mDelayTimer d)
  end.

Definition empty : t := mk ActiveOperationalDataset.empty (mkTimestamp 0 0 0) 0.

Lemma pending_view_set_flags f z d : view f (set_mPresentFlags z d) = view f d.
Proof. destruct f as [[]| |]; reflexivity. Qed.

Lemma pending_flags_assign f s d : mPresentFlags (assign f s d) = mPresentFlags d.
Proof. destruct f as [[]| |]; reflexivity. Qed.

Lemma pending_view_assign_eq f s d : view f (assign f s d) = view f s.
Proof. destruct f as [[]| |]; reflexivity. Qed.

Lemma pending_view_assign_ne f g s d : f <> g -> view g (assign f s d) = view g d.
Proof.
  intros Hne. destruct f as [f| |], g as [g| |]; try reflexivity; try now destruct Hne.
  cbn. apply ActiveOperationalDataset.active_view_assign_ne. congruence.
Qed.

#[global] Instance schema : Schema t field :=
  Build_Schema t field mPresentFlags set_mPresentFlags assign view
    (fun _ _ => eq_refl) pending_view_set_flags pending_flags_assign pending_view_assign_eq pending_view_assign_ne.

End PendingOperationalDataset.

(** *** The bit constants

    The constants [k...Bit] are declared with the dataset structures, outside
    [src/]; they are taken as a parameter: one bit position per field name.
    The pending dataset shares its flags word with the inherited fields, so
    its positions cover both. *)

Record Layout := mkLayout {
  comm_pos : CommissionerDataset.field -> Z;
  pending_pos : PendingOperationalDataset.field -> Z;
  bbr_pos : BbrDataset.field -> Z
}.

Definition active_pos (L : Layout) (f : ActiveOperationalDataset.field) : Z :=
  pending_pos L (kActive f).

(** Every constant is a single bit of the 16-bit word and no two constants of
    one word coincide. *)
Definition positions_ok {F : Type} `{EqDecision F} (pos : F -> Z) (all : list F) : bool :=
  forallb (fun f =>
    (0 <=? pos f) && (pos f <? 16) &&
    forallb (fun g => implb (pos f =? pos g) (bool_decide (f = g))) all) all.

Definition layout_ok (L : Layout) : bool :=
  positions_ok (comm_pos L) CommissionerDataset.fields &&
  positions_ok (pending_pos L) PendingOperationalDataset.fields &&
  positions_ok (bbr_pos L) BbrDataset.fields.

(** The assignment of the public header: bits 15 downwards in declaration
    order. *)
Definition header_layout : Layout :=
  mkLayout
    (fun f => match f with
      | kBorderAgentLocator => 15
      | kSessionId => 14
      | kSteeringData => 13
      | kAeSteeringData => 12
      | kNmkpSteeringData => 11
      | kJoinerUdpPort => 10
      | kAeUdpPort => 9
      | kNmkpUdpPort => 8
      end)
    (fun f => match f with
      | kActive g =>
          match g with
          | kActiveTimestamp => 15
          | kChannel => 14
          | kChannelMask => 13
          | kExtendedPanId => 12
          | kMeshLocalPrefix => 11
          | kNetworkMasterKey => 10
          | kNetworkName => 9
          | kPanId => 8
          | kPSKc => 7
          | kSecurityPolicy => 6
          end
      | kDelayTimer => 5
      | kPendingTimestamp => 4
      end)
    (fun f => match f with
      | kTriHostname => 15
      | kRegistrarHostname => 14
      | kRegistrarIpv6Addr => 13
      end).

Example header_layout_ok : layout_ok header_layout = true.
Proof. reflexivity. Qed.

Lemma positions_ok_range {F : Type} `{EqDecision F} (pos : F -> Z) all :
  (forall f, In f all) -> positions_ok pos all = true -> forall f, 0 <= pos f < 16.
Proof.
  intros Hall Hok f. unfold positions_ok in Hok.
  rewrite forallb_forall in Hok. specialize (Hok f (Hall f)).
  apply andb_prop in Hok as [Hr _]. apply andb_prop in Hr as [H0 H1].
  apply Z.leb_le in H0. apply Z.ltb_lt in H1. lia.
Qed.

Lemma positions_ok_inj {F : Type} `{EqDecision F} (pos : F -> Z) all :
  (forall f, In f all) -> positions_ok pos all = true ->
  forall f g, pos f = pos g -> f = g.
Proof.
  intros Hall Hok f g Hfg. unfold positions_ok in Hok.
  rewrite forallb_forall in Hok. specialize (Hok f (Hall f)).
  apply andb_prop in Hok as [_ Hd].
  rewrite forallb_forall in Hd. specialize (Hd g (Hall g)).
  rewrite Hfg, Z.eqb_refl in Hd. cbn in Hd. now apply bool_decide_eq_true in Hd.
Qed.

(** *** Errors, joiners and reports *)

(** Modelled from the spec: class [Error] and the [ERROR_*] macros come from
    [error.hpp] and [error_macros.hpp], which are not part of [src/]; an error
    is a kind and a human-readable detail, and only the kind is kept here. *)
Inductive Error :=
| kNone
| kCancelled
| kInvalidArgs
| kInvalidState
| kNotFound
| kAlreadyExists
| kSecurity
| kTimeout
| kRejected
| kIOError
| kInternal.

#[global] Instance Error_eq_dec : EqDecision Error.
Proof. solve_decision. Defined.

Definition NoError (e : Error) : bool := bool_decide (e = kNone).

(** Modelled from the spec: [enum class JoinerType], [struct JoinerInfo] and
    [struct EnergyReport] are declared in public headers outside [src/]; a
    joiner entry is built from type, EUI-64, PSKd and provisioning URL and
    starts out not commissioned. *)
Inductive JoinerType := kMeshCoP | kAE | kNMKP.

#[global] Instance JoinerType_eq_dec : EqDecision JoinerType.
Proof. solve_decision. Defined.

#[global] Instance JoinerType_countable : Countable JoinerType.
Proof.
  refine (inj_countable'
            (fun t => match t with kMeshCoP => 0%nat | kAE => 1%nat | kNMKP => 2%nat end)
            (fun n => match n with 0%nat => kMeshCoP | 1%nat => kAE | _ => kNMKP end) _).
  now intros [].
Defined.

Record JoinerInfo := mkJoinerInfo {
  mType : JoinerType;
  mEui64 : Z;
  mPSKd : ByteArray;
  mProvisioningUrl : string;
  mIsCommissioned : bool
}.

(** [JoinerInfo{aType, aEui64, aPSKd, aProvisioningUrl}] *)
Definition JoinerInfo_new (aType : JoinerType) (aEui64 : Z) (aPSKd : ByteArray)
    (aProvisioningUrl : string) : JoinerInfo :=
  mkJoinerInfo aType aEui64 aPSKd aProvisioningUrl false.

(** [struct JoinerKey { JoinerType mType; ByteArray mId; }], ordered by
    [operator<]; as a map key only its identity matters. *)
Abbreviation JoinerKey := (JoinerType * list Z)%type.

Record EnergyReport := mkEnergyReport {
  mReportChannelMask : ChannelMask;
  mEnergyList : ByteArray
}.

(** Modelled from the spec: class [Address] comes from [address.hpp], outside
    [src/]; an address is its raw bytes and is valid when it has any. *)
Abbreviation Address := (list Z).

Definition Address_IsValid (a : Address) : bool :=
  match a with [] => false | _ => true end.

(** *** The commissioner library

    [CommissionerApp] drives the library object [mCommissioner], whose class
    is implemented outside [src/].  The record below is that object as the
    application sees it: for every member function the application calls, the
    answer the library gives.  Functions with an output parameter receive its
    current content and return the new one next to the error.  The static
    members of the class and the free helper functions of the library's
    headers are part of the same record. *)

Module Commissioner.

Record t := mk {
  IsActive : bool;
  IsCcmMode : bool;
  GetSessionId : Z;
  GetDomainName : string;
  SetCommissionerDataset : CommissionerDataset.t -> Error;
  GetActiveDataset :
    ActiveOperationalDataset.t -> Z -> Error * ActiveOperationalDataset.t;
  SetActiveDataset : ActiveOperationalDataset.t -> Error;
  SetPendingDataset : PendingOperationalDataset.t -> Error;
  SetBbrDataset : BbrDataset.t -> Error;
  CommandReenroll : string -> Error;
  CommandDomainReset : string -> Error;
  CommandMigrate : string -> string -> Error;
  RegisterMulticastListener : string -> list string -> Z -> Error * Z;
  AnnounceBegin : Z -> Z -> Z -> string -> Error;
  PanIdQuery : Z -> Z -> string -> Error;
  EnergyScan : Z -> Z -> Z -> Z -> string -> Error;
  (* static members *)
  AddJoiner : list Z -> list Z -> list Z;
  GetMeshLocalAddr : string -> string -> Z -> Error * string;
  (* helpers of the utility headers *)
  Ipv6PrefixToString : list Z -> string;
  Ipv6PrefixFromString : list Z -> string -> Error * list Z;
  Address_Set : string -> list Z
}.

End Commissioner.

(** Modelled from the spec: [kMlrStatusSuccess] and [kPrimaryBbrAloc16] are
    constants of headers outside [src/]; an MLR response succeeds when its
    status byte is 0, and the primary BBR is reached at its anycast locator. *)
Definition kMlrStatusSuccess : Z := 0.
Definition kPrimaryBbrAloc16 : Z := 0xFC38.

(** The requests that leave through [mCommissioner], in the order sent. *)
Inductive Request :=
| MGMT_COMMISSIONER_SET (d : CommissionerDataset.t)
| MGMT_ACTIVE_GET (aDatasetFlags : Z)
| MGMT_ACTIVE_SET (d : ActiveOperationalDataset.t)
| MGMT_PENDING_SET (d : PendingOperationalDataset.t)
| MGMT_BBR_SET (d : BbrDataset.t)
| MGMT_REENROLL (aDstAddr : string)
| MGMT_DOMAIN_RESET (aDstAddr : string)
| MGMT_NET_MIGRATE (aDstAddr aDesignatedNetwork : string)
| MLR_REQ (aPbbrAddr : string) (aMulticastAddrList : list string) (aTimeout : Z)
| MGMT_ANNOUNCE_BEGIN (aChannelMask aCount aPeriod : Z) (aDstAddr : string)
| MGMT_PANID_QUERY (aChannelMask aPanId : Z) (aDstAddr : string)
| MGMT_ED_SCAN (aChannelMask aCount aPeriod aScanDuration : Z) (aDstAddr : string).

Definition is_mgmt_set (r : Request) : bool :=
  match r with
  | MGMT_COMMISSIONER_SET _ | MGMT_ACTIVE_SET _ | MGMT_PENDING_SET _ | MGMT_BBR_SET _ => true
  | _ => false
  end.

(** *** The application object *)

(** The data members of [CommissionerApp] that the operations read and write,
    and [mWire], the log of the requests handed to [mCommissioner]. *)
Record CommissionerApp := mkApp {
  mJoiners : gmap (JoinerType * list Z) JoinerInfo;
  mPanIdConflicts : gmap Z ChannelMask;
  mEnergyReports : gmap (list Z) EnergyReport;
  mActiveDataset : ActiveOperationalDataset.t;
  mPendingDataset : PendingOperationalDataset.t;
  mCommDataset : CommissionerDataset.t;
  mBbrDataset : BbrDataset.t;
  mWire : list Request
}.

Definition set_mJoiners v (a : CommissionerApp) : CommissionerApp :=
  mkApp v (mPanIdConflicts a) (mEnergyReports a) (mActiveDataset a) (mPendingDataset a)
        (mCommDataset a) (mBbrDataset a) (mWire a).
Definition set_mPanIdConflicts v (a : CommissionerApp) : CommissionerApp :=
  mkApp (mJoiners a) v (mEnergyReports a) (mActiveDataset a) (mPendingDataset a)
        (mCommDataset a) (mBbrDataset a) (mWire a).
Definition set_mEnergyReports v (a : CommissionerApp) : CommissionerApp :=
  mkApp (mJoiners a) (mPanIdConflicts a) v (mActiveDataset a) (mPendingDataset a)
        (mCommDataset a) (mBbrDataset a) (mWire a).
Definition set_mActiveDataset v (a : CommissionerApp) : CommissionerApp :=
  mkApp (mJoiners a) (mPanIdConflicts a) (mEnergyReports a) v (mPendingDataset a)
        (mCommDataset a) (mBbrDataset a) (mWire a).
Definition set_mPendingDataset v (a : CommissionerApp) : CommissionerApp :=
  mkApp (mJoiners a) (mPanIdConflicts a) (mEnergyReports a) (mActiveDataset a) v
        (mCommDataset a) (mBbrDataset a) (mWire a).
Definition set_mCommDataset v (a : CommissionerApp) : CommissionerApp :=
  mkApp (mJoiners a) (mPanIdConflicts a) (mEnergyReports a) (mActiveDataset a)
        (mPendingDataset a) v (mBbrDataset a) (mWire a).
Definition set_mBbrDataset v (a : CommissionerApp) : CommissionerApp :=
  mkApp (mJoiners a) (mPanIdConflicts a) (mEnergyReports a) (mActiveDataset a)
        (mPendingDataset a) (mCommDataset a) v (mWire a).
Definition set_mWire v (a : CommissionerApp) : CommissionerApp :=
  mkApp (mJoiners a) (mPanIdConflicts a) (mEnergyReports a) (mActiveDataset a)
        (mPendingDataset a) (mCommDataset a) (mBbrDataset a) v.

(** A freshly constructed application. *)
Definition CommissionerApp_new : CommissionerApp :=
  mkApp ∅ ∅ ∅ ActiveOperationalDataset.empty PendingOperationalDataset.empty
        CommissionerDataset.empty BbrDataset.empty [].

(** *** Control flow

    A member function runs on the application object and ends in one of three
    ways: it returns a value with no error, it leaves through [exit:] with the
    error set by [VerifyOrExit] or [SuccessOrExit], or an [ASSERT] (or a null
    dereference) stops the process. *)

Inductive Outcome (A : Type) :=
| Return (a : A) (st : CommissionerApp)
| Exit (error : Error) (st : CommissionerApp)
| Abort.

Arguments Return {A} a st.
Arguments Exit {A} error st.
Arguments Abort {A}.

Definition M (A : Type) : Type := CommissionerApp -> Outcome A.

Definition ret {A} (a : A) : M A := fun st => Return a st.

Definition bind {A B} (m : M A) (k : A -> M B) : M B :=
  fun st =>
    match m st with
    | Return a st' => k a st'
    | Exit e st' => Exit e st'
    | Abort => Abort
    end.

Notation "'let*' x ':=' m 'in' k" := (bind m (fun x => k))
  (at level 10, x name, m at level 100, k at level 200, only parsing).
Notation "m ;; k" := (bind m (fun _ => k))
  (at level 100, k at level 200, only parsing).

Definition get : M CommissionerApp := fun st => Return st st.
Definition modify (f : CommissionerApp -> CommissionerApp) : M unit :=
  fun st => Return tt (f st).

Definition VerifyOrExit (aCondition : bool) (error : Error) : M unit :=
  fun st => if aCondition then Return tt st else Exit error st.

Definition SuccessOrExit (error : Error) : M unit :=
  fun st => if NoError error then Return tt st else Exit error st.

Definition ASSERT (aCondition : bool) : M unit :=
  fun st => if aCondition then Return tt st else Abort.

(** A call into [mCommissioner] that puts a request on the wire. *)
Definition request {A} (r : Request) (answer : A) : M A :=
  fun st => Return answer (set_mWire (mWire st ++ [r]) st).

(** The state an outcome leaves behind, if the process is still running. *)
Definition final_state {A} (o : Outcome A) : option CommissionerApp :=
  match o with
  | Return _ st | Exit _ st => Some st
  | Abort => None
  end.

Definition error_of {A} (o : Outcome A) : option Error :=
  match o with
  | Return _ _ => Some kNone
  | Exit e _ => Some e
  | Abort => None
  end.

(** A reference to a member of a commissioner dataset. *)
Record Ref (A : Type) := mkRef {
  load : CommissionerDataset.t -> A;
  store : A -> CommissionerDataset.t -> CommissionerDataset.t
}.

Arguments mkRef {A} load store.
Arguments load {A} r d.
Arguments store {A} r v d.

(** *** std::map *)

Definition map_count `{Countable K} {V} (k : K) (m : gmap K V) : nat :=
  match m !! k with Some _ => 1%nat | None => 0%nat end.

(** [emplace] inserts only when the key is absent. *)
Definition map_emplace `{Countable K} {V} (k : K) (v : V) (m : gmap K V) : gmap K V :=
  match m !! k with Some _ => m | None => <[k:=v]> m end.

(** *** MergeDataset *)

Section WithLayout.

Variable L : Layout.

(** [MergeDataset(ActiveOperationalDataset &aDst, const ActiveOperationalDataset &aSrc)] *)
Definition MergeDataset_Active
    (aDst aSrc : ActiveOperationalDataset.t) : ActiveOperationalDataset.t :=
  let aDst := TEST_AND_SET (active_pos L) kActiveTimestamp aSrc aDst in
  let aDst := TEST_AND_SET (active_pos L) kChannel aSrc aDst in
  let aDst := TEST_AND_SET (active_pos L) kChannelMask aSrc aDst in
  let aDst := TEST_AND_SET (active_pos L) kExtendedPanId aSrc aDst in
  let aDst := TEST_AND_SET (active_pos L) kMeshLocalPrefix aSrc aDst in
  let aDst := TEST_AND_SET (active_pos L) kNetworkMasterKey aSrc aDst in
  let aDst := TEST_AND_SET (active_pos L) kNetworkName aSrc aDst in
  let aDst := TEST_AND_SET (active_pos L) kPanId aSrc aDst in
  let aDst := TEST_AND_SET (active_pos L) kPSKc aSrc aDst in
  let aDst := TEST_AND_SET (active_pos L) kSecurityPolicy aSrc aDst in
  aDst.

(** [MergeDataset(PendingOperationalDataset &aDst, const PendingOperationalDataset &aSrc)]:
    the base-class merge on both arguments cast to the base, then the two
    fields of the derived class. *)
Definition MergeDataset_Pending
    (aDst aSrc : PendingOperationalDataset.t) : PendingOperationalDataset.t :=
  let aDst := PendingOperationalDataset.set_base
    (MergeDataset_Active (PendingOperationalDataset.base aDst)
                         (PendingOperationalDataset.base aSrc)) aDst in
  let aDst := TEST_AND_SET (pending_pos L) kPendingTimestamp aSrc aDst in
  let aDst := TEST_AND_SET (pending_pos L) kDelayTimer aSrc aDst in
  aDst.

(** [MergeDataset(BbrDataset &aDst, const BbrDataset &aSrc)] *)
Definition MergeDataset_Bbr (aDst aSrc : BbrDataset.t) : BbrDataset.t :=
  let aDst := TEST_AND_SET (bbr_pos L) kTriHostname aSrc aDst in
  let aDst := TEST_AND_SET (bbr_pos L) kRegistrarHostname aSrc aDst in
  let aDst := TEST_AND_SET (bbr_pos L) kRegistrarIpv6Addr aSrc aDst in
  aDst.

(** [MergeDataset(CommissionerDataset &aDst, const CommissionerDataset &aSrc)]:
    the first macro for the two fields the Leader owns, the redefined macro,
    with its [else] branch, for the steering data and the UDP ports. *)
Definition MergeDataset_Commissioner
    (aDst aSrc : CommissionerDataset.t) : CommissionerDataset.t :=
  let aDst := TEST_AND_SET (comm_pos L) kBorderAgentLocator aSrc aDst in
  let aDst := TEST_AND_SET (comm_pos L) kSessionId aSrc aDst in
  let aDst := TEST_AND_SET_OR_CLEAR (comm_pos L) kSteeringData aSrc aDst in
  let aDst := TEST_AND_SET_OR_CLEAR (comm_pos L) kAeSteeringData aSrc aDst in
  let aDst := TEST_AND_SET_OR_CLEAR (comm_pos L) kNmkpSteeringData aSrc aDst in
  let aDst := TEST_AND_SET_OR_CLEAR (comm_pos L) kJoinerUdpPort aSrc aDst in
  let aDst := TEST_AND_SET_OR_CLEAR (comm_pos L) kAeUdpPort aSrc aDst in
  let aDst := TEST_AND_SET_OR_CLEAR (comm_pos L) kNmkpUdpPort aSrc aDst in
  aDst.

(** The fields under the replace rule of the commissioner dataset. *)
Definition replaced_fields : list CommissionerDataset.field :=
  [ kSteeringData; kAeSteeringData; kNmkpSteeringData;
    kJoinerUdpPort; kAeUdpPort; kNmkpUdpPort ].

Definition comm_present (f : CommissionerDataset.field) (d : CommissionerDataset.t) : bool :=
  present (comm_pos L) f d.
Definition active_present (f : ActiveOperationalDataset.field)
    (d : ActiveOperationalDataset.t) : bool :=
  present (active_pos L) f d.
Definition pending_present (f : PendingOperationalDataset.field)
    (d : PendingOperationalDataset.t) : bool :=
  present (pending_pos L) f d.
Definition bbr_present (f : BbrDataset.field) (d : BbrDataset.t) : bool :=
  present (bbr_pos L) f d.

Lemma MergeDataset_Active_fold aDst aSrc :
  MergeDataset_Active aDst aSrc =
  copy_fields (active_pos L) ActiveOperationalDataset.fields aSrc aDst.
Proof. reflexivity. Qed.

Lemma MergeDataset_Bbr_fold aDst aSrc :
  MergeDataset_Bbr aDst aSrc = copy_fields (bbr_pos L) BbrDataset.fields aSrc aDst.
Proof. reflexivity. Qed.

Lemma MergeDataset_Commissioner_fold aDst aSrc :
  MergeDataset_Commissioner aDst aSrc =
  replace_fields (comm_pos L) replaced_fields aSrc
    (copy_fields (comm_pos L) [kBorderAgentLocator; kSessionId] aSrc aDst).
Proof. reflexivity. Qed.

Lemma TEST_AND_SET_base f aSrc aDst :
  PendingOperationalDataset.set_base
    (TEST_AND_SET (active_pos L) f (PendingOperationalDataset.base aSrc)
                  (PendingOperationalDataset.base aDst)) aDst =
  TEST_AND_SET (pending_pos L) (kActive f) aSrc aDst.
Proof.
  unfold TEST_AND_SET, present, kBit, active_pos. cbn.
  unfold PendingOperationalDataset.mPresentFlags.
  destruct (flag_test _ _); destruct aDst; reflexivity.
Qed.

Lemma copy_fields_base names aSrc aDst :
  PendingOperationalDataset.set_base
    (copy_fields (active_pos L) names (PendingOperationalDataset.base aSrc)
                 (PendingOperationalDataset.base aDst)) aDst =
  copy_fields (pending_pos L) (map kActive names) aSrc aDst.
Proof.
  unfold copy_fields. revert aDst.
  induction names as [|n names IH]; intros aDst; cbn [fold_left map].
  - now destruct aDst.
  - rewrite <- TEST_AND_SET_base, <- IH. reflexivity.
Qed.

Lemma MergeDataset_Pending_fold aDst aSrc :
  MergeDataset_Pending aDst aSrc =
  copy_fields (pending_pos L) PendingOperationalDataset.fields aSrc aDst.
Proof.
  unfold MergeDataset_Pending, PendingOperationalDataset.fields. cbv zeta.
  rewrite MergeDataset_Active_fold, copy_fields_base.
  unfold copy_fields. rewrite fold_left_app. reflexivity.
Qed.

Section LayoutFacts.

Hypothesis L_ok : layout_ok L = true.

Lemma comm_pos_range f : 0 <= comm_pos L f < 16.
Proof.
  unfold layout_ok in L_ok. apply andb_prop in L_ok as [H1 _]. apply andb_prop in H1 as [H1 _].
  eapply positions_ok_range; [apply CommissionerDataset.comm_fields_complete | exact H1].
Qed.

Lemma comm_pos_inj f g : comm_pos L f = comm_pos L g -> f = g.
Proof.
  unfold layout_ok in L_ok. apply andb_prop in L_ok as [H1 _]. apply andb_prop in H1 as [H1 _].
  eapply positions_ok_inj; [apply CommissionerDataset.comm_fields_complete | exact H1].
Qed.

Lemma pending_pos_range f : 0 <= pending_pos L f < 16.
Proof.
  unfold layout_ok in L_ok. apply andb_prop in L_ok as [H1 _]. apply andb_prop in H1 as [_ H1].
  eapply positions_ok_range; [apply PendingOperationalDataset.pending_fields_complete | exact H1].
Qed.

Lemma pending_pos_inj f g : pending_pos L f = pending_pos L g -> f = g.
Proof.
  unfold layout_ok in L_ok. apply andb_prop in L_ok as [H1 _]. apply andb_prop in H1 as [_ H1].
  eapply positions_ok_inj; [apply PendingOperationalDataset.pending_fields_complete | exact H1].
Qed.

Lemma active_pos_range f : 0 <= active_pos L f < 16.
Proof. apply pending_pos_range. Qed.

Lemma active_pos_inj f g : active_pos L f = active_pos L g -> f = g.
Proof. intros E. apply pending_pos_inj in E. congruence. Qed.

Lemma bbr_pos_range f : 0 <= bbr_pos L f < 16.
Proof.
  unfold layout_ok in L_ok. apply andb_prop in L_ok as [_ H1].
  eapply positions_ok_range; [apply BbrDataset.bbr_fields_complete | exact H1].
Qed.

Lemma bbr_pos_inj f g : bbr_pos L f = bbr_pos L g -> f = g.
Proof.
  unfold layout_ok in L_ok. apply andb_prop in L_ok as [_ H1].
  eapply positions_ok_inj; [apply BbrDataset.bbr_fields_complete | exact H1].
Qed.

Lemma elem_of_complete {F : Type} `{EqDecision F} (all : list F) (f : F) :
  (forall g, In g all) -> bool_decide (f ∈ all) = true.
Proof. intros Hall. apply bool_decide_eq_true. apply list_elem_of_In. apply Hall. Qed.

(** What the additive rule does to one field. *)
Lemma MergeDataset_Active_field f aDst aSrc :
  view f (MergeDataset_Active aDst aSrc) =
    (if active_present f aSrc then view f aSrc else view f aDst) /\
  active_present f (MergeDataset_Active aDst aSrc) =
    active_present f aSrc || active_present f aDst.
Proof.
  rewrite MergeDataset_Active_fold. unfold active_present.
  rewrite view_copy_fields.
  rewrite (present_copy_fields _ active_pos_range active_pos_inj).
  rewrite (elem_of_complete _ _ ActiveOperationalDataset.active_fields_complete).
  split; reflexivity.
Qed.

Lemma MergeDataset_Pending_field f aDst aSrc :
  view f (MergeDataset_Pending aDst aSrc) =
    (if pending_present f aSrc then view f aSrc else view f aDst) /\
  pending_present f (MergeDataset_Pending aDst aSrc) =
    pending_present f aSrc || pending_present f aDst.
Proof.
  rewrite MergeDataset_Pending_fold. unfold pending_present.
  rewrite view_copy_fields.
  rewrite (present_copy_fields _ pending_pos_range pending_pos_inj).
  rewrite (elem_of_complete _ _ PendingOperationalDataset.pending_fields_complete).
  split; reflexivity.
Qed.

Lemma MergeDataset_Bbr_field f aDst aSrc :
  view f (MergeDataset_Bbr aDst aSrc) =
    (if bbr_present f aSrc then view f aSrc else view f aDst) /\
  bbr_present f (MergeDataset_Bbr aDst aSrc) =
    bbr_present f aSrc || bbr_present f aDst.
Proof.
  rewrite MergeDataset_Bbr_fold. unfold bbr_present.
  rewrite view_copy_fields.
  rewrite (present_copy_fields _ bbr_pos_range bbr_pos_inj).
  rewrite (elem_of_complete _ _ BbrDataset.bbr_fields_complete).
  split; reflexivity.
Qed.

(** What the commissioner merge does to one field: the two Leader-owned
    fields follow the additive rule, the other six the replace rule. *)
Lemma MergeDataset_Commissioner_field f aDst aSrc :
  view f (MergeDataset_Commissioner aDst aSrc) =
    (if comm_present f aSrc then view f aSrc else view f aDst) /\
  comm_present f (MergeDataset_Commissioner aDst aSrc) =
    if bool_decide (f ∈ replaced_fields) then comm_present f aSrc
    else comm_present f aSrc || comm_present f aDst.
Proof.
  rewrite MergeDataset_Commissioner_fold. unfold comm_present.
  rewrite view_replace_fields.
  rewrite (present_replace_fields _ comm_pos_range comm_pos_inj).
  rewrite view_copy_fields.
  rewrite (present_copy_fields _ comm_pos_range comm_pos_inj).
  destruct f; cbn; destruct (present (comm_pos L) _ aSrc); split; reflexivity.
Qed.

(** C2: merging into the commissioner dataset copies each steering-data and
    UDP-port field that is present in the source and clears the presence bit
    of each one that is absent from it, whereas merging into the active, the
    pending or the BBR dataset leaves every field that is absent from the
    source as it was, value and presence bit. *)
Theorem MergeDataset_asymmetry :
  (forall aDst aSrc f, In f replaced_fields ->
     (comm_present f aSrc = true ->
        view f (MergeDataset_Commissioner aDst aSrc) = view f aSrc /\
        comm_present f (MergeDataset_Commissioner aDst aSrc) = true) /\
     (comm_present f aSrc = false ->
        comm_present f (MergeDataset_Commissioner aDst aSrc) = false)) /\
  (forall aDst aSrc f, active_present f aSrc = false ->
     view f (MergeDataset_Active aDst aSrc) = view f aDst /\
     active_present f (MergeDataset_Active aDst aSrc) = active_present f aDst) /\
  (forall aDst aSrc f, pending_present f aSrc = false ->
     view f (MergeDataset_Pending aDst aSrc) = view f aDst /\
     pending_present f (MergeDataset_Pending aDst aSrc) = pending_present f aDst) /\
  (forall aDst aSrc f, bbr_present f aSrc = false ->
     view f (MergeDataset_Bbr aDst aSrc) = view f aDst /\
     bbr_present f (MergeDataset_Bbr aDst aSrc) = bbr_present f aDst).
Proof.
  split; [|split; [|split]].
  - intros aDst aSrc f Hin.
    destruct (MergeDataset_Commissioner_field f aDst aSrc) as [Hv Hp].
    rewrite bool_decide_eq_true_2 in Hp by (now apply list_elem_of_In).
    split; intros Hsrc; rewrite ?Hv, Hp, Hsrc; auto.
  - intros aDst aSrc f Hsrc.
    destruct (MergeDataset_Active_field f aDst aSrc) as [Hv Hp].
    now rewrite Hv, Hp, Hsrc.
  - intros aDst aSrc f Hsrc.
    destruct (MergeDataset_Pending_field f aDst aSrc) as [Hv Hp].
    now rewrite Hv, Hp, Hsrc.
  - intros aDst aSrc f Hsrc.
    destruct (MergeDataset_Bbr_field f aDst aSrc) as [Hv Hp].
    now rewrite Hv, Hp, Hsrc.
Qed.

End LayoutFacts.

(** *** Member functions of CommissionerApp *)

(** [d.mPresentFlags |= k##name##Bit] and [d.mPresentFlags &= ~k##name##Bit] *)
Definition set_flag {D F : Type} `{Schema D F} (pos : F -> Z) (name : F) (d : D) : D :=
  with_flags (flag_set (flags d) (kBit pos name)) d.

Definition clear_flag {D F : Type} `{Schema D F} (pos : F -> Z) (name : F) (d : D) : D :=
  with_flags (flag_clear (flags d) (kBit pos name)) d.

Definition IsActive (c : Commissioner.t) : bool := Commissioner.IsActive c.
Definition IsCcmMode (c : Commissioner.t) : bool := Commissioner.IsCcmMode c.

(** [ByteArray &GetSteeringData(CommissionerDataset &aDataset, JoinerType)]:
    marks the member present and returns a reference to it. *)
Definition GetSteeringData_ref (aDataset : CommissionerDataset.t) (aJoinerType : JoinerType)
    : CommissionerDataset.t * Ref ByteArray :=
  match aJoinerType with
  | kMeshCoP =>
      (set_flag (comm_pos L) kSteeringData aDataset,
       mkRef CommissionerDataset.mSteeringData CommissionerDataset.set_mSteeringData)
  | kAE =>
      (set_flag (comm_pos L) kAeSteeringData aDataset,
       mkRef CommissionerDataset.mAeSteeringData CommissionerDataset.set_mAeSteeringData)
  | kNMKP =>
      (set_flag (comm_pos L) kNmkpSteeringData aDataset,
       mkRef CommissionerDataset.mNmkpSteeringData CommissionerDataset.set_mNmkpSteeringData)
  end.

(** [uint16_t &GetJoinerUdpPort(CommissionerDataset &aDataset, JoinerType)] *)
Definition GetJoinerUdpPort_ref (aDataset : CommissionerDataset.t) (aJoinerType : JoinerType)
    : CommissionerDataset.t * Ref Z :=
  match aJoinerType with
  | kMeshCoP =>
      (set_flag (comm_pos L) kJoinerUdpPort aDataset,
       mkRef CommissionerDataset.mJoinerUdpPort CommissionerDataset.set_mJoinerUdpPort)
  | kAE =>
      (set_flag (comm_pos L) kAeUdpPort aDataset,
       mkRef CommissionerDataset.mAeUdpPort CommissionerDataset.set_mAeUdpPort)
  | kNMKP =>
      (set_flag (comm_pos L) kNmkpUdpPort aDataset,
       mkRef CommissionerDataset.mNmkpUdpPort CommissionerDataset.set_mNmkpUdpPort)
  end.

(** The opening lines shared by the joiner operations:
    [auto commDataset = mCommDataset;] and the two [&= ~] statements. *)
Definition outbound_copy (st : CommissionerApp) : CommissionerDataset.t :=
  let commDataset := mCommDataset st in
  let commDataset := clear_flag (comm_pos L) kSessionId commDataset in
  let commDataset := clear_flag (comm_pos L) kBorderAgentLocator commDataset in
  commDataset.

(** [size_t EraseAllJoiners(JoinerType aJoinerType)]: one pass over the map. *)
Definition EraseAllJoiners_step (aJoinerType : JoinerType)
    (acc : nat * gmap (JoinerType * list Z) JoinerInfo)
    (joiner : (JoinerType * list Z) * JoinerInfo)
    : nat * gmap (JoinerType * list Z) JoinerInfo :=
  if bool_decide (fst (fst joiner) = aJoinerType)
  then (S (fst acc), delete (fst joiner) (snd acc))
  else acc.

Definition EraseAllJoiners (aJoinerType : JoinerType) : M nat :=
  fun st =>
    let r := fold_left (EraseAllJoiners_step aJoinerType)
                       (map_to_list (mJoiners st)) (0%nat, mJoiners st) in
    Return (fst r) (set_mJoiners (snd r) st).

Definition GetSessionId (c : Commissioner.t) : M Z :=
  VerifyOrExit (IsActive c) kInvalidState ;;
  ret (Commissioner.GetSessionId c).

Definition GetBorderAgentLocator (c : Commissioner.t) : M Z :=
  VerifyOrExit (IsActive c) kInvalidState ;;
  let* st := get in
  ASSERT (comm_present kBorderAgentLocator (mCommDataset st)) ;;
  ret (CommissionerDataset.mBorderAgentLocator (mCommDataset st)).

Definition GetSteeringData (c : Commissioner.t) (aJoinerType : JoinerType) : M ByteArray :=
  VerifyOrExit (IsActive c) kInvalidState ;;
  let* st := get in
  match aJoinerType with
  | kMeshCoP =>
      VerifyOrExit (comm_present kSteeringData (mCommDataset st)) kNotFound ;;
      ret (CommissionerDataset.mSteeringData (mCommDataset st))
  | kAE =>
      VerifyOrExit (comm_present kAeSteeringData (mCommDataset st)) kNotFound ;;
      ret (CommissionerDataset.mAeSteeringData (mCommDataset st))
  | kNMKP =>
      VerifyOrExit (comm_present kNmkpSteeringData (mCommDataset st)) kNotFound ;;
      ret (CommissionerDataset.mNmkpSteeringData (mCommDataset st))
  end.

Definition EnableJoiner (c : Commissioner.t) (aType : JoinerType) (aEui64 : Z)
    (aPSKd : ByteArray) (aProvisioningUrl : string) : M unit :=
  let* st := get in
  let joinerId := Joiner.ComputeJoinerId aEui64 in
  let commDataset := outbound_copy st in
  let '(commDataset, steeringData) := GetSteeringData_ref commDataset aType in
  VerifyOrExit (IsActive c) kInvalidState ;;
  VerifyOrExit (map_count (aType, joinerId) (mJoiners st) =? 0)%nat kAlreadyExists ;;
  let commDataset :=
    store steeringData
          (Commissioner.AddJoiner c (load steeringData commDataset) joinerId) commDataset in
  let* error := request (MGMT_COMMISSIONER_SET commDataset)
                        (Commissioner.SetCommissionerDataset c commDataset) in
  SuccessOrExit error ;;
  modify (fun st => set_mCommDataset (MergeDataset_Commissioner (mCommDataset st) commDataset) st) ;;
  modify (fun st =>
    set_mJoiners (map_emplace (aType, joinerId)
                    (JoinerInfo_new aType aEui64 aPSKd aProvisioningUrl) (mJoiners st)) st).

(** The body of the [for] loop of [DisableJoiner]: the state is the steering
    data under construction and the local [joinerId]. *)
Definition DisableJoiner_step (c : Commissioner.t) (aType : JoinerType) (aEui64 : Z)
    (acc : ByteArray * ByteArray) (kv : (JoinerType * list Z) * JoinerInfo)
    : ByteArray * ByteArray :=
  let joiner := snd kv in
  if bool_decide (mType joiner = aType) && (mEui64 joiner =? aEui64)
  then acc
  else
    let joinerId := Joiner.ComputeJoinerId aEui64 in
    (Commissioner.AddJoiner c (fst acc) joinerId, joinerId).

Definition DisableJoiner (c : Commissioner.t) (aType : JoinerType) (aEui64 : Z) : M unit :=
  let* st := get in
  let joinerId : ByteArray := [] in
  let commDataset := outbound_copy st in
  let '(commDataset, steeringData) := GetSteeringData_ref commDataset aType in
  VerifyOrExit (IsActive c) kInvalidState ;;
  let '(data, joinerId) :=
    fold_left (DisableJoiner_step c aType aEui64) (map_to_list (mJoiners st))
              ([0x00], joinerId) in
  let commDataset := store steeringData data commDataset in
  let* error := request (MGMT_COMMISSIONER_SET commDataset)
                        (Commissioner.SetCommissionerDataset c commDataset) in
  SuccessOrExit error ;;
  modify (fun st => set_mCommDataset (MergeDataset_Commissioner (mCommDataset st) commDataset) st) ;;
  modify (fun st => set_mJoiners (delete (aType, joinerId) (mJoiners st)) st).

Definition EnableAllJoiners (c : Commissioner.t) (aType : JoinerType)
    (aPSKd : ByteArray) (aProvisioningUrl : string) : M unit :=
  let* st := get in
  let commDataset := outbound_copy st in
  let '(commDataset, steeringData) := GetSteeringData_ref commDataset aType in
  VerifyOrExit (IsActive c) kInvalidState ;;
  let commDataset := store steeringData [0xFF] commDataset in
  let* error := request (MGMT_COMMISSIONER_SET commDataset)
                        (Commissioner.SetCommissionerDataset c commDataset) in
  SuccessOrExit error ;;
  modify (fun st => set_mCommDataset (MergeDataset_Commissioner (mCommDataset st) commDataset) st) ;;
  EraseAllJoiners aType ;;
  let joinerId := Joiner.ComputeJoinerId 0 in
  modify (fun st =>
    set_mJoiners (map_emplace (aType, joinerId)
                    (JoinerInfo_new aType 0 aPSKd aProvisioningUrl) (mJoiners st)) st).

Definition DisableAllJoiners (c : Commissioner.t) (aType : JoinerType) : M unit :=
  let* st := get in
  let commDataset := outbound_copy st in
  let '(commDataset, steeringData) := GetSteeringData_ref commDataset aType in
  VerifyOrExit (IsActive c) kInvalidState ;;
  let commDataset := store steeringData [0x00] commDataset in
  let* error := request (MGMT_COMMISSIONER_SET commDataset)
                        (Commissioner.SetCommissionerDataset c commDataset) in
  SuccessOrExit error ;;
  modify (fun st => set_mCommDataset (MergeDataset_Commissioner (mCommDataset st) commDataset) st) ;;
  EraseAllJoiners aType ;;
  ret tt.

Definition IsJoinerCommissioned (aType : JoinerType) (aEui64 : Z) (st : CommissionerApp) : bool :=
  match mJoiners st !! (aType, Joiner.ComputeJoinerId aEui64) with
  | None => false
  | Some joiner => mIsCommissioned joiner
  end.

Definition GetJoinerUdpPort (c : Commissioner.t) (aJoinerType : JoinerType) : M Z :=
  VerifyOrExit (IsActive c) kInvalidState ;;
  let* st := get in
  match aJoinerType with
  | kMeshCoP =>
      VerifyOrExit (comm_present kJoinerUdpPort (mCommDataset st)) kNotFound ;;
      ret (CommissionerDataset.mJoinerUdpPort (mCommDataset st))
  | kAE =>
      VerifyOrExit (comm_present kAeUdpPort (mCommDataset st)) kNotFound ;;
      ret (CommissionerDataset.mAeUdpPort (mCommDataset st))
  | kNMKP =>
      VerifyOrExit (comm_present kNmkpUdpPort (mCommDataset st)) kNotFound ;;
      ret (CommissionerDataset.mNmkpUdpPort (mCommDataset st))
  end.

Definition SetJoinerUdpPort (c : Commissioner.t) (aType : JoinerType) (aUdpPort : Z) : M unit :=
  let* st := get in
  let commDataset := outbound_copy st in
  let '(commDataset, joinerUdpPort) := GetJoinerUdpPort_ref commDataset aType in
  VerifyOrExit (IsActive c) kInvalidState ;;
  let commDataset := store joinerUdpPort aUdpPort commDataset in
  let* error := request (MGMT_COMMISSIONER_SET commDataset)
                        (Commissioner.SetCommissionerDataset c commDataset) in
  SuccessOrExit error ;;
  modify (fun st => set_mCommDataset (MergeDataset_Commissioner (mCommDataset st) commDataset) st).

(** [SetCommissionerDataset(const CommissionerDataset &)]: not guarded by
    [IsActive] in the application. *)
Definition SetCommissionerDataset (c : Commissioner.t) (aDataset : CommissionerDataset.t)
    : M unit :=
  let* error := request (MGMT_COMMISSIONER_SET aDataset)
                        (Commissioner.SetCommissionerDataset c aDataset) in
  SuccessOrExit error ;;
  modify (fun st => set_mCommDataset (MergeDataset_Commissioner (mCommDataset st) aDataset) st).

(** [mCommissioner->GetActiveDataset(mActiveDataset, 0xFFFF)]: the cached
    dataset itself is the output parameter. *)
Definition pull_active (c : Commissioner.t) : M unit :=
  let* st := get in
  let* r := request (MGMT_ACTIVE_GET 0xFFFF)
                    (Commissioner.GetActiveDataset c (mActiveDataset st) 0xFFFF) in
  modify (set_mActiveDataset (snd r)) ;;
  SuccessOrExit (fst r).

(** An assignment to an inherited member of a pending dataset. *)
Definition on_base (f : ActiveOperationalDataset.t -> ActiveOperationalDataset.t)
    (d : PendingOperationalDataset.t) : PendingOperationalDataset.t :=
  PendingOperationalDataset.set_base (f (PendingOperationalDataset.base d)) d.

Definition GetActiveTimestamp (c : Commissioner.t) : M Timestamp :=
  VerifyOrExit (IsActive c) kInvalidState ;;
  let* st := get in
  ASSERT (active_present kActiveTimestamp (mActiveDataset st)) ;;
  ret (ActiveOperationalDataset.mActiveTimestamp (mActiveDataset st)).

Definition GetChannel (c : Commissioner.t) : M Channel :=
  VerifyOrExit (IsActive c) kInvalidState ;;
  pull_active c ;;
  let* st := get in
  ASSERT (active_present kChannel (mActiveDataset st)) ;;
  ret (ActiveOperationalDataset.mChannel (mActiveDataset st)).

Definition SetChannel (c : Commissioner.t) (aChannel : Channel) (aDelay : Z) : M unit :=
  let pendingDataset := PendingOperationalDataset.empty in
  VerifyOrExit (IsActive c) kInvalidState ;;
  let pendingDataset := on_base (ActiveOperationalDataset.set_mChannel aChannel) pendingDataset in
  let pendingDataset := set_flag (pending_pos L) (kActive kChannel) pendingDataset in
  let pendingDataset := PendingOperationalDataset.set_mDelayTimer (uint32_t aDelay) pendingDataset in
  let pendingDataset := set_flag (pending_pos L) kDelayTimer pendingDataset in
  let* error := request (MGMT_PENDING_SET pendingDataset)
                        (Commissioner.SetPendingDataset c pendingDataset) in
  SuccessOrExit error ;;
  modify (fun st => set_mPendingDataset (MergeDataset_Pending (mPendingDataset st) pendingDataset) st).

Definition GetChannelMask (c : Commissioner.t) : M ChannelMask :=
  VerifyOrExit (IsActive c) kInvalidState ;;
  let* st := get in
  VerifyOrExit (active_present kChannelMask (mActiveDataset st)) kNotFound ;;
  ret (ActiveOperationalDataset.mChannelMask (mActiveDataset st)).

Definition SetChannelMask (c : Commissioner.t) (aChannelMask : ChannelMask) : M unit :=
  let activeDataset := ActiveOperationalDataset.empty in
  VerifyOrExit (IsActive c) kInvalidState ;;
  let activeDataset := ActiveOperationalDataset.set_mChannelMask aChannelMask activeDataset in
  let activeDataset := set_flag (active_pos L) kChannelMask activeDataset in
  let* error := request (MGMT_ACTIVE_SET activeDataset)
                        (Commissioner.SetActiveDataset c activeDataset) in
  SuccessOrExit error ;;
  modify (fun st => set_mActiveDataset (MergeDataset_Active (mActiveDataset st) activeDataset) st).

Definition GetExtendedPanId (c : Commissioner.t) : M ByteArray :=
  VerifyOrExit (IsActive c) kInvalidState ;;
  let* st := get in
  VerifyOrExit (active_present kExtendedPanId (mActiveDataset st)) kNotFound ;;
  ret (ActiveOperationalDataset.mExtendedPanId (mActiveDataset st)).

Definition SetExtendedPanId (c : Commissioner.t) (aExtendedPanId : ByteArray) : M unit :=
  let activeDataset := ActiveOperationalDataset.empty in
  VerifyOrExit (IsActive c) kInvalidState ;;
  let activeDataset := ActiveOperationalDataset.set_mExtendedPanId aExtendedPanId activeDataset in
  let activeDataset := set_flag (active_pos L) kExtendedPanId activeDataset in
  let* error := request (MGMT_ACTIVE_SET activeDataset)
                        (Commissioner.SetActiveDataset c activeDataset) in
  SuccessOrExit error ;;
  modify (fun st => set_mActiveDataset (MergeDataset_Active (mActiveDataset st) activeDataset) st).

Definition GetMeshLocalPrefix (c : Commissioner.t) : M string :=
  VerifyOrExit (IsActive c) kInvalidState ;;
  pull_active c ;;
  let* st := get in
  VerifyOrExit (active_present kMeshLocalPrefix (mActiveDataset st)) kNotFound ;;
  ret (Commissioner.Ipv6PrefixToString c (ActiveOperationalDataset.mMeshLocalPrefix (mActiveDataset st))).

Definition SetMeshLocalPrefix (c : Commissioner.t) (aPrefix : string) (aDelay : Z) : M unit :=
  let pendingDataset := PendingOperationalDataset.empty in
  VerifyOrExit (IsActive c) kInvalidState ;;
  let r := Commissioner.Ipv6PrefixFromString c
             (ActiveOperationalDataset.mMeshLocalPrefix
                (PendingOperationalDataset.base pendingDataset)) aPrefix in
  let pendingDataset :=
    on_base (ActiveOperationalDataset.set_mMeshLocalPrefix (snd r)) pendingDataset in
  SuccessOrExit (fst r) ;;
  let pendingDataset := set_flag (pending_pos L) (kActive kMeshLocalPrefix) pendingDataset in
  let pendingDataset := PendingOperationalDataset.set_mDelayTimer (uint32_t aDelay) pendingDataset in
  let pendingDataset := set_flag (pending_pos L) kDelayTimer pendingDataset in
  let* error := request (MGMT_PENDING_SET pendingDataset)
                        (Commissioner.SetPendingDataset c pendingDataset) in
  SuccessOrExit error ;;
  modify (fun st => set_mPendingDataset (MergeDataset_Pending (mPendingDataset st) pendingDataset) st).

Definition GetNetworkMasterKey (c : Commissioner.t) : M ByteArray :=
  VerifyOrExit (IsActive c) kInvalidState ;;
  pull_active c ;;
  let* st := get in
  VerifyOrExit (active_present kNetworkMasterKey (mActiveDataset st)) kNotFound ;;
  ret (ActiveOperationalDataset.mNetworkMasterKey (mActiveDataset st)).

Definition SetNetworkMasterKey (c : Commissioner.t) (aNetworkMasterKey : ByteArray) (aDelay : Z) : M unit :=
  let pendingDataset := PendingOperationalDataset.empty in
  VerifyOrExit (IsActive c) kInvalidState ;;
  let pendingDataset := on_base (ActiveOperationalDataset.set_mNetworkMasterKey aNetworkMasterKey) pendingDataset in
  let pendingDataset := set_flag (pending_pos L) (kActive kNetworkMasterKey) pendingDataset in
  let pendingDataset := PendingOperationalDataset.set_mDelayTimer (uint32_t aDelay) pendingDataset in
  let pendingDataset := set_flag (pending_pos L) kDelayTimer pendingDataset in
  let* error := request (MGMT_PENDING_SET pendingDataset)
                        (Commissioner.SetPendingDataset c pendingDataset) in
  SuccessOrExit error ;;
  modify (fun st => set_mPendingDataset (MergeDataset_Pending (mPendingDataset st) pendingDataset) st).

Definition GetNetworkName (c : Commissioner.t) : M string :=
  VerifyOrExit (IsActive c) kInvalidState ;;
  let* st := get in
  VerifyOrExit (active_present kNetworkName (mActiveDataset st)) kNotFound ;;
  ret (ActiveOperationalDataset.mNetworkName (mActiveDataset st)).

Definition SetNetworkName (c : Commissioner.t) (aNetworkName : string) : M unit :=
  let activeDataset := ActiveOperationalDataset.empty in
  VerifyOrExit (IsActive c) kInvalidState ;;
  let activeDataset := ActiveOperationalDataset.set_mNetworkName aNetworkName activeDataset in
  let activeDataset := set_flag (active_pos L) kNetworkName activeDataset in
  let* error := request (MGMT_ACTIVE_SET activeDataset)
                        (Commissioner.SetActiveDataset c activeDataset) in
  SuccessOrExit error ;;
  modify (fun st => set_mActiveDataset (MergeDataset_Active (mActiveDataset st) activeDataset) st).

Definition GetPanId (c : Commissioner.t) : M Z :=
  VerifyOrExit (IsActive c) kInvalidState ;;
  pull_active c ;;
  let* st := get in
  VerifyOrExit (active_present kPanId (mActiveDataset st)) kNotFound ;;
  ret (ActiveOperationalDataset.mPanId (mActiveDataset st)).

Definition SetPanId (c : Commissioner.t) (aPanId : Z) (aDelay : Z) : M unit :=
  let pendingDataset := PendingOperationalDataset.empty in
  VerifyOrExit (IsActive c) kInvalidState ;;
  let pendingDataset := on_base (ActiveOperationalDataset.set_mPanId aPanId) pendingDataset in
  let pendingDataset := set_flag (pending_pos L) (kActive kPanId) pendingDataset in
  let pendingDataset := PendingOperationalDataset.set_mDelayTimer (uint32_t aDelay) pendingDataset in
  let pendingDataset := set_flag (pending_pos L) kDelayTimer pendingDataset in
  let* error := request (MGMT_PENDING_SET pendingDataset)
                        (Commissioner.SetPendingDataset c pendingDataset) in
  SuccessOrExit error ;;
  modify (fun st => set_mPendingDataset (MergeDataset_Pending (mPendingDataset st) pendingDataset) st).

Definition GetPSKc (c : Commissioner.t) : M ByteArray :=
  VerifyOrExit (IsActive c) kInvalidState ;;
  let* st := get in
  VerifyOrExit (active_present kPSKc (mActiveDataset st)) kNotFound ;;
  ret (ActiveOperationalDataset.mPSKc (mActiveDataset st)).

Definition SetPSKc (c : Commissioner.t) (aPSKc : ByteArray) : M unit :=
  let activeDataset := ActiveOperationalDataset.empty in
  VerifyOrExit (IsActive c) kInvalidState ;;
  let activeDataset := ActiveOperationalDataset.set_mPSKc aPSKc activeDataset in
  let activeDataset := set_flag (active_pos L) kPSKc activeDataset in
  let* error := request (MGMT_ACTIVE_SET activeDataset)
                        (Commissioner.SetActiveDataset c activeDataset) in
  SuccessOrExit error ;;
  modify (fun st => set_mActiveDataset (MergeDataset_Active (mActiveDataset st) activeDataset) st).

Definition GetSecurityPolicy (c : Commissioner.t) : M SecurityPolicy :=
  VerifyOrExit (IsActive c) kInvalidState ;;
  let* st := get in
  VerifyOrExit (active_present kSecurityPolicy (mActiveDataset st)) kNotFound ;;
  ret (ActiveOperationalDataset.mSecurityPolicy (mActiveDataset st)).

Definition SetSecurityPolicy (c : Commissioner.t) (aSecurityPolicy : SecurityPolicy) : M unit :=
  let activeDataset := ActiveOperationalDataset.empty in
  VerifyOrExit (IsActive c) kInvalidState ;;
  let activeDataset := ActiveOperationalDataset.set_mSecurityPolicy aSecurityPolicy activeDataset in
  let activeDataset := set_flag (active_pos L) kSecurityPolicy activeDataset in
  let* error := request (MGMT_ACTIVE_SET activeDataset)
                        (Commissioner.SetActiveDataset c activeDataset) in
  SuccessOrExit error ;;
  modify (fun st => set_mActiveDataset (MergeDataset_Active (mActiveDataset st) activeDataset) st).

Definition GetTriHostname (c : Commissioner.t) : M string :=
  VerifyOrExit (IsActive c) kInvalidState ;;
  VerifyOrExit (IsCcmMode c) kInvalidState ;;
  let* st := get in
  VerifyOrExit (bbr_present kTriHostname (mBbrDataset st)) kNotFound ;;
  ret (BbrDataset.mTriHostname (mBbrDataset st)).

Definition SetTriHostname (c : Commissioner.t) (aHostname : string) : M unit :=
  let bbrDataset := BbrDataset.empty in
  VerifyOrExit (IsActive c) kInvalidState ;;
  VerifyOrExit (IsCcmMode c) kInvalidState ;;
  let bbrDataset := BbrDataset.set_mTriHostname aHostname bbrDataset in
  let bbrDataset := set_flag (bbr_pos L) kTriHostname bbrDataset in
  let* error := request (MGMT_BBR_SET bbrDataset) (Commissioner.SetBbrDataset c bbrDataset) in
  SuccessOrExit error ;;
  modify (fun st => set_mBbrDataset (MergeDataset_Bbr (mBbrDataset st) bbrDataset) st).

Definition GetRegistrarHostname (c : Commissioner.t) : M string :=
  VerifyOrExit (IsActive c) kInvalidState ;;
  VerifyOrExit (IsCcmMode c) kInvalidState ;;
  let* st := get in
  VerifyOrExit (bbr_present kRegistrarHostname (mBbrDataset st)) kNotFound ;;
  ret (BbrDataset.mRegistrarHostname (mBbrDataset st)).

Definition SetRegistrarHostname (c : Commissioner.t) (aHostname : string) : M unit :=
  let bbrDataset := BbrDataset.empty in
  VerifyOrExit (IsActive c) kInvalidState ;;
  VerifyOrExit (IsCcmMode c) kInvalidState ;;
  let bbrDataset := BbrDataset.set_mRegistrarHostname aHostname bbrDataset in
  let bbrDataset := set_flag (bbr_pos L) kRegistrarHostname bbrDataset in
  let* error := request (MGMT_BBR_SET bbrDataset) (Commissioner.SetBbrDataset c bbrDataset) in
  SuccessOrExit error ;;
  modify (fun st => set_mBbrDataset (MergeDataset_Bbr (mBbrDataset st) bbrDataset) st).

Definition GetRegistrarIpv6Addr (c : Commissioner.t) : M string :=
  VerifyOrExit (IsActive c) kInvalidState ;;
  VerifyOrExit (IsCcmMode c) kInvalidState ;;
  let* st := get in
  VerifyOrExit (bbr_present kRegistrarIpv6Addr (mBbrDataset st)) kNotFound ;;
  ret (BbrDataset.mRegistrarIpv6Addr (mBbrDataset st)).

Definition Reenroll (c : Commissioner.t) (aDstAddr : string) : M unit :=
  VerifyOrExit (IsActive c) kInvalidState ;;
  VerifyOrExit (IsCcmMode c) kInvalidState ;;
  let* error := request (MGMT_REENROLL aDstAddr) (Commissioner.CommandReenroll c aDstAddr) in
  SuccessOrExit error.

Definition DomainReset (c : Commissioner.t) (aDstAddr : string) : M unit :=
  VerifyOrExit (IsActive c) kInvalidState ;;
  VerifyOrExit (IsCcmMode c) kInvalidState ;;
  let* error := request (MGMT_DOMAIN_RESET aDstAddr)
                        (Commissioner.CommandDomainReset c aDstAddr) in
  SuccessOrExit error.

Definition Migrate (c : Commissioner.t) (aDstAddr aDesignatedNetwork : string) : M unit :=
  VerifyOrExit (IsActive c) kInvalidState ;;
  VerifyOrExit (IsCcmMode c) kInvalidState ;;
  let* error := request (MGMT_NET_MIGRATE aDstAddr aDesignatedNetwork)
                        (Commissioner.CommandMigrate c aDstAddr aDesignatedNetwork) in
  SuccessOrExit error.

(** [Error GetPrimaryBbrAddr(std::string &aAddr)] *)
Definition GetPrimaryBbrAddr (c : Commissioner.t) (aAddr : string) : M string :=
  let* meshLocalPrefix := GetMeshLocalPrefix c in
  let r := Commissioner.GetMeshLocalAddr c aAddr meshLocalPrefix kPrimaryBbrAloc16 in
  SuccessOrExit (fst r) ;;
  ret (snd r).

(** [status] is written by the library before it is read; the library's
    answer carries the value written. *)
Definition RegisterMulticastListener (c : Commissioner.t)
    (aMulticastAddrList : list string) (aTimeout : Z) : M unit :=
  VerifyOrExit (IsActive c) kInvalidState ;;
  let* pbbrAddr := GetPrimaryBbrAddr c EmptyString in
  let* r := request (MLR_REQ pbbrAddr aMulticastAddrList aTimeout)
                    (Commissioner.RegisterMulticastListener c pbbrAddr aMulticastAddrList aTimeout) in
  SuccessOrExit (fst r) ;;
  let status := uint8_t (snd r) in
  VerifyOrExit (status =? kMlrStatusSuccess) kRejected.

Definition AnnounceBegin (c : Commissioner.t) (aChannelMask aCount aPeriod : Z)
    (aDtsAddr : string) : M unit :=
  VerifyOrExit (IsActive c) kInvalidState ;;
  let* error := request (MGMT_ANNOUNCE_BEGIN aChannelMask aCount aPeriod aDtsAddr)
                        (Commissioner.AnnounceBegin c aChannelMask aCount aPeriod aDtsAddr) in
  SuccessOrExit error.

Definition PanIdQuery (c : Commissioner.t) (aChannelMask aPanId : Z) (aDstAddr : string)
    : M unit :=
  VerifyOrExit (IsActive c) kInvalidState ;;
  let* error := request (MGMT_PANID_QUERY aChannelMask aPanId aDstAddr)
                        (Commissioner.PanIdQuery c aChannelMask aPanId aDstAddr) in
  SuccessOrExit error.

Definition HasPanIdConflict (aPanId : Z) (st : CommissionerApp) : bool :=
  negb (map_count aPanId (mPanIdConflicts st) =? 0)%nat.

Definition EnergyScan (c : Commissioner.t) (aChannelMask aCount aPeriod aScanDuration : Z)
    (aDstAddr : string) : M unit :=
  VerifyOrExit (IsActive c) kInvalidState ;;
  let* error := request (MGMT_ED_SCAN aChannelMask aCount aPeriod aScanDuration aDstAddr)
                        (Commissioner.EnergyScan c aChannelMask aCount aPeriod aScanDuration aDstAddr) in
  SuccessOrExit error.

(** [const EnergyReport *GetEnergyReport(const Address &)]: [None] is the
    null pointer. *)
Definition GetEnergyReport (aDstAddr : Address) (st : CommissionerApp) : option EnergyReport :=
  mEnergyReports st !! aDstAddr.

(** The notification handlers.  Their pointer arguments are options; the
    handlers return [void], so an error only ends them early. *)
Definition HandlePanIdConflict (aPeerAddr : option string) (aChannelMask : option ChannelMask)
    (aPanId : option Z) (aError : Error) : M unit :=
  if NoError aError then
    match aPanId, aChannelMask with
    | Some panId, Some channelMask =>
        modify (fun st => set_mPanIdConflicts (<[panId := channelMask]> (mPanIdConflicts st)) st)
    | _, _ => fun _ => Abort
    end
  else ret tt.

Definition HandleEnergyReport (c : Commissioner.t) (aPeerAddr : option string)
    (aChannelMask : option ChannelMask) (aEnergyList : option ByteArray) (aError : Error)
    : M unit :=
  if NoError aError then
    match aPeerAddr, aChannelMask, aEnergyList with
    | Some peerAddr, Some channelMask, Some energyList =>
        let addr := Commissioner.Address_Set c peerAddr in
        ASSERT (Address_IsValid addr) ;;
        modify (fun st =>
          set_mEnergyReports (<[addr := mkEnergyReport channelMask energyList]> (mEnergyReports st)) st)
    | _, _, _ => fun _ => Abort
    end
  else ret tt.

(** [const JoinerInfo *GetJoinerInfo(JoinerType, const ByteArray &)] *)
Definition GetJoinerInfo (aType : JoinerType) (aJoinerId : ByteArray) (st : CommissionerApp)
    : option JoinerInfo :=
  match mJoiners st !! (aType, aJoinerId) with
  | Some joinerInfo => Some joinerInfo
  | None => mJoiners st !! (aType, Joiner.ComputeJoinerId 0)
  end.

(** *** The operations that require an active session

    Every member function that opens with
    [VerifyOrExit(IsActive(), error = ERROR_INVALID_STATE(...))], as one
    type, and the function that runs one of them. *)

Inductive Op :=
| OpGetSessionId
| OpGetBorderAgentLocator
| OpGetSteeringData (aJoinerType : JoinerType)
| OpEnableJoiner (aType : JoinerType) (aEui64 : Z) (aPSKd : ByteArray) (aProvisioningUrl : string)
| OpDisableJoiner (aType : JoinerType) (aEui64 : Z)
| OpEnableAllJoiners (aType : JoinerType) (aPSKd : ByteArray) (aProvisioningUrl : string)
| OpDisableAllJoiners (aType : JoinerType)
| OpGetJoinerUdpPort (aJoinerType : JoinerType)
| OpSetJoinerUdpPort (aType : JoinerType) (aUdpPort : Z)
| OpGetActiveTimestamp
| OpGetChannel
| OpSetChannel (aChannel : Channel) (aDelay : Z)
| OpGetChannelMask
| OpSetChannelMask (aChannelMask : ChannelMask)
| OpGetExtendedPanId
| OpSetExtendedPanId (aExtendedPanId : ByteArray)
| OpGetMeshLocalPrefix
| OpSetMeshLocalPrefix (aPrefix : string) (aDelay : Z)
| OpGetNetworkMasterKey
| OpSetNetworkMasterKey (aMasterKey : ByteArray) (aDelay : Z)
| OpGetNetworkName
| OpSetNetworkName (aNetworkName : string)
| OpGetPanId
| OpSetPanId (aPanId : Z) (aDelay : Z)
| OpGetPSKc
| OpSetPSKc (aPSKc : ByteArray)
| OpGetSecurityPolicy
| OpSetSecurityPolicy (aSecurityPolicy : SecurityPolicy)
| OpGetTriHostname
| OpSetTriHostname (aHostname : string)
| OpGetRegistrarHostname
| OpSetRegistrarHostname (aHostname : string)
| OpGetRegistrarIpv6Addr
| OpReenroll (aDstAddr : string)
| OpDomainReset (aDstAddr : string)
| OpMigrate (aDstAddr aDesignatedNetwork : string)
| OpRegisterMulticastListener (aMulticastAddrList : list string) (aTimeout : Z)
| OpAnnounceBegin (aChannelMask aCount aPeriod : Z) (aDtsAddr : string)
| OpPanIdQuery (aChannelMask aPanId : Z) (aDstAddr : string)
| OpEnergyScan (aChannelMask aCount aPeriod aScanDuration : Z) (aDstAddr : string).

Definition returning {A} (wrap : A -> Value) (m : M A) : M Value :=
  let* a := m in ret (wrap a).

Definition run (c : Commissioner.t) (op : Op) : M Value :=
  let done := fun _ : unit => VUnit in
  match op with
  | OpGetSessionId => returning VU16 (GetSessionId c)
  | OpGetBorderAgentLocator => returning VU16 (GetBorderAgentLocator c)
  | OpGetSteeringData t => returning VBytes (GetSteeringData c t)
  | OpEnableJoiner t e pskd url => returning done (EnableJoiner c t e pskd url)
  | OpDisableJoiner t e => returning done (DisableJoiner c t e)
  | OpEnableAllJoiners t pskd url => returning done (EnableAllJoiners c t pskd url)
  | OpDisableAllJoiners t => returning done (DisableAllJoiners c t)
  | OpGetJoinerUdpPort t => returning VU16 (GetJoinerUdpPort c t)
  | OpSetJoinerUdpPort t port => returning done (SetJoinerUdpPort c t port)
  | OpGetActiveTimestamp => returning VTimestamp (GetActiveTimestamp c)
  | OpGetChannel => returning VChannel (GetChannel c)
  | OpSetChannel ch delay => returning done (SetChannel c ch delay)
  | OpGetChannelMask => returning VChannelMask (GetChannelMask c)
  | OpSetChannelMask m => returning done (SetChannelMask c m)
  | OpGetExtendedPanId => returning VBytes (GetExtendedPanId c)
  | OpSetExtendedPanId x => returning done (SetExtendedPanId c x)
  | OpGetMeshLocalPrefix => returning VString (GetMeshLocalPrefix c)
  | OpSetMeshLocalPrefix p delay => returning done (SetMeshLocalPrefix c p delay)
  | OpGetNetworkMasterKey => returning VBytes (GetNetworkMasterKey c)
  | OpSetNetworkMasterKey k delay => returning done (SetNetworkMasterKey c k delay)
  | OpGetNetworkName => returning VString (GetNetworkName c)
  | OpSetNetworkName n => returning done (SetNetworkName c n)
  | OpGetPanId => returning VU16 (GetPanId c)
  | OpSetPanId p delay => returning done (SetPanId c p delay)
  | OpGetPSKc => returning VBytes (GetPSKc c)
  | OpSetPSKc k => returning done (SetPSKc c k)
  | OpGetSecurityPolicy => returning VSecurityPolicy (GetSecurityPolicy c)
  | OpSetSecurityPolicy p => returning done (SetSecurityPolicy c p)
  | OpGetTriHostname => returning VString (GetTriHostname c)
  | OpSetTriHostname h => returning done (SetTriHostname c h)
  | OpGetRegistrarHostname => returning VString (GetRegistrarHostname c)
  | OpSetRegistrarHostname h => returning done (SetRegistrarHostname c h)
  | OpGetRegistrarIpv6Addr => returning VString (GetRegistrarIpv6Addr c)
  | OpReenroll a => returning done (Reenroll c a)
  | OpDomainReset a => returning done (DomainReset c a)
  | OpMigrate a n => returning done (Migrate c a n)
  | OpRegisterMulticastListener l timeout => returning done (RegisterMulticastListener c l timeout)
  | OpAnnounceBegin mask count period addr => returning done (AnnounceBegin c mask count period addr)
  | OpPanIdQuery mask panid addr => returning done (PanIdQuery c mask panid addr)
  | OpEnergyScan mask count period dur addr => returning done (EnergyScan c mask count period dur addr)
  end.

(** The joiner-management operations, which send a copy of the cached
    commissioner dataset. *)
Definition is_joiner_management (op : Op) : bool :=
  match op with
  | OpEnableJoiner _ _ _ _ | OpDisableJoiner _ _ | OpEnableAllJoiners _ _ _
  | OpDisableAllJoiners _ | OpSetJoinerUdpPort _ _ => true
  | _ => false
  end.

End WithLayout.

Create HintDb member_functions.

#[global] Hint Unfold
  GetSessionId GetBorderAgentLocator GetSteeringData EnableJoiner DisableJoiner
  EnableAllJoiners DisableAllJoiners GetJoinerUdpPort SetJoinerUdpPort
  GetActiveTimestamp GetChannel SetChannel GetChannelMask SetChannelMask
  GetExtendedPanId SetExtendedPanId GetMeshLocalPrefix SetMeshLocalPrefix
  GetNetworkMasterKey SetNetworkMasterKey GetNetworkName SetNetworkName GetPanId
  SetPanId GetPSKc SetPSKc GetSecurityPolicy SetSecurityPolicy GetTriHostname
  SetTriHostname GetRegistrarHostname SetRegistrarHostname GetRegistrarIpv6Addr
  Reenroll DomainReset Migrate GetPrimaryBbrAddr RegisterMulticastListener
  AnnounceBegin PanIdQuery EnergyScan
  : member_functions.

(** The monad steps, for unfolding a member function on a given state. *)
Ltac step_member := unfold returning, bind, get, modify, ret, VerifyOrExit, SuccessOrExit,
  ASSERT, request, IsActive, IsCcmMode in *.

(** C7: an operation that requires an active session, run while the session
    is not active, leaves through [exit:] with [InvalidState]; the
    application object is unchanged, so no request was put on the wire and
    the cached datasets and the joiner map are as before. *)
Theorem inactive_session_rejected (L : Layout) (c : Commissioner.t) (op : Op)
    (st : CommissionerApp) :
  IsActive c = false ->
  run L c op st = Exit kInvalidState st /\
  final_state (run L c op st) = Some st /\
  (forall st', final_state (run L c op st) = Some st' ->
     mWire st' = mWire st /\ mJoiners st' = mJoiners st /\
     mCommDataset st' = mCommDataset st /\ mActiveDataset st' = mActiveDataset st /\
     mPendingDataset st' = mPendingDataset st /\ mBbrDataset st' = mBbrDataset st).
Proof.
  intros Hinactive.
  assert (Hrun : run L c op st = Exit kInvalidState st).
  { destruct op; unfold run; autounfold with member_functions;
      try destruct aType; unfold GetSteeringData_ref, GetJoinerUdpPort_ref;
      step_member; rewrite Hinactive; reflexivity. }
  rewrite Hrun. cbn. split; [reflexivity|]. split; [reflexivity|].
  intros st' [= <-]. repeat split; reflexivity.
Qed.


Section JoinerManagement.

Variable L : Layout.
Hypothesis L_ok : layout_ok L = true.

(** Neither Leader-owned field is marked present. *)
Definition leader_fields_hidden (d : CommissionerDataset.t) : Prop :=
  comm_present L kSessionId d = false /\ comm_present L kBorderAgentLocator d = false.

Definition outbound_request (r : Request) : Prop :=
  exists d, r = MGMT_COMMISSIONER_SET d /\ leader_fields_hidden d.

Lemma comm_present_set_flag f g d :
  comm_present L g (set_flag (comm_pos L) f d) = bool_decide (f = g) || comm_present L g d.
Proof. apply (present_flag_set _ (comm_pos_range L L_ok) (comm_pos_inj L L_ok)). Qed.

Lemma comm_present_clear_flag f g d :
  comm_present L g (clear_flag (comm_pos L) f d) =
  negb (bool_decide (f = g)) && comm_present L g d.
Proof. apply (present_flag_clear _ (comm_pos_range L L_ok) (comm_pos_inj L L_ok)). Qed.

Lemma outbound_copy_hidden st : leader_fields_hidden (outbound_copy L st).
Proof.
  unfold leader_fields_hidden, outbound_copy. cbv zeta.
  rewrite !comm_present_clear_flag. split.
  - rewrite (bool_decide_eq_false_2 (kBorderAgentLocator = kSessionId)) by discriminate.
    now rewrite (bool_decide_eq_true_2 (kSessionId = kSessionId)).
  - now rewrite (bool_decide_eq_true_2 (kBorderAgentLocator = kBorderAgentLocator)).
Qed.

(** The member a joiner type selects. *)
Definition steering_field (t : JoinerType) : CommissionerDatasetField :=
  match t with
  | kMeshCoP => kSteeringData
  | kAE => kAeSteeringData
  | kNMKP => kNmkpSteeringData
  end.

Definition udp_port_field (t : JoinerType) : CommissionerDatasetField :=
  match t with
  | kMeshCoP => kJoinerUdpPort
  | kAE => kAeUdpPort
  | kNMKP => kNmkpUdpPort
  end.

Lemma comm_present_flags f d d' :
  CommissionerDataset.mPresentFlags d = CommissionerDataset.mPresentFlags d' ->
  comm_present L f d = comm_present L f d'.
Proof. unfold comm_present, present. cbn. now intros ->. Qed.

Lemma GetSteeringData_ref_fst d t :
  fst (GetSteeringData_ref L d t) = set_flag (comm_pos L) (steering_field t) d.
Proof. now destruct t. Qed.

Lemma GetSteeringData_ref_store d t v d' :
  CommissionerDataset.mPresentFlags (store (snd (GetSteeringData_ref L d t)) v d') =
  CommissionerDataset.mPresentFlags d' /\
  view (steering_field t) (store (snd (GetSteeringData_ref L d t)) v d') = VBytes v /\
  load (snd (GetSteeringData_ref L d t)) (store (snd (GetSteeringData_ref L d t)) v d') = v.
Proof. now destruct t. Qed.

Lemma GetJoinerUdpPort_ref_fst d t :
  fst (GetJoinerUdpPort_ref L d t) = set_flag (comm_pos L) (udp_port_field t) d.
Proof. now destruct t. Qed.

Lemma GetJoinerUdpPort_ref_store d t v d' :
  CommissionerDataset.mPresentFlags (store (snd (GetJoinerUdpPort_ref L d t)) v d') =
  CommissionerDataset.mPresentFlags d' /\
  view (udp_port_field t) (store (snd (GetJoinerUdpPort_ref L d t)) v d') = VU16 v.
Proof. now destruct t. Qed.

Lemma set_flag_hidden f d :
  f <> kSessionId -> f <> kBorderAgentLocator ->
  leader_fields_hidden d -> leader_fields_hidden (set_flag (comm_pos L) f d).
Proof.
  intros H1 H2 [Hs Hb]. unfold leader_fields_hidden.
  rewrite !comm_present_set_flag, Hs, Hb.
  now rewrite !bool_decide_eq_false_2 by assumption.
Qed.

Lemma steering_ref_hidden d t v :
  leader_fields_hidden d ->
  leader_fields_hidden (store (snd (GetSteeringData_ref L d t)) v (fst (GetSteeringData_ref L d t))).
Proof.
  intros Hd.
  destruct (GetSteeringData_ref_store d t v (fst (GetSteeringData_ref L d t))) as [Hfl _].
  unfold leader_fields_hidden. rewrite !(comm_present_flags _ _ _ Hfl).
  rewrite GetSteeringData_ref_fst. apply set_flag_hidden; [now destruct t | now destruct t | exact Hd].
Qed.

Lemma udp_port_ref_hidden d t v :
  leader_fields_hidden d ->
  leader_fields_hidden (store (snd (GetJoinerUdpPort_ref L d t)) v (fst (GetJoinerUdpPort_ref L d t))).
Proof.
  intros Hd.
  destruct (GetJoinerUdpPort_ref_store d t v (fst (GetJoinerUdpPort_ref L d t))) as [Hfl _].
  unfold leader_fields_hidden. rewrite !(comm_present_flags _ _ _ Hfl).
  rewrite GetJoinerUdpPort_ref_fst. apply set_flag_hidden; [now destruct t | now destruct t | exact Hd].
Qed.

(** The dataset each joiner operation hands to [SetCommissionerDataset]. *)
Definition EnableJoiner_dataset (c : Commissioner.t) (t : JoinerType) (e : Z)
    (st : CommissionerApp) : CommissionerDataset.t :=
  let p := GetSteeringData_ref L (outbound_copy L st) t in
  store (snd p) (Commissioner.AddJoiner c (load (snd p) (fst p)) (Joiner.ComputeJoinerId e)) (fst p).

Definition DisableJoiner_loop (c : Commissioner.t) (t : JoinerType) (e : Z)
    (st : CommissionerApp) : ByteArray * ByteArray :=
  fold_left (DisableJoiner_step c t e) (map_to_list (mJoiners st)) ([0x00], []).

Definition steering_dataset (t : JoinerType) (data : ByteArray) (st : CommissionerApp)
    : CommissionerDataset.t :=
  let p := GetSteeringData_ref L (outbound_copy L st) t in
  store (snd p) data (fst p).

Definition udp_port_dataset (t : JoinerType) (port : Z) (st : CommissionerApp)
    : CommissionerDataset.t :=
  let p := GetJoinerUdpPort_ref L (outbound_copy L st) t in
  store (snd p) port (fst p).

(** The state after a dataset was sent, and after it was merged. *)
Definition sent (d : CommissionerDataset.t) (st : CommissionerApp) : CommissionerApp :=
  set_mWire (mWire st ++ [MGMT_COMMISSIONER_SET d]) st.

Definition merged (d : CommissionerDataset.t) (st : CommissionerApp) : CommissionerApp :=
  set_mCommDataset (MergeDataset_Commissioner L (mCommDataset st) d) (sent d st).

Definition erased (t : JoinerType) (m : gmap (JoinerType * list Z) JoinerInfo)
    : gmap (JoinerType * list Z) JoinerInfo :=
  snd (fold_left (EraseAllJoiners_step t) (map_to_list m) (0%nat, m)).

Lemma EnableJoiner_run c t e pskd url st :
  EnableJoiner L c t e pskd url st =
  if Commissioner.IsActive c then
    if (map_count (t, Joiner.ComputeJoinerId e) (mJoiners st) =? 0)%nat then
      let d := EnableJoiner_dataset c t e st in
      if NoError (Commissioner.SetCommissionerDataset c d) then
        Return tt (set_mJoiners
                     (map_emplace (t, Joiner.ComputeJoinerId e)
                                  (JoinerInfo_new t e pskd url) (mJoiners st))
                     (merged d st))
      else Exit (Commissioner.SetCommissionerDataset c d) (sent d st)
    else Exit kAlreadyExists st
  else Exit kInvalidState st.
Proof.
  unfold EnableJoiner, EnableJoiner_dataset, merged, sent. step_member.
  destruct (GetSteeringData_ref L (outbound_copy L st) t) as [d r].
  cbn [fst snd].
  destruct (Commissioner.IsActive c); [|reflexivity].
  destruct (map_count _ _ =? 0)%nat; [|reflexivity].
  destruct (NoError _); reflexivity.
Qed.

Lemma DisableJoiner_run c t e st :
  DisableJoiner L c t e st =
  if Commissioner.IsActive c then
    let acc := DisableJoiner_loop c t e st in
    let d := steering_dataset t (fst acc) st in
    if NoError (Commissioner.SetCommissionerDataset c d) then
      Return tt (set_mJoiners (delete (t, snd acc) (mJoiners st)) (merged d st))
    else Exit (Commissioner.SetCommissionerDataset c d) (sent d st)
  else Exit kInvalidState st.
Proof.
  unfold DisableJoiner, DisableJoiner_loop, steering_dataset, merged, sent. step_member.
  destruct (GetSteeringData_ref L (outbound_copy L st) t) as [d r].
  cbn [fst snd].
  destruct (Commissioner.IsActive c); [|reflexivity].
  destruct (fold_left _ _ _) as [data joinerId]. cbn [fst snd].
  destruct (NoError _); reflexivity.
Qed.

Lemma EnableAllJoiners_run c t pskd url st :
  EnableAllJoiners L c t pskd url st =
  if Commissioner.IsActive c then
    let d := steering_dataset t [0xFF] st in
    if NoError (Commissioner.SetCommissionerDataset c d) then
      Return tt (set_mJoiners
                   (map_emplace (t, Joiner.ComputeJoinerId 0) (JoinerInfo_new t 0 pskd url)
                                (erased t (mJoiners st)))
                   (merged d st))
    else Exit (Commissioner.SetCommissionerDataset c d) (sent d st)
  else Exit kInvalidState st.
Proof.
  unfold EnableAllJoiners, EraseAllJoiners, steering_dataset, merged, sent, erased. step_member.
  destruct (GetSteeringData_ref L (outbound_copy L st) t) as [d r].
  cbn [fst snd].
  destruct (Commissioner.IsActive c); [|reflexivity].
  destruct (NoError _); reflexivity.
Qed.

Lemma DisableAllJoiners_run c t st :
  DisableAllJoiners L c t st =
  if Commissioner.IsActive c then
    let d := steering_dataset t [0x00] st in
    if NoError (Commissioner.SetCommissionerDataset c d) then
      Return tt (set_mJoiners (erased t (mJoiners st)) (merged d st))
    else Exit (Commissioner.SetCommissionerDataset c d) (sent d st)
  else Exit kInvalidState st.
Proof.
  unfold DisableAllJoiners, EraseAllJoiners, steering_dataset, merged, sent, erased. step_member.
  destruct (GetSteeringData_ref L (outbound_copy L st) t) as [d r].
  cbn [fst snd].
  destruct (Commissioner.IsActive c); [|reflexivity].
  destruct (NoError _); reflexivity.
Qed.

Lemma SetJoinerUdpPort_run c t port st :
  SetJoinerUdpPort L c t port st =
  if Commissioner.IsActive c then
    let d := udp_port_dataset t port st in
    if NoError (Commissioner.SetCommissionerDataset c d) then Return tt (merged d st)
    else Exit (Commissioner.SetCommissionerDataset c d) (sent d st)
  else Exit kInvalidState st.
Proof.
  unfold SetJoinerUdpPort, udp_port_dataset, merged, sent. step_member.
  destruct (GetJoinerUdpPort_ref L (outbound_copy L st) t) as [d r].
  cbn [fst snd].
  destruct (Commissioner.IsActive c); [|reflexivity].
  destruct (NoError _); reflexivity.
Qed.

Lemma final_state_returning {A} (wrap : A -> Value) (m : M A) st :
  final_state (returning wrap m st) = final_state (m st).
Proof. unfold returning, bind, ret. now destruct (m st). Qed.

Lemma error_of_returning {A} (wrap : A -> Value) (m : M A) st :
  error_of (returning wrap m st) = error_of (m st).
Proof. unfold returning, bind, ret. now destruct (m st). Qed.

Lemma EraseAllJoiners_fold_lookup (t : JoinerType)
    (l : list ((JoinerType * list Z) * JoinerInfo)) n m0 k :
  snd (fold_left (EraseAllJoiners_step t) l (n, m0)) !! k =
  if bool_decide (fst k = t) && bool_decide (k ∈ l.*1) then None else m0 !! k.
Proof.
  revert n m0. induction l as [|[k0 v0] l IH]; intros n m0; cbn [fold_left fmap list_fmap].
  - rewrite (bool_decide_eq_false_2 (k ∈ [])) by (apply not_elem_of_nil).
    now rewrite andb_false_r.
  - unfold EraseAllJoiners_step at 2. cbn [fst snd].
    rewrite (bool_decide_ext (k ∈ k0 :: l.*1) (k = k0 \/ k ∈ l.*1)) by (apply elem_of_cons).
    destruct (decide (fst k0 = t)) as [E0|E0].
    + rewrite (bool_decide_eq_true_2 _ E0), IH.
      destruct (decide (k = k0)) as [->|Hne].
      * rewrite (bool_decide_eq_true_2 _ E0).
        rewrite (bool_decide_eq_true_2 (k0 = k0 \/ _)) by (now left).
        rewrite lookup_delete_eq. now destruct (bool_decide (k0 ∈ l.*1)).
      * rewrite lookup_delete_ne by congruence.
        rewrite (bool_decide_ext (k = k0 \/ k ∈ l.*1) (k ∈ l.*1)) by tauto.
        reflexivity.
    + rewrite (bool_decide_eq_false_2 _ E0), IH.
      destruct (decide (k = k0)) as [->|Hne].
      * now rewrite (bool_decide_eq_false_2 _ E0).
      * rewrite (bool_decide_ext (k = k0 \/ k ∈ l.*1) (k ∈ l.*1)) by tauto.
        reflexivity.
Qed.

(** [EraseAllJoiners] removes exactly the entries of the given type. *)
Lemma erased_lookup (t : JoinerType) (m : gmap (JoinerType * list Z) JoinerInfo)
    (t' : JoinerType) (id : list Z) :
  erased t m !! (t', id) = if decide (t' = t) then None else m !! (t', id).
Proof.
  unfold erased. rewrite EraseAllJoiners_fold_lookup. cbn [fst].
  destruct (decide (t' = t)) as [->|Hne].
  - rewrite bool_decide_eq_true_2 by reflexivity. cbn [andb].
    case_bool_decide as Hin; [reflexivity|].
    destruct (m !! (t, id)) as [v|] eqn:E; [|reflexivity].
    exfalso. apply Hin. apply list_elem_of_fmap. exists ((t, id), v).
    split; [reflexivity|]. now apply elem_of_map_to_list.
  - now rewrite bool_decide_eq_false_2 by assumption.
Qed.

(** C3: whatever a joiner-management operation puts on the wire is a
    commissioner dataset in which neither the session ID nor the border agent
    locator is marked present. *)
Theorem leader_fields_never_sent (c : Commissioner.t) (op : Op) (st : CommissionerApp) :
  is_joiner_management op = true ->
  exists st' reqs,
    final_state (run L c op st) = Some st' /\
    mWire st' = mWire st ++ reqs /\
    Forall outbound_request reqs.
Proof.
  intros Hop.
  assert (Hsteer : forall t data, outbound_request (MGMT_COMMISSIONER_SET (steering_dataset t data st))).
  { intros t data. eexists. split; [reflexivity|].
    apply steering_ref_hidden, outbound_copy_hidden. }
  destruct op; try discriminate Hop; unfold run; rewrite final_state_returning.
  - rewrite EnableJoiner_run.
    destruct (Commissioner.IsActive c);
      [|exists st, []; rewrite app_nil_r; auto].
    destruct (map_count _ _ =? 0)%nat;
      [|exists st, []; rewrite app_nil_r; auto].
    cbv zeta. destruct (NoError _); eexists _, [_];
      (split; [reflexivity|]; split; [reflexivity|]);
      constructor; auto; eexists; (split; [reflexivity|]);
      apply steering_ref_hidden, outbound_copy_hidden.
  - rewrite DisableJoiner_run.
    destruct (Commissioner.IsActive c);
      [|exists st, []; rewrite app_nil_r; auto].
    cbv zeta. destruct (NoError _); eexists _, [_];
      (split; [reflexivity|]; split; [reflexivity|]); constructor; auto.
  - rewrite EnableAllJoiners_run.
    destruct (Commissioner.IsActive c);
      [|exists st, []; rewrite app_nil_r; auto].
    cbv zeta. destruct (NoError _); eexists _, [_];
      (split; [reflexivity|]; split; [reflexivity|]); constructor; auto.
  - rewrite DisableAllJoiners_run.
    destruct (Commissioner.IsActive c);
      [|exists st, []; rewrite app_nil_r; auto].
    cbv zeta. destruct (NoError _); eexists _, [_];
      (split; [reflexivity|]; split; [reflexivity|]); constructor; auto.
  - rewrite SetJoinerUdpPort_run.
    destruct (Commissioner.IsActive c);
      [|exists st, []; rewrite app_nil_r; auto].
    cbv zeta. destruct (NoError _); eexists _, [_];
      (split; [reflexivity|]; split; [reflexivity|]);
      constructor; auto; eexists; (split; [reflexivity|]);
      apply udp_port_ref_hidden, outbound_copy_hidden.
Qed.

Lemma steering_dataset_present t data st :
  comm_present L (steering_field t) (steering_dataset t data st) = true /\
  view (steering_field t) (steering_dataset t data st) = VBytes data.
Proof.
  unfold steering_dataset. cbv zeta.
  destruct (GetSteeringData_ref_store (outbound_copy L st) t data
              (fst (GetSteeringData_ref L (outbound_copy L st) t))) as (Hfl & Hv & _).
  split; [|exact Hv].
  rewrite (comm_present_flags _ _ _ Hfl), GetSteeringData_ref_fst, comm_present_set_flag.
  now rewrite bool_decide_eq_true_2.
Qed.

(** After the merge of a sent steering dataset the cache holds the data
    that was sent, marked present. *)
Lemma merged_steering t data st :
  comm_present L (steering_field t) (mCommDataset (merged (steering_dataset t data st) st)) = true /\
  view (steering_field t) (mCommDataset (merged (steering_dataset t data st) st)) = VBytes data.
Proof.
  unfold merged. cbn [mCommDataset set_mCommDataset].
  destruct (steering_dataset_present t data st) as [Hp Hv].
  destruct (MergeDataset_Commissioner_field L L_ok (steering_field t) (mCommDataset st)
              (steering_dataset t data st)) as [Hv' Hp'].
  rewrite Hv', Hp', Hp, Hv. split; [|reflexivity].
  now destruct t.
Qed.

Lemma GetSteeringData_cached c t st data :
  Commissioner.IsActive c = true ->
  comm_present L (steering_field t) (mCommDataset st) = true ->
  view (steering_field t) (mCommDataset st) = VBytes data ->
  GetSteeringData L c t st = Return data st.
Proof.
  intros Hact Hp Hv. unfold GetSteeringData. step_member. rewrite Hact.
  destruct t; cbn [steering_field] in Hp, Hv; rewrite Hp; cbn in Hv; congruence.
Qed.

(** C6: a successful [EnableAllJoiners] leaves the steering data of that type
    at the single byte 0xFF and, of that type, exactly one joiner entry: the
    wildcard under the joiner ID of EUI-64 zero; so no EUI-64 with another
    joiner ID is reported as commissioned. *)
Theorem EnableAllJoiners_wildcard (c : Commissioner.t) (t : JoinerType) (pskd : ByteArray)
    (url : string) (st st' : CommissionerApp) :
  EnableAllJoiners L c t pskd url st = Return tt st' ->
  GetSteeringData L c t st' = Return [0xFF] st' /\
  (forall id : list Z,
     mJoiners st' !! (t, id) =
     if decide (id = Joiner.ComputeJoinerId 0) then Some (JoinerInfo_new t 0 pskd url) else None) /\
  (forall e, Joiner.ComputeJoinerId e <> Joiner.ComputeJoinerId 0 ->
     IsJoinerCommissioned t e st' = false).
Proof.
  intros Hrun. rewrite EnableAllJoiners_run in Hrun.
  destruct (Commissioner.IsActive c) eqn:Hact; [|discriminate].
  cbv zeta in Hrun. destruct (NoError _); [|discriminate].
  injection Hrun as <-.
  assert (Hmap : forall id : list Z,
    map_emplace (t, Joiner.ComputeJoinerId 0) (JoinerInfo_new t 0 pskd url)
                (erased t (mJoiners st)) !! (t, id) =
    if decide (id = Joiner.ComputeJoinerId 0) then Some (JoinerInfo_new t 0 pskd url) else None).
  { intros id. unfold map_emplace. rewrite erased_lookup.
    rewrite decide_True by reflexivity.
    destruct (decide (id = Joiner.ComputeJoinerId 0)) as [->|Hne].
    - apply lookup_insert_eq.
    - rewrite lookup_insert_ne by congruence. rewrite erased_lookup.
      now rewrite decide_True. }
  split; [|split].
  - destruct (merged_steering t [0xFF] st) as [Hp Hv].
    apply (GetSteeringData_cached c t _ [0xFF] Hact);
      cbn [mCommDataset set_mJoiners]; [exact Hp | exact Hv].
  - exact Hmap.
  - intros e Hne. unfold IsJoinerCommissioned. cbn [mJoiners set_mJoiners].
    rewrite Hmap. now rewrite decide_False.
Qed.

(** The loop of [DisableJoiner] over any list of entries: every entry other
    than the one being disabled adds the joiner ID of [aEui64] itself. *)
Definition remaining (t : JoinerType) (e : Z)
    (l : list ((JoinerType * list Z) * JoinerInfo)) : nat :=
  length (List.filter
            (fun kv => negb (bool_decide (mType (snd kv) = t) && (mEui64 (snd kv) =? e))) l).

Lemma DisableJoiner_fold_shape c t e l data jid :
  fold_left (DisableJoiner_step c t e) l (data, jid) =
  (Nat.iter (remaining t e l)
            (fun s => Commissioner.AddJoiner c s (Joiner.ComputeJoinerId e)) data,
   if (remaining t e l =? 0)%nat then jid else Joiner.ComputeJoinerId e).
Proof.
  revert data jid. induction l as [|kv l IH]; intros data jid.
  - reflexivity.
  - cbn [fold_left]. unfold DisableJoiner_step at 2. unfold remaining.
    cbn [List.filter fst snd].
    destruct (bool_decide (mType (snd kv) = t) && (mEui64 (snd kv) =? e)) eqn:E;
      cbn [negb].
    + apply IH.
    + rewrite IH. fold (remaining t e l). cbn [length Nat.eqb].
      rewrite Nat.iter_succ_r. f_equal.
      now destruct (remaining t e l =? 0)%nat.
Qed.

(** The loop runs over the map in key order; its result does not depend on
    the order in which the entries are visited. *)
Lemma remaining_Permutation t e l l' :
  Permutation l l' -> remaining t e l = remaining t e l'.
Proof.
  intros HP. unfold remaining.
  induction HP as [|x l l' HP IH|x y l|l l' l'' HP1 IH1 HP2 IH2]; cbn [List.filter].
  - reflexivity.
  - destruct (negb _); cbn [length]; congruence.
  - do 2 destruct (negb _); reflexivity.
  - congruence.
Qed.

Lemma DisableJoiner_fold_order c t e l l' acc :
  Permutation l l' ->
  fold_left (DisableJoiner_step c t e) l acc = fold_left (DisableJoiner_step c t e) l' acc.
Proof.
  intros HP. destruct acc as [data jid].
  rewrite !DisableJoiner_fold_shape. now rewrite (remaining_Permutation t e l l' HP).
Qed.

(** Disabling the only joiner: the loop finds nothing to add, the local
    [joinerId] stays empty and the entry is not erased. *)
Lemma DisableJoiner_loop_sole c t e pskd url (st : CommissionerApp) :
  mJoiners st = {[ (t, Joiner.ComputeJoinerId e) := JoinerInfo_new t e pskd url ]} ->
  DisableJoiner_loop c t e st = ([0x00], []).
Proof.
  intros Hm. unfold DisableJoiner_loop. rewrite Hm, map_to_list_singleton.
  cbn [fold_left]. unfold DisableJoiner_step. cbn [snd mType mEui64 JoinerInfo_new].
  rewrite bool_decide_eq_true_2 by reflexivity. now rewrite Z.eqb_refl.
Qed.

Lemma EnableJoiner_first c t e pskd url st st1 :
  mJoiners st = ∅ ->
  EnableJoiner L c t e pskd url st = Return tt st1 ->
  mJoiners st1 = {[ (t, Joiner.ComputeJoinerId e) := JoinerInfo_new t e pskd url ]}.
Proof.
  intros Hempty Hen.
  rewrite EnableJoiner_run in Hen.
  destruct (Commissioner.IsActive c); [|discriminate].
  destruct (map_count _ _ =? 0)%nat; [|discriminate].
  cbv zeta in Hen. destruct (NoError _); [|discriminate].
  injection Hen as <-. cbn [mJoiners set_mJoiners]. rewrite Hempty.
  unfold map_emplace. rewrite lookup_empty. apply insert_empty.
Qed.

Lemma DisableJoiner_nothing_left c t e st1 st2 :
  DisableJoiner_loop c t e st1 = ([0x00], []) ->
  DisableJoiner L c t e st1 = Return tt st2 ->
  mJoiners st2 = delete (t, []) (mJoiners st1) /\
  GetSteeringData L c t st2 = Return [0x00] st2.
Proof.
  intros Hloop Hdis.
  rewrite DisableJoiner_run in Hdis.
  destruct (Commissioner.IsActive c) eqn:Hact; [|discriminate].
  cbv zeta in Hdis. rewrite Hloop in Hdis. cbn [fst snd] in Hdis.
  destruct (NoError _); [|discriminate].
  injection Hdis as <-. split; [reflexivity|].
  destruct (merged_steering t [0x00] st1) as [Hp Hv].
  apply (GetSteeringData_cached c t _ [0x00] Hact);
    cbn [mCommDataset set_mJoiners]; [exact Hp | exact Hv].
Qed.

Lemma DisableJoiner_sole_joiner c1 c2 t e pskd url st st1 st2 :
  mJoiners st = ∅ ->
  EnableJoiner L c1 t e pskd url st = Return tt st1 ->
  DisableJoiner L c2 t e st1 = Return tt st2 ->
  mJoiners st2 !! (t, Joiner.ComputeJoinerId e) = Some (JoinerInfo_new t e pskd url) /\
  GetSteeringData L c2 t st2 = Return [0x00] st2.
Proof.
  intros Hempty Hen Hdis.
  pose proof (EnableJoiner_first _ _ _ _ _ _ _ Hempty Hen) as Hm.
  pose proof (DisableJoiner_loop_sole c2 _ _ _ _ _ Hm) as Hloop.
  destruct (DisableJoiner_nothing_left _ _ _ _ _ Hloop Hdis) as [Hm2 Hget].
  split; [|exact Hget].
  rewrite Hm2, Hm. rewrite lookup_delete_ne.
  - apply lookup_singleton_eq.
  - intros E. injection E as E.
    pose proof (Joiner.ComputeJoinerId_length e) as Hl.
    rewrite <- E in Hl. discriminate Hl.
Qed.

End JoinerManagement.


(** *** Queries and reports *)

Section Management.

Variable L : Layout.



Lemma RegisterMulticastListener_run c l timeout st :
  RegisterMulticastListener L c l timeout st =
  if Commissioner.IsActive c then
    match GetPrimaryBbrAddr L c EmptyString st with
    | Return pbbrAddr st1 =>
        let r := Commissioner.RegisterMulticastListener c pbbrAddr l timeout in
        let st2 := set_mWire (mWire st1 ++ [MLR_REQ pbbrAddr l timeout]) st1 in
        if NoError (fst r) then
          if uint8_t (snd r) =? kMlrStatusSuccess then Return tt st2 else Exit kRejected st2
        else Exit (fst r) st2
    | Exit e st1 => Exit e st1
    | Abort => Abort
    end
  else Exit kInvalidState st.
Proof.
  unfold RegisterMulticastListener. unfold bind at 1. unfold VerifyOrExit at 1.
  unfold IsActive. destruct (Commissioner.IsActive c); [|reflexivity].
  unfold bind at 1. destruct (GetPrimaryBbrAddr L c EmptyString st); try reflexivity.
  step_member. cbv zeta. destruct (NoError _); [|reflexivity].
  destruct (uint8_t _ =? kMlrStatusSuccess); reflexivity.
Qed.

(** C9: once the MLR exchange has answered, the operation succeeds exactly
    when the status byte is 0 and reports [Rejected] for every other status. *)
Theorem RegisterMulticastListener_status (c : Commissioner.t) (l : list string)
    (timeout : Z) (st st1 : CommissionerApp) (pbbr : string) (status : Z) :
  Commissioner.IsActive c = true ->
  GetPrimaryBbrAddr L c EmptyString st = Return pbbr st1 ->
  Commissioner.RegisterMulticastListener c pbbr l timeout = (kNone, status) ->
  0 <= status < 2^8 ->
  (error_of (RegisterMulticastListener L c l timeout st) = Some kNone <-> status = 0) /\
  (status <> 0 -> error_of (RegisterMulticastListener L c l timeout st) = Some kRejected).
Proof.
  intros Hact Hpbbr Hmlr Hbyte.
  rewrite RegisterMulticastListener_run, Hact, Hpbbr. cbv zeta. rewrite Hmlr.
  cbn [fst snd]. unfold NoError. rewrite bool_decide_eq_true_2 by reflexivity.
  rewrite uint8_t_id by exact Hbyte. unfold kMlrStatusSuccess.
  destruct (Z.eqb_spec status 0) as [->|Hne]; cbn [error_of].
  - split; [tauto | intros H; now destruct H].
  - split; [|reflexivity]. split; [discriminate | contradiction].
Qed.

(** A successful registration always went through an exchange that answered
    with status 0. *)
Lemma RegisterMulticastListener_success c l timeout st st' :
  RegisterMulticastListener L c l timeout st = Return tt st' ->
  exists pbbr st1,
    GetPrimaryBbrAddr L c EmptyString st = Return pbbr st1 /\
    fst (Commissioner.RegisterMulticastListener c pbbr l timeout) = kNone /\
    uint8_t (snd (Commissioner.RegisterMulticastListener c pbbr l timeout)) = 0.
Proof.
  rewrite RegisterMulticastListener_run.
  destruct (Commissioner.IsActive c); [|discriminate].
  destruct (GetPrimaryBbrAddr L c EmptyString st) as [pbbr st1| |]; try discriminate.
  cbv zeta. unfold NoError. case_bool_decide as He; [|discriminate].
  unfold kMlrStatusSuccess.
  destruct (Z.eqb_spec (uint8_t (snd (Commissioner.RegisterMulticastListener c pbbr l timeout))) 0)
    as [Hs|]; [|discriminate].
  intros _. now exists pbbr, st1.
Qed.

End Management.


(** *** A test double of the library

    For running the member functions on concrete inputs: a commissioner that
    accepts every request. *)

(** Modelled from the spec: the steering data is a Bloom filter of up to 16
    bytes in which joiner [J] owns bit [CRC16-CCITT(J) % (8 * len)], stored in
    byte [len - 1 - bit / 8] (invariant I3); [Commissioner::AddJoiner] itself
    is implemented outside [src/]. *)
Fixpoint crc16_shift (n : nat) (crc : Z) : Z :=
  match n with
  | O => crc
  | S n' =>
      let shifted := (crc * 2) mod 2^16 in
      crc16_shift n' (if Z.testbit crc 15 then Z.lxor shifted 0x1021 else shifted)
  end.

Definition crc16_ccitt (data : list Z) : Z :=
  fold_left (fun crc b => crc16_shift 8 (Z.lxor crc (b * 256))) data 0.

Definition kMaxSteeringDataLength : nat := 16.

Definition bloom_add (aSteeringData aJoinerId : list Z) : list Z :=
  let data :=
    if (length aSteeringData =? kMaxSteeringDataLength)%nat then aSteeringData
    else repeat 0 kMaxSteeringDataLength in
  let bit := crc16_ccitt aJoinerId mod (8 * Z.of_nat kMaxSteeringDataLength) in
  let index := (kMaxSteeringDataLength - 1 - Z.to_nat (bit / 8))%nat in
  match data !! index with
  | Some b => <[index := Z.lor b (Z.shiftl 1 (bit mod 8))]> data
  | None => data
  end.

Definition bloom_test (aSteeringData aJoinerId : list Z) : bool :=
  let len := Z.of_nat (length aSteeringData) in
  let bit := crc16_ccitt aJoinerId mod (8 * len) in
  match aSteeringData !! Z.to_nat (len - 1 - bit / 8) with
  | Some b => Z.testbit b (bit mod 8)
  | None => false
  end.

Definition sample_prefix : list Z := [0xfd; 0xde; 0xad; 0x00; 0xbe; 0xef; 0x00; 0x00].

Definition sample_active_dataset (L : Layout) : ActiveOperationalDataset.t :=
  set_flag (active_pos L) kMeshLocalPrefix
    (ActiveOperationalDataset.set_mMeshLocalPrefix sample_prefix ActiveOperationalDataset.empty).

(** [active] is the session state, [status] the status byte of every MLR
    response. *)
Definition stub (L : Layout) (active : bool) (status : Z) : Commissioner.t :=
  Commissioner.mk active false 0x1234 EmptyString
    (fun _ => kNone)
    (fun _ _ => (kNone, sample_active_dataset L))
    (fun _ => kNone)
    (fun _ => kNone)
    (fun _ => kNone)
    (fun _ => kNone)
    (fun _ => kNone)
    (fun _ _ => kNone)
    (fun _ _ _ => (kNone, status))
    (fun _ _ _ _ => kNone)
    (fun _ _ _ => kNone)
    (fun _ _ _ _ _ => kNone)
    bloom_add
    (fun _ prefix _ => (kNone, prefix))
    (fun _ => "fdde:ad00:beef::/64"%string)
    (fun _ _ => (kNone, sample_prefix))
    (fun peer => map (fun a => Z.of_nat (Ascii.nat_of_ascii a)) (list_ascii_of_string peer)).

(** The state an outcome leaves behind, for chaining sample runs. *)
Definition after {A} (o : Outcome A) : CommissionerApp :=
  match final_state o with
  | Some st => st
  | None => CommissionerApp_new
  end.

Definition sample_pskd : ByteArray := [0x4a; 0x30; 0x31; 0x4e; 0x4d; 0x45].

Example bloom_add_admits :
  bloom_test (bloom_add [0x00] (Joiner.ComputeJoinerId 1)) (Joiner.ComputeJoinerId 1) = true.
Proof. vm_compute. reflexivity. Qed.


(** *** Sample runs *)

(** The cache as it is after a petition: the Leader's two fields present. *)
Definition sample_comm_dataset : CommissionerDataset.t :=
  CommissionerDataset.mk 0x0400 0x1234 [] [] [] 0 0 0 0xC000.

Definition sample_app : CommissionerApp :=
  set_mCommDataset sample_comm_dataset CommissionerApp_new.

Definition sample_mask : ChannelMask := [mkChannelMaskEntry 0 [0x07; 0xFF; 0xF8; 0x00]].

Definition sole_enabled : CommissionerApp :=
  after (EnableJoiner header_layout (stub header_layout true 0) kMeshCoP 1 sample_pskd
                      EmptyString sample_app).

Definition sole_disabled : CommissionerApp :=
  after (DisableJoiner header_layout (stub header_layout true 0) kMeshCoP 1 sole_enabled).

Definition other_enabled : CommissionerApp :=
  after (EnableJoiner header_layout (stub header_layout true 0) kMeshCoP 2 sample_pskd
                      EmptyString sample_app).

Definition both_enabled : CommissionerApp :=
  after (EnableJoiner header_layout (stub header_layout true 0) kMeshCoP 1 sample_pskd
                      EmptyString other_enabled).

Definition one_disabled : CommissionerApp :=
  after (DisableJoiner header_layout (stub header_layout true 0) kMeshCoP 1 both_enabled).

Definition all_enabled : CommissionerApp :=
  after (EnableAllJoiners header_layout (stub header_layout true 0) kMeshCoP sample_pskd
                          EmptyString other_enabled).





Definition pbbr_resolved : CommissionerApp :=
  after (GetPrimaryBbrAddr header_layout (stub header_layout true 4) EmptyString sample_app).

Example EnableJoiner_sends_without_leader_fields :
  mWire sole_enabled =
  [ MGMT_COMMISSIONER_SET
      (CommissionerDataset.mk 0x0400 0x1234
         [0; 0; 0; 0; 0; 0; 0; 0; 0; 0; 0; 0; 0; 0; 0x80; 0] [] [] 0 0 0 0x2000) ] /\
  CommissionerDataset.mPresentFlags (mCommDataset sole_enabled) = 0xE000.
Proof. vm_compute. split; reflexivity. Qed.

Example SetChannel_merges_both_fields :
  let st := after (SetChannel header_layout (stub header_layout true 0) (mkChannel 0 26) 5000
                              sample_app) in
  pending_present header_layout (kActive kChannel) (mPendingDataset st) = true /\
  pending_present header_layout kDelayTimer (mPendingDataset st) = true /\
  PendingOperationalDataset.mDelayTimer (mPendingDataset st) = 5000.
Proof. vm_compute. repeat split; reflexivity. Qed.

(** C1 on the code, at two inputs.  Disabling the only enabled joiner leaves
    its entry in the joiner map.  Disabling one of two joiners rebuilds the
    steering data from the ID of the joiner that was disabled, so that the
    filter admits that joiner and no longer the one that remains, and differs
    from the steering data before the joiner was enabled. *)
Theorem DisableJoiner_failing_inputs :
  (error_of (EnableJoiner header_layout (stub header_layout true 0) kMeshCoP 1 sample_pskd
                          EmptyString sample_app) = Some kNone /\
   error_of (DisableJoiner header_layout (stub header_layout true 0) kMeshCoP 1 sole_enabled)
     = Some kNone /\
   mJoiners sole_disabled !! (kMeshCoP, Joiner.ComputeJoinerId 1) =
     Some (JoinerInfo_new kMeshCoP 1 sample_pskd EmptyString)) /\
  (error_of (EnableJoiner header_layout (stub header_layout true 0) kMeshCoP 1 sample_pskd
                          EmptyString other_enabled) = Some kNone /\
   error_of (DisableJoiner header_layout (stub header_layout true 0) kMeshCoP 1 both_enabled)
     = Some kNone /\
   CommissionerDataset.mSteeringData (mCommDataset other_enabled) =
     [0; 0; 0; 0; 0; 0; 0; 2; 0; 0; 0; 0; 0; 0; 0; 0] /\
   CommissionerDataset.mSteeringData (mCommDataset one_disabled) =
     [0; 0; 0; 0; 0; 0; 0; 0; 0; 0; 0; 0; 0; 0; 0x80; 0] /\
   bloom_test (CommissionerDataset.mSteeringData (mCommDataset one_disabled))
              (Joiner.ComputeJoinerId 1) = true /\
   bloom_test (CommissionerDataset.mSteeringData (mCommDataset one_disabled))
              (Joiner.ComputeJoinerId 2) = false /\
   mJoiners one_disabled !! (kMeshCoP, Joiner.ComputeJoinerId 2) =
     Some (JoinerInfo_new kMeshCoP 2 sample_pskd EmptyString)).
Proof. vm_compute. repeat split; reflexivity. Qed.


(** *** The theorems at concrete inputs *)

(** C2 at the header's bit assignment: a source without steering data clears
    the steering data that an enabled joiner left in the cache. *)
Lemma MergeDataset_asymmetry_witness :
  layout_ok header_layout = true /\
  In kSteeringData replaced_fields /\
  comm_present header_layout kSteeringData sample_comm_dataset = false /\
  comm_present header_layout kSteeringData
    (MergeDataset_Commissioner header_layout (mCommDataset sole_enabled) sample_comm_dataset)
  = false.
Proof.
  split; [reflexivity|]. split; [now left|]. split; [reflexivity|].
  apply (MergeDataset_asymmetry header_layout eq_refl); [now left | reflexivity].
Defined.

(** C3 at the header's bit assignment, for one [EnableJoiner] on a cache that
    holds both Leader-owned fields. *)
Lemma leader_fields_never_sent_witness :
  layout_ok header_layout = true /\
  is_joiner_management (OpEnableJoiner kMeshCoP 1 sample_pskd EmptyString) = true /\
  exists st' reqs,
    final_state (run header_layout (stub header_layout true 0)
                     (OpEnableJoiner kMeshCoP 1 sample_pskd EmptyString) sample_app) = Some st' /\
    mWire st' = mWire sample_app ++ reqs /\
    Forall (outbound_request header_layout) reqs.
Proof.
  split; [reflexivity|]. split; [reflexivity|].
  apply (leader_fields_never_sent header_layout eq_refl); reflexivity.
Defined.

(** C6 for [EnableAllJoiners] on a state with one per-EUI joiner enabled. *)
Lemma EnableAllJoiners_wildcard_witness :
  layout_ok header_layout = true /\
  EnableAllJoiners header_layout (stub header_layout true 0) kMeshCoP sample_pskd EmptyString
                   other_enabled = Return tt all_enabled /\
  GetSteeringData header_layout (stub header_layout true 0) kMeshCoP all_enabled =
    Return [0xFF] all_enabled /\
  (forall id : list Z,
     mJoiners all_enabled !! (kMeshCoP, id) =
     if decide (id = Joiner.ComputeJoinerId 0)
     then Some (JoinerInfo_new kMeshCoP 0 sample_pskd EmptyString) else None) /\
  (forall e, Joiner.ComputeJoinerId e <> Joiner.ComputeJoinerId 0 ->
     IsJoinerCommissioned kMeshCoP e all_enabled = false).
Proof.
  split; [reflexivity|].
  assert (Hrun : EnableAllJoiners header_layout (stub header_layout true 0) kMeshCoP
                   sample_pskd EmptyString other_enabled = Return tt all_enabled)
    by (vm_compute; reflexivity).
  split; [exact Hrun|].
  exact (EnableAllJoiners_wildcard header_layout eq_refl _ _ _ _ _ _ Hrun).
Defined.

(** C7 for [SetChannel] on a session that is not active. *)
Lemma inactive_session_rejected_witness :
  IsActive (stub header_layout false 0) = false /\
  run header_layout (stub header_layout false 0) (OpSetChannel (mkChannel 0 26) 5000) sample_app
    = Exit kInvalidState sample_app.
Proof.
  split; [reflexivity|].
  apply (inactive_session_rejected header_layout (stub header_layout false 0)
           (OpSetChannel (mkChannel 0 26) 5000) sample_app).
  reflexivity.
Defined.

(** C9 for an MLR response with status 4. *)
Lemma RegisterMulticastListener_status_witness :
  Commissioner.IsActive (stub header_layout true 4) = true /\
  GetPrimaryBbrAddr header_layout (stub header_layout true 4) EmptyString sample_app =
    Return "fdde:ad00:beef::/64"%string pbbr_resolved /\
  Commissioner.RegisterMulticastListener (stub header_layout true 4)
    "fdde:ad00:beef::/64"%string ["ff04::1"%string] 300 = (kNone, 4) /\
  0 <= 4 < 2^8 /\
  error_of (RegisterMulticastListener header_layout (stub header_layout true 4)
              ["ff04::1"%string] 300 sample_app) = Some kRejected.
Proof.
  assert (Hpbbr : GetPrimaryBbrAddr header_layout (stub header_layout true 4) EmptyString
                    sample_app = Return "fdde:ad00:beef::/64"%string pbbr_resolved)
    by (vm_compute; reflexivity).
  split; [reflexivity|]. split; [exact Hpbbr|]. split; [reflexivity|]. split; [lia|].
  apply (RegisterMulticastListener_status header_layout (stub header_layout true 4)
           ["ff04::1"%string] 300 sample_app pbbr_resolved "fdde:ad00:beef::/64"%string 4
           eq_refl Hpbbr eq_refl); lia.
Defined.

End App.

(** * Further properties of the modelled code *)

(** ** random.hpp: jitter, wrapped ranges, buffers *)

Module RandomMore.

Import Random.

(** [void FillBuffer(uint8_t *aBuffer, uint16_t aSize)]: the buffer is a list
    and the pointer an index into it; [draws k] is the [k]-th output of
    [GetUint32].  The loop [while (aSize-- != 0)] runs [aSize] times; a write
    past the end of the buffer is undefined: [None].  The result is the
    buffer and the number of draws consumed. *)
Fixpoint FillBuffer_loop (aSize : nat) (aBuffer : list Z) (p : nat)
    (draws : nat -> Z) (k : nat) : option (list Z * nat) :=
  match aSize with
  | O => Some (aBuffer, k)
  | S aSize' =>
      match aBuffer !! p with
      | Some _ =>
          FillBuffer_loop aSize' (<[p := GetUint8 (draws k)]> aBuffer) (S p) draws (S k)
      | None => None
      end
  end.

Definition FillBuffer (aBuffer : list Z) (aSize : Z) (draws : nat -> Z) (k : nat)
    : option (list Z * nat) :=
  FillBuffer_loop (Z.to_nat (uint16_t aSize)) aBuffer 0 draws k.

Example FillBuffer_sample :
  FillBuffer [7; 7; 7] 2 (fun k => 0x1234 + Z.of_nat k) 5 = Some ([0x39; 0x3a; 7], 7%nat).
Proof. reflexivity. Qed.

Example AddJitter_sample : AddJitter 1000 100 0xDEADBEEF = Some 950.
Proof. reflexivity. Qed.

Lemma FillBuffer_loop_spec aSize : forall aBuffer p draws k,
  (p + aSize <= length aBuffer)%nat ->
  exists out,
    FillBuffer_loop aSize aBuffer p draws k = Some (out, (k + aSize)%nat) /\
    length out = length aBuffer /\
    forall i : nat,
      out !! i =
      if bool_decide (p <= i < p + aSize)%nat
      then Some (GetUint8 (draws (k + (i - p))%nat))
      else aBuffer !! i.
Proof.
  induction aSize as [|n IH]; intros aBuffer p draws k Hlen; cbn [FillBuffer_loop].
  - exists aBuffer. rewrite Nat.add_0_r. split; [reflexivity|]. split; [reflexivity|].
    intros i. rewrite bool_decide_eq_false_2 by lia. reflexivity.
  - destruct (lookup_lt_is_Some_2 aBuffer p) as [b Hb]; [lia|]. rewrite Hb.
    destruct (IH (<[p := GetUint8 (draws k)]> aBuffer) (S p) draws (S k)) as (out & Hrun & Hl & Hget).
    { rewrite length_insert. lia. }
    exists out. split; [rewrite Hrun; replace (S k + n)%nat with (k + S n)%nat by lia; reflexivity|].
    split; [now rewrite Hl, length_insert|].
    intros i. rewrite Hget.
    destruct (decide (i = p)) as [->|Hne].
    + rewrite bool_decide_eq_false_2 by lia. rewrite bool_decide_eq_true_2 by lia.
      rewrite list_lookup_insert_eq by lia.
      replace (k + (p - p))%nat with k by lia. reflexivity.
    + rewrite list_lookup_insert_ne by congruence.
      destruct (decide (S p <= i < S p + n)%nat) as [Hin|Hout].
      * rewrite !bool_decide_eq_true_2 by lia.
        replace (S k + (i - S p))%nat with (k + (i - p))%nat by lia. reflexivity.
      * rewrite !bool_decide_eq_false_2 by lia. reflexivity.
Qed.

(** X1: [FillBuffer] overwrites exactly the first [aSize] bytes of the buffer
    with the low bytes of successive generator outputs, leaves the rest and
    the length as they were and consumes exactly [aSize] draws; a size beyond
    the buffer is undefined. *)
Theorem FillBuffer_fills (aBuffer : list Z) (aSize : Z) (draws : nat -> Z) (k : nat) :
  0 <= aSize < 2^16 ->
  (aSize <= Z.of_nat (length aBuffer) ->
   exists out,
     FillBuffer aBuffer aSize draws k = Some (out, (k + Z.to_nat aSize)%nat) /\
     length out = length aBuffer /\
     (forall i : nat, (i < Z.to_nat aSize)%nat ->
        out !! i = Some (GetUint8 (draws (k + i)%nat)) /\ 0 <= GetUint8 (draws (k + i)%nat) < 2^8) /\
     (forall i : nat, (Z.to_nat aSize <= i)%nat -> out !! i = aBuffer !! i)) /\
  (Z.of_nat (length aBuffer) < aSize -> FillBuffer aBuffer aSize draws k = None).
Proof.
  intros Hsize. unfold FillBuffer. rewrite uint16_t_id by exact Hsize. split.
  - intros Hfit.
    destruct (FillBuffer_loop_spec (Z.to_nat aSize) aBuffer 0 draws k) as (out & Hrun & Hl & Hget);
      [lia|].
    exists out. split; [exact Hrun|]. split; [exact Hl|]. split.
    + intros i Hi. rewrite Hget, bool_decide_eq_true_2 by lia.
      rewrite Nat.sub_0_r. split; [reflexivity | apply GetUint8_range].
    + intros i Hi. rewrite Hget, bool_decide_eq_false_2 by lia. reflexivity.
  - intros Hover.
    assert (Hgen : forall n (buf : list Z) p d j,
               (length buf < p + n)%nat -> (p <= length buf)%nat ->
               FillBuffer_loop n buf p d j = None).
    { induction n as [|n IH]; intros buf p d j H1 H2; [lia|]. cbn [FillBuffer_loop].
      destruct (buf !! p) as [b|] eqn:Hb; [|reflexivity].
      apply lookup_lt_Some in Hb. apply IH; rewrite length_insert; lia. }
    apply Hgen; lia.
Qed.

(** X1 on a three-byte buffer. *)
Lemma FillBuffer_fills_witness :
  0 <= 2 < 2^16 /\
  2 <= Z.of_nat (length [7; 7; 7]) /\
  exists out,
    FillBuffer [7; 7; 7] 2 (fun k => 0x1234 + Z.of_nat k) 5 = Some (out, (5 + Z.to_nat 2)%nat) /\
    length out = length [7; 7; 7] /\
    (forall i : nat, (i < Z.to_nat 2)%nat ->
       out !! i = Some (GetUint8 (0x1234 + Z.of_nat (5 + i))) /\
       0 <= GetUint8 (0x1234 + Z.of_nat (5 + i)) < 2^8) /\
    (forall i : nat, (Z.to_nat 2 <= i)%nat -> out !! i = [7; 7; 7] !! i).
Proof.
  assert (Hsize : 0 <= 2 < 2^16) by lia.
  assert (Hfit : 2 <= Z.of_nat (length [7; 7; 7])) by (cbn; lia).
  split; [exact Hsize|]. split; [exact Hfit|].
  exact (proj1 (FillBuffer_fills [7; 7; 7] 2 (fun k => 0x1234 + Z.of_nat k) 5 Hsize) Hfit).
Defined.

(** X2: [AddJitter] is always defined: its modulus is [2 * j + 1] for the
    clamped jitter [j = min(aJitter, aValue)], which is never zero.  The
    result is [aValue] plus the draw reduced to [[0, 2 * j]] minus [j], cut
    to 32 bits; it lies between [aValue - j] and [aValue + j] whenever
    [aValue + j] fits in 32 bits. *)
Theorem AddJitter_bounds (aValue aJitter r : Z) :
  0 <= r < 2^32 -> 0 <= aValue < 2^32 -> 0 <= aJitter < 2^16 ->
  exists v,
    AddJitter aValue aJitter r = Some v /\
    v = uint32_t (aValue + r mod (2 * Z.min aJitter aValue + 1) - Z.min aJitter aValue) /\
    (aValue + Z.min aJitter aValue < 2^32 ->
       aValue - Z.min aJitter aValue <= v <= aValue + Z.min aJitter aValue).
Proof.
  intros Hr Hv Hj. unfold AddJitter.
  assert (Hclamp : (if aJitter <=? aValue then aJitter else uint16_t aValue) = Z.min aJitter aValue).
  { destruct (Z.leb_spec aJitter aValue).
    - lia.
    - rewrite uint16_t_id by lia. lia. }
  rewrite Hclamp. set (j := Z.min aJitter aValue) in *.
  assert (Hjr : 0 <= j < 2^16) by lia.
  unfold GetUint32InRange. rewrite Z.sub_0_r.
  rewrite !(uint32_t_id (2 * j + 1)) by lia.
  destruct (Z.eqb_spec (2 * j + 1) 0) as [E|_]; [lia|].
  destruct (rem_in_range r (2 * j + 1)) as [-> Hb]; [lia | lia |].
  rewrite Z.add_0_l. rewrite (uint32_t_id (r mod (2 * j + 1))) by lia.
  eexists. split; [reflexivity|]. split; [reflexivity|].
  intros Hfit. rewrite uint32_t_id by lia. lia.
Qed.

(** X2 for a jitter of 100 around 1000. *)
Lemma AddJitter_bounds_witness :
  (0 <= 0xDEADBEEF < 2^32 /\ 0 <= 1000 < 2^32 /\ 0 <= 100 < 2^16) /\
  exists v,
    AddJitter 1000 100 0xDEADBEEF = Some v /\
    v = uint32_t (1000 + 0xDEADBEEF mod (2 * Z.min 100 1000 + 1) - Z.min 100 1000) /\
    (1000 + Z.min 100 1000 < 2^32 -> 1000 - Z.min 100 1000 <= v <= 1000 + Z.min 100 1000).
Proof.
  split; [lia|].
  apply (AddJitter_bounds 1000 100 0xDEADBEEF); lia.
Defined.

(** X3: with the bounds of [GetUint32InRange] swapped ([aMax < aMin]) the
    unsigned difference wraps, the result is still defined and lies in the
    wrapped interval: at or above [aMin] or below [aMax], never in
    [[aMax, aMin)]. *)
Theorem GetUint32InRange_wrapped (aMin aMax r : Z) :
  0 <= r < 2^32 -> 0 <= aMax -> aMax < aMin -> aMin < 2^32 ->
  exists v,
    GetUint32InRange aMin aMax r = Some v /\
    0 <= v < 2^32 /\
    (aMin <= v \/ v < aMax).
Proof.
  intros Hr H0 Hlt Hmax. unfold GetUint32InRange.
  assert (Hd : uint32_t (aMax - aMin) = 2^32 - (aMin - aMax)).
  { unfold uint32_t. symmetry. apply (Z.mod_unique_pos _ _ (-1)); lia. }
  rewrite Hd.
  destruct (Z.eqb_spec (2^32 - (aMin - aMax)) 0) as [E|_]; [lia|].
  destruct (rem_in_range r (2^32 - (aMin - aMax))) as [-> Hb]; [lia | lia |].
  eexists. split; [reflexivity|].
  set (x := r mod (2^32 - (aMin - aMax))) in *.
  unfold uint32_t. split; [apply Z.mod_pos_bound; lia|].
  destruct (Z_lt_ge_dec (aMin + x) (2^32)) as [Hs|Hs].
  - left. rewrite Z.mod_small by lia. lia.
  - right. replace ((aMin + x) mod 2^32) with (aMin + x - 2^32); [lia|].
    apply (Z.mod_unique_pos _ _ 1); lia.
Qed.

(** X3 for the range from 20 down to 10. *)
Lemma GetUint32InRange_wrapped_witness :
  (0 <= 0xDEADBEEF < 2^32 /\ 0 <= 10 /\ 10 < 20 /\ 20 < 2^32) /\
  exists v,
    GetUint32InRange 20 10 0xDEADBEEF = Some v /\ 0 <= v < 2^32 /\ (20 <= v \/ v < 10).
Proof.
  split; [lia|].
  apply (GetUint32InRange_wrapped 20 10 0xDEADBEEF); lia.
Defined.

End RandomMore.

(** ** The commissioner application, continued *)

Module AppMore.

Import App.

(** *** JoinerKey::operator< *)

(** [operator<] of [std::vector<uint8_t>]: lexicographic comparison. *)
Fixpoint ByteArray_lt (a b : list Z) : bool :=
  match a, b with
  | _, [] => false
  | [], _ :: _ => true
  | x :: a', y :: b' =>
      if x <? y then true else if y <? x then false else ByteArray_lt a' b'
  end.

Section JoinerKeyOrder.

(** The enumerators of [JoinerType] are compared by their underlying values,
    which the missing header assigns; they are a parameter. *)
Variable to_underlying : JoinerType -> Z.

(** [mType < aOther.mType || (mType == aOther.mType && mId < aOther.mId)] *)
Definition JoinerKey_lt (a aOther : JoinerType * list Z) : bool :=
  (to_underlying (fst a) <? to_underlying (fst aOther)) ||
  ((to_underlying (fst a) =? to_underlying (fst aOther)) && ByteArray_lt (snd a) (snd aOther)).

Lemma ByteArray_lt_irrefl a : ByteArray_lt a a = false.
Proof.
  induction a as [|x a IH]; [reflexivity|]. cbn [ByteArray_lt].
  now rewrite Z.ltb_irrefl.
Qed.

Lemma ByteArray_lt_trans a : forall b c,
  ByteArray_lt a b = true -> ByteArray_lt b c = true -> ByteArray_lt a c = true.
Proof.
  induction a as [|x a IH]; intros [|y b] [|z c]; cbn [ByteArray_lt]; try discriminate;
    try reflexivity.
  destruct (Z.ltb_spec x y), (Z.ltb_spec y x), (Z.ltb_spec y z), (Z.ltb_spec z y),
    (Z.ltb_spec x z), (Z.ltb_spec z x); try discriminate; try reflexivity; try lia.
  apply IH.
Qed.

Lemma ByteArray_lt_total a : forall b,
  ByteArray_lt a b = false -> ByteArray_lt b a = false -> a = b.
Proof.
  induction a as [|x a IH]; intros [|y b]; cbn [ByteArray_lt]; try discriminate;
    try reflexivity.
  destruct (Z.ltb_spec x y), (Z.ltb_spec y x); try discriminate; try lia.
  intros H1 H2. f_equal; [lia | now apply IH].
Qed.

(** X4: [JoinerKey::operator<] is a strict total order whenever the three
    joiner types have distinct underlying values: no key is below itself, the
    relation is transitive, and two keys that are not ordered either way are
    the same key, so the joiner map holds one entry per type and joiner ID. *)
Theorem JoinerKey_lt_strict_total :
  (forall s t, to_underlying s = to_underlying t -> s = t) ->
  (forall a, JoinerKey_lt a a = false) /\
  (forall a b c, JoinerKey_lt a b = true -> JoinerKey_lt b c = true -> JoinerKey_lt a c = true) /\
  (forall a b, JoinerKey_lt a b = false -> JoinerKey_lt b a = false -> a = b) /\
  (forall a b, JoinerKey_lt a b = true -> JoinerKey_lt b a = false).
Proof.
  intros Hinj. unfold JoinerKey_lt. split; [|split; [|split]].
  - intros [t id]. cbn [fst snd].
    now rewrite Z.ltb_irrefl, Z.eqb_refl, ByteArray_lt_irrefl.
  - intros [t1 a] [t2 b] [t3 c]. cbn [fst snd]. intros H1 H2.
    apply orb_true_iff in H1, H2. apply orb_true_iff.
    destruct H1 as [H1|H1], H2 as [H2|H2];
      rewrite ?andb_true_iff, ?Z.ltb_lt, ?Z.eqb_eq in *.
    + left. lia.
    + left. lia.
    + left. lia.
    + right. destruct H1 as [E1 L1], H2 as [E2 L2]. split; [lia|].
      eapply ByteArray_lt_trans; eassumption.
  - intros [t1 a] [t2 b]. cbn [fst snd]. intros H1 H2.
    apply orb_false_iff in H1 as [H1 H1'], H2 as [H2 H2'].
    apply Z.ltb_ge in H1, H2.
    assert (E : to_underlying t1 = to_underlying t2) by lia.
    rewrite E, Z.eqb_refl in H1', H2'. cbn [andb] in H1', H2'.
    f_equal; [now apply Hinj | now apply ByteArray_lt_total].
  - intros [t1 a] [t2 b]. cbn [fst snd]. intros H1.
    apply orb_true_iff in H1. apply orb_false_iff.
    destruct H1 as [H1|H1]; rewrite ?andb_true_iff, ?Z.ltb_lt, ?Z.eqb_eq in *.
    + split; [apply Z.ltb_ge; lia|].
      destruct (Z.eqb_spec (to_underlying t2) (to_underlying t1)); [lia | reflexivity].
    + destruct H1 as [E L]. split; [apply Z.ltb_ge; lia|].
      rewrite E, Z.eqb_refl. cbn [andb].
      destruct (ByteArray_lt b a) eqn:Hba; [|reflexivity].
      pose proof (ByteArray_lt_trans _ _ _ L Hba) as Haa.
      now rewrite ByteArray_lt_irrefl in Haa.
Qed.

End JoinerKeyOrder.

(** The underlying values in declaration order. *)
Definition declared_underlying (t : JoinerType) : Z :=
  match t with kMeshCoP => 0 | kAE => 1 | kNMKP => 2 end.

Example JoinerKey_lt_sample :
  JoinerKey_lt declared_underlying (kMeshCoP, [0xff; 0x01]) (kAE, [0x00]) = true /\
  JoinerKey_lt declared_underlying (kAE, [0x01]) (kAE, [0x01; 0x00]) = true /\
  JoinerKey_lt declared_underlying (kAE, [0x02]) (kAE, [0x01; 0xff]) = false.
Proof. repeat split. Qed.

(** X4 with the enumerators numbered in declaration order. *)
Lemma JoinerKey_lt_strict_total_witness :
  (forall s t, declared_underlying s = declared_underlying t -> s = t) /\
  (forall a, JoinerKey_lt declared_underlying a a = false) /\
  (forall a b c, JoinerKey_lt declared_underlying a b = true ->
                 JoinerKey_lt declared_underlying b c = true ->
                 JoinerKey_lt declared_underlying a c = true) /\
  (forall a b, JoinerKey_lt declared_underlying a b = false ->
               JoinerKey_lt declared_underlying b a = false -> a = b) /\
  (forall a b, JoinerKey_lt declared_underlying a b = true ->
               JoinerKey_lt declared_underlying b a = false).
Proof.
  assert (Hinj : forall s t, declared_underlying s = declared_underlying t -> s = t)
    by (intros [] []; cbn; intros E; (reflexivity || discriminate E)).
  split; [exact Hinj|].
  exact (JoinerKey_lt_strict_total declared_underlying Hinj).
Defined.

(** *** GetBorderAgent *)

Section BorderAgents.

(** [struct BorderAgent] is declared outside [src/]; only its member
    [mNetworkName] is read here. *)
Variable BorderAgent : Type.
Variable mNetworkName : BorderAgent -> string.

(** [const BorderAgent *GetBorderAgent(const std::string &aNetworkName)] over
    the list [mBorderAgents]; [None] is [nullptr]. *)
Fixpoint GetBorderAgent (mBorderAgents : list BorderAgent) (aNetworkName : string)
    : option BorderAgent :=
  match mBorderAgents with
  | [] => None
  | ba :: rest =>
      if bool_decide (aNetworkName = EmptyString) || bool_decide (aNetworkName = mNetworkName ba)
      then Some ba
      else GetBorderAgent rest aNetworkName
  end.

(** X5: [GetBorderAgent] returns the first border agent of the list whose
    network name equals the argument, any first agent when the argument is
    empty, and null exactly when the list has no such agent. *)
Theorem GetBorderAgent_first_match (agents : list BorderAgent) (name : string) :
  (GetBorderAgent agents EmptyString = head agents) /\
  (forall ba, GetBorderAgent agents name = Some ba ->
     exists before rest,
       agents = before ++ ba :: rest /\
       (name = EmptyString \/ mNetworkName ba = name) /\
       (name <> EmptyString -> forall x, In x before -> mNetworkName x <> name)) /\
  (GetBorderAgent agents name = None <->
     (agents = [] \/ (name <> EmptyString /\ forall x, In x agents -> mNetworkName x <> name))).
Proof.
  split; [|split].
  - destruct agents; reflexivity.
  - induction agents as [|a agents IH]; intros ba; cbn [GetBorderAgent]; [discriminate|].
    destruct (bool_decide (name = EmptyString) || bool_decide (name = mNetworkName a)) eqn:E.
    + intros [= <-]. exists [], agents. split; [reflexivity|]. split.
      * apply orb_true_iff in E as [E|E]; apply bool_decide_eq_true in E; auto.
      * intros _ x [].
    + intros Hrest. destruct (IH ba Hrest) as (before & rest & -> & Hm & Hfirst).
      apply orb_false_iff in E as [E1 E2].
      apply bool_decide_eq_false in E1, E2.
      exists (a :: before), rest. split; [reflexivity|]. split; [exact Hm|].
      intros Hne x [<-|Hin]; [congruence | now apply Hfirst].
  - induction agents as [|a agents IH]; cbn [GetBorderAgent].
    + split; [now left | reflexivity].
    + destruct (bool_decide (name = EmptyString) || bool_decide (name = mNetworkName a)) eqn:E.
      * split; [discriminate|]. intros [Habs|[Hne Hall]]; [discriminate|].
        apply orb_true_iff in E as [E|E]; apply bool_decide_eq_true in E.
        -- contradiction.
        -- exfalso. apply (Hall a); [now left | congruence].
      * apply orb_false_iff in E as [E1 E2].
        apply bool_decide_eq_false in E1, E2. rewrite IH. split.
        -- intros [->|[Hne Hall]]; right; (split; [exact E1|]).
           ++ intros x [<-|[]]. congruence.
           ++ intros x [<-|Hin]; [congruence | now apply Hall].
        -- intros [Habs|[Hne Hall]]; [discriminate|]. right. split; [exact Hne|].
           intros x Hin. apply Hall. now right.
Qed.

End BorderAgents.

Example GetBorderAgent_sample :
  GetBorderAgent (string * Z) fst [("net1"%string, 1); ("net2"%string, 2); ("net2"%string, 3)]
                 "net2"%string = Some ("net2"%string, 2) /\
  GetBorderAgent (string * Z) fst [("net1"%string, 1); ("net2"%string, 2)] "other"%string = None.
Proof. split; reflexivity. Qed.

(** *** What each operation may change *)

(** The caches an operation writes on some path. *)
Definition writes_joiners (op : Op) : bool :=
  match op with
  | OpEnableJoiner _ _ _ _ | OpDisableJoiner _ _ | OpEnableAllJoiners _ _ _
  | OpDisableAllJoiners _ => true
  | _ => false
  end.


Definition writes_pending (op : Op) : bool :=
  match op with
  | OpSetChannel _ _ | OpSetMeshLocalPrefix _ _ | OpSetNetworkMasterKey _ _
  | OpSetPanId _ _ => true
  | _ => false
  end.

Definition writes_bbr (op : Op) : bool :=
  match op with
  | OpSetTriHostname _ | OpSetRegistrarHostname _ => true
  | _ => false
  end.

(** The operations that can put a [MGMT_*_SET] on the wire. *)
Definition emits_set (op : Op) : bool :=
  is_joiner_management op || writes_pending op || writes_bbr op ||
  match op with
  | OpSetChannelMask _ | OpSetExtendedPanId _ | OpSetNetworkName _ | OpSetPSKc _
  | OpSetSecurityPolicy _ => true
  | _ => false
  end.

(** Case analysis on the conditions a member function tests. *)
Ltac split_conditions :=
  repeat match goal with
         | |- context [if ?b then _ else _] =>
             let E := fresh "E" in destruct b eqn:E
         | |- context [match ?x with (_, _) => _ end] =>
             let E := fresh "E" in destruct x eqn:E
         end.

Ltac open_member :=
  unfold run; autounfold with member_functions;
  unfold pull_active, EraseAllJoiners, GetSteeringData_ref, GetJoinerUdpPort_ref;
  step_member.

(** The state of a returned outcome, without unfolding it. *)
Lemma Return_state {A : Type} (a b : A) (s s' : CommissionerApp) :
  Return a s = Return b s' -> s = s'.
Proof. now intros [= _ ->]. Qed.

Section Frames.

Variable L : Layout.


Ltac name_requests :=
  cbn [mWire set_mWire set_mJoiners set_mCommDataset set_mActiveDataset set_mPendingDataset
       set_mBbrDataset set_mPanIdConflicts set_mEnergyReports];
  first [ exists (@nil Request); split; [symmetry; apply app_nil_r|]
        | eexists [_]; split; [reflexivity|]
        | eexists [_; _]; split; [rewrite <- app_assoc; reflexivity|] ].

(** X7: each member function behind the session check (each operation of
    [Op]) appends at most two requests to those handed to the library and at
    most one of them is a [MGMT_*_SET]; among them the getters, the CCM
    commands, the queries and the multicast registration never emit one. *)
Theorem operations_emit_at_most_one_set (c : Commissioner.t) (op : Op)
    (st st' : CommissionerApp) :
  final_state (run L c op st) = Some st' ->
  exists reqs,
    mWire st' = mWire st ++ reqs /\
    (length reqs <= 2)%nat /\
    (length (List.filter is_mgmt_set reqs) <= 1)%nat /\
    (emits_set op = false -> List.filter is_mgmt_set reqs = []).
Proof.
  destruct op; open_member; try destruct aType; try destruct aJoinerType;
    split_conditions; cbn [final_state]; intros [= <-]; name_requests;
    cbn; repeat split; try lia; intros Hw; try discriminate Hw; reflexivity.
Qed.

(** The getters that fetch the active dataset before answering. *)
Definition pulls_active (op : Op) : bool :=
  match op with
  | OpGetChannel | OpGetMeshLocalPrefix | OpGetNetworkMasterKey | OpGetPanId
  | OpRegisterMulticastListener _ _ => true
  | _ => false
  end.

(** X8: an operation that ends with an error has changed no cache and no
    map, whatever it sent before; the one exception is the active dataset,
    which the pulling getters overwrite before they can fail. *)
Theorem failed_operation_keeps_caches (c : Commissioner.t) (op : Op) (e : Error)
    (st st' : CommissionerApp) :
  run L c op st = Exit e st' ->
  mJoiners st' = mJoiners st /\ mCommDataset st' = mCommDataset st /\
  mPendingDataset st' = mPendingDataset st /\ mBbrDataset st' = mBbrDataset st /\
  mPanIdConflicts st' = mPanIdConflicts st /\ mEnergyReports st' = mEnergyReports st /\
  (pulls_active op = false -> mActiveDataset st' = mActiveDataset st).
Proof.
  destruct op; open_member; try destruct aType; try destruct aJoinerType;
    split_conditions; intros Hrun; try discriminate Hrun;
    injection Hrun as <- <-; repeat split; intros Hw; try discriminate Hw; reflexivity.
Qed.

End Frames.

(** *** The joiner map *)

Section Joiners.

Variable L : Layout.
Hypothesis L_ok : layout_ok L = true.

Lemma EraseAllJoiners_fold_count (t : JoinerType)
    (l : list ((JoinerType * list Z) * JoinerInfo)) : forall n m0,
  NoDup (l.*1) ->
  (forall k, k ∈ l.*1 -> is_Some (m0 !! k)) ->
  (fst (fold_left (EraseAllJoiners_step t) l (n, m0)) +
   size (snd (fold_left (EraseAllJoiners_step t) l (n, m0))) = n + size m0)%nat.
Proof.
  induction l as [|[k0 v0] l IH]; intros n m0 Hnd Hin; cbn [fold_left]; [reflexivity|].
  cbn [fmap list_fmap fst] in Hnd, Hin. apply NoDup_cons in Hnd as [Hk0 Hnd].
  unfold EraseAllJoiners_step at 2 4. cbn [fst snd].
  case_bool_decide as Ht.
  - rewrite IH; [| exact Hnd |].
    + rewrite map_size_delete_Some by (apply Hin; left).
      assert (size m0 <> 0)%nat.
      { intros Hz. apply map_size_empty_inv in Hz. subst m0.
        destruct (Hin k0) as [x Hx]; [left|]. now rewrite lookup_empty in Hx. }
      lia.
    + intros k Hk. rewrite lookup_delete_ne; [apply Hin; now right|].
      intros <-. contradiction.
  - rewrite IH; [reflexivity | exact Hnd |].
    intros k Hk. apply Hin. now right.
Qed.

(** X9: [EraseAllJoiners] removes exactly the entries of the given joiner
    type, keeps every entry of the other types, changes nothing else in the
    application, and returns the number of entries it removed. *)
Theorem EraseAllJoiners_removes_type (t : JoinerType) (st : CommissionerApp) :
  exists n st',
    EraseAllJoiners t st = Return n st' /\
    st' = set_mJoiners (mJoiners st') st /\
    (forall t' id, mJoiners st' !! (t', id) =
                   if decide (t' = t) then None else mJoiners st !! (t', id)) /\
    (n + size (mJoiners st') = size (mJoiners st))%nat.
Proof.
  unfold EraseAllJoiners. eexists _, _. split; [reflexivity|].
  cbn [mJoiners set_mJoiners]. split; [reflexivity|]. split.
  - intros t' id. apply erased_lookup.
  - rewrite EraseAllJoiners_fold_count.
    + reflexivity.
    + apply NoDup_fst_map_to_list.
    + intros k Hk. apply list_elem_of_fmap in Hk as ([k' v] & -> & Hkv).
      apply elem_of_map_to_list in Hkv. cbn. eauto.
Qed.

(** The steering data of a joiner type as the cache holds it, present or
    not. *)
Definition cached_steering (t : JoinerType) (st : CommissionerApp) : ByteArray :=
  match t with
  | kMeshCoP => CommissionerDataset.mSteeringData (mCommDataset st)
  | kAE => CommissionerDataset.mAeSteeringData (mCommDataset st)
  | kNMKP => CommissionerDataset.mNmkpSteeringData (mCommDataset st)
  end.

Lemma EnableJoiner_dataset_steering c t e st :
  EnableJoiner_dataset L c t e st =
  steering_dataset L t
    (Commissioner.AddJoiner c (cached_steering t st) (Joiner.ComputeJoinerId e)) st.
Proof. now destruct t. Qed.

Lemma erased_subset (t : JoinerType) (m : gmap (JoinerType * list Z) JoinerInfo)
    (k : JoinerType * list Z) (j : JoinerInfo) :
  erased t m !! k = Some j -> m !! k = Some j.
Proof.
  destruct k as [t' id]. rewrite erased_lookup. now destruct (decide (t' = t)).
Qed.

Lemma map_count_zero (k : JoinerType * list Z) (m : gmap (JoinerType * list Z) JoinerInfo) :
  (map_count k m =? 0)%nat = true <-> m !! k = None.
Proof. unfold map_count. destruct (m !! k); cbn; split; congruence. Qed.

(** X10: a successful [EnableJoiner] found no entry under the joiner's key,
    adds exactly that entry (not commissioned, found again by
    [GetJoinerInfo]), and leaves in the cache the steering data it sent: the
    joiner's ID added to the bytes the cache held for that type. *)
Theorem EnableJoiner_adds_entry (c : Commissioner.t) (t : JoinerType) (e : Z)
    (pskd : ByteArray) (url : string) (st st' : CommissionerApp) :
  EnableJoiner L c t e pskd url st = Return tt st' ->
  mJoiners st !! (t, Joiner.ComputeJoinerId e) = None /\
  mJoiners st' = <[(t, Joiner.ComputeJoinerId e) := JoinerInfo_new t e pskd url]> (mJoiners st) /\
  GetJoinerInfo t (Joiner.ComputeJoinerId e) st' = Some (JoinerInfo_new t e pskd url) /\
  IsJoinerCommissioned t e st' = false /\
  GetSteeringData L c t st' =
    Return (Commissioner.AddJoiner c (cached_steering t st) (Joiner.ComputeJoinerId e)) st'.
Proof.
  intros Hrun. rewrite EnableJoiner_run in Hrun.
  destruct (Commissioner.IsActive c) eqn:Hact; [|discriminate].
  destruct (map_count _ _ =? 0)%nat eqn:Hcount; [|discriminate].
  apply map_count_zero in Hcount.
  cbv zeta in Hrun. destruct (NoError _); [|discriminate].
  injection Hrun as <-.
  assert (Hm : map_emplace (t, Joiner.ComputeJoinerId e) (JoinerInfo_new t e pskd url) (mJoiners st)
               = <[(t, Joiner.ComputeJoinerId e) := JoinerInfo_new t e pskd url]> (mJoiners st)).
  { unfold map_emplace. now rewrite Hcount. }
  split; [exact Hcount|]. split; [cbn [mJoiners set_mJoiners]; exact Hm|].
  split; [|split].
  - unfold GetJoinerInfo. cbn [mJoiners set_mJoiners]. rewrite Hm.
    now rewrite lookup_insert_eq.
  - unfold IsJoinerCommissioned. cbn [mJoiners set_mJoiners]. rewrite Hm.
    now rewrite lookup_insert_eq.
  - rewrite EnableJoiner_dataset_steering.
    match goal with
    | |- GetSteeringData _ _ _ (set_mJoiners _ (merged _ (steering_dataset _ _ ?data _) _)) = _ =>
        destruct (merged_steering L L_ok t data st) as [Hp Hv];
        apply (GetSteeringData_cached L c t _ data Hact);
        cbn [mCommDataset set_mJoiners]; [exact Hp | exact Hv]
    end.
Qed.

(** X11: enabling the same joiner a second time is refused with
    [AlreadyExists] and changes nothing, not even the log of requests,
    whatever PSKd and URL the second call names. *)
Theorem EnableJoiner_twice (c1 c2 : Commissioner.t) (t : JoinerType) (e : Z)
    (pskd pskd' : ByteArray) (url url' : string) (st st1 : CommissionerApp) :
  EnableJoiner L c1 t e pskd url st = Return tt st1 ->
  Commissioner.IsActive c2 = true ->
  EnableJoiner L c2 t e pskd' url' st1 = Exit kAlreadyExists st1.
Proof.
  intros Hrun Hact. rewrite EnableJoiner_run in Hrun.
  destruct (Commissioner.IsActive c1); [|discriminate].
  destruct (map_count _ _ =? 0)%nat eqn:Hcount; [|discriminate].
  apply map_count_zero in Hcount.
  cbv zeta in Hrun. destruct (NoError _); [|discriminate].
  injection Hrun as <-.
  rewrite EnableJoiner_run, Hact. cbn [mJoiners set_mJoiners].
  unfold map_emplace at 1. rewrite Hcount.
  unfold map_count. now rewrite lookup_insert_eq.
Qed.

(** X12: a successful [DisableAllJoiners] leaves the steering data of the
    type at the single byte 0x00 and no joiner entry of that type, so that
    [GetJoinerInfo] finds nothing for any joiner ID of the type, wildcard
    included; the entries of the other types stay. *)
Theorem DisableAllJoiners_clears (c : Commissioner.t) (t : JoinerType)
    (st st' : CommissionerApp) :
  DisableAllJoiners L c t st = Return tt st' ->
  GetSteeringData L c t st' = Return [0x00] st' /\
  (forall id, mJoiners st' !! (t, id) = None) /\
  (forall t' id, t' <> t -> mJoiners st' !! (t', id) = mJoiners st !! (t', id)) /\
  (forall id, GetJoinerInfo t id st' = None) /\
  (forall e, IsJoinerCommissioned t e st' = false).
Proof.
  intros Hrun. rewrite DisableAllJoiners_run in Hrun.
  destruct (Commissioner.IsActive c) eqn:Hact; [|discriminate].
  cbv zeta in Hrun. destruct (NoError _); [|discriminate].
  injection Hrun as <-.
  assert (Hgone : forall id : list Z, erased t (mJoiners st) !! (t, id) = None).
  { intros id. rewrite erased_lookup. now rewrite decide_True. }
  split; [|split; [|split; [|split]]].
  - destruct (merged_steering L L_ok t [0x00] st) as [Hp Hv].
    apply (GetSteeringData_cached L c t _ [0x00] Hact);
      cbn [mCommDataset set_mJoiners]; [exact Hp | exact Hv].
  - intros id. cbn [mJoiners set_mJoiners]. apply Hgone.
  - intros t' id Hne. cbn [mJoiners set_mJoiners]. rewrite erased_lookup.
    now rewrite decide_False.
  - intros id. unfold GetJoinerInfo. cbn [mJoiners set_mJoiners]. now rewrite !Hgone.
  - intros e. unfold IsJoinerCommissioned. cbn [mJoiners set_mJoiners]. now rewrite Hgone.
Qed.

(** X13: after a successful [EnableAllJoiners] the joiner-info lookup answers
    every joiner ID of that type with the wildcard entry, carrying the PSKd
    and URL given, and answers the other types as before. *)
Theorem EnableAllJoiners_admits_any (c : Commissioner.t) (t : JoinerType)
    (pskd : ByteArray) (url : string) (st st' : CommissionerApp) :
  EnableAllJoiners L c t pskd url st = Return tt st' ->
  (forall id, GetJoinerInfo t id st' = Some (JoinerInfo_new t 0 pskd url)) /\
  (forall t' id, t' <> t -> GetJoinerInfo t' id st' = GetJoinerInfo t' id st).
Proof.
  intros Hrun. rewrite EnableAllJoiners_run in Hrun.
  destruct (Commissioner.IsActive c); [|discriminate].
  cbv zeta in Hrun. destruct (NoError _); [|discriminate].
  injection Hrun as <-.
  assert (Hm : forall t' (id : list Z),
    map_emplace (t, Joiner.ComputeJoinerId 0) (JoinerInfo_new t 0 pskd url)
                (erased t (mJoiners st)) !! (t', id) =
    if decide (t' = t)
    then (if decide (id = Joiner.ComputeJoinerId 0)
          then Some (JoinerInfo_new t 0 pskd url) else None)
    else mJoiners st !! (t', id)).
  { intros t' id. unfold map_emplace. rewrite erased_lookup, decide_True by reflexivity.
    destruct (decide (t' = t)) as [->|Hne].
    - destruct (decide (id = Joiner.ComputeJoinerId 0)) as [->|Hid].
      + apply lookup_insert_eq.
      + rewrite lookup_insert_ne by congruence. rewrite erased_lookup.
        now rewrite decide_True.
    - rewrite lookup_insert_ne by congruence. rewrite erased_lookup.
      now rewrite decide_False. }
  split.
  - intros id. unfold GetJoinerInfo. cbn [mJoiners set_mJoiners]. rewrite !Hm.
    rewrite !(decide_True (P := t = t)) by reflexivity.
    destruct (decide (id = Joiner.ComputeJoinerId 0)); [reflexivity|].
    now rewrite decide_True.
  - intros t' id Hne. unfold GetJoinerInfo. cbn [mJoiners set_mJoiners]. rewrite !Hm.
    now rewrite !decide_False by assumption.
Qed.

(** Every entry of the joiner map sits under the key made of its own type
    and the joiner ID of its own EUI-64, and is not marked commissioned. *)
Definition joiners_consistent (st : CommissionerApp) : Prop :=
  forall k j, mJoiners st !! k = Some j ->
    k = (mType j, Joiner.ComputeJoinerId (mEui64 j)) /\ mIsCommissioned j = false.

Lemma run_joiners_frame (c : Commissioner.t) (op : Op) (st st' : CommissionerApp) :
  writes_joiners op = false ->
  final_state (run L c op st) = Some st' -> mJoiners st' = mJoiners st.
Proof.
  destruct op; intros Hw; try discriminate Hw; clear Hw;
    open_member; try destruct aType; try destruct aJoinerType;
    split_conditions; cbn [final_state]; intros [= <-]; reflexivity.
Qed.

Lemma run_comm_frame (c : Commissioner.t) (op : Op) (st st' : CommissionerApp) :
  is_joiner_management op = false ->
  final_state (run L c op st) = Some st' -> mCommDataset st' = mCommDataset st.
Proof.
  destruct op; intros Hw; try discriminate Hw; clear Hw;
    open_member; try destruct aJoinerType;
    split_conditions; cbn [final_state]; intros [= <-]; reflexivity.
Qed.

Lemma joiners_consistent_emplace (t : JoinerType) (e : Z) (pskd : list Z) (url : string)
    (m : gmap (JoinerType * list Z) JoinerInfo) (k : JoinerType * list Z) (j : JoinerInfo) :
  (forall k j, m !! k = Some j ->
     k = (mType j, Joiner.ComputeJoinerId (mEui64 j)) /\ mIsCommissioned j = false) ->
  map_emplace (t, Joiner.ComputeJoinerId e) (JoinerInfo_new t e pskd url) m !! k = Some j ->
  k = (mType j, Joiner.ComputeJoinerId (mEui64 j)) /\ mIsCommissioned j = false.
Proof.
  intros Hm. unfold map_emplace.
  destruct (m !! (t, Joiner.ComputeJoinerId e)); [apply Hm|].
  destruct (decide (k = (t, Joiner.ComputeJoinerId e))) as [->|Hne].
  - rewrite lookup_insert_eq. intros [= <-]. split; reflexivity.
  - rewrite lookup_insert_ne by congruence. apply Hm.
Qed.

(** X14: the consistency of the joiner map (every entry under the key of its
    own type and EUI-64, none marked commissioned) is kept by every
    operation; in a consistent state [IsJoinerCommissioned] is false for
    every joiner, since no member function ever sets the mark. *)
Theorem joiner_map_stays_consistent (c : Commissioner.t) (op : Op)
    (st st' : CommissionerApp) :
  joiners_consistent st ->
  final_state (run L c op st) = Some st' ->
  joiners_consistent st' /\ forall t e, IsJoinerCommissioned t e st' = false.
Proof.
  intros Hst Hrun.
  assert (Hst' : joiners_consistent st').
  { destruct (writes_joiners op) eqn:Hw.
    - destruct op; try discriminate Hw; unfold run in Hrun;
        rewrite final_state_returning in Hrun; intros k j.
      + rewrite EnableJoiner_run in Hrun.
        destruct (Commissioner.IsActive c); [|injection Hrun as <-; apply Hst].
        destruct (map_count _ _ =? 0)%nat; [|injection Hrun as <-; apply Hst].
        cbv zeta in Hrun. destruct (NoError _); injection Hrun as <-; [|apply Hst].
        cbn [mJoiners set_mJoiners]. apply joiners_consistent_emplace. exact Hst.
      + rewrite DisableJoiner_run in Hrun.
        destruct (Commissioner.IsActive c); [|injection Hrun as <-; apply Hst].
        cbv zeta in Hrun. destruct (NoError _); injection Hrun as <-; [|apply Hst].
        cbn [mJoiners set_mJoiners]. intros Hk.
        apply lookup_delete_Some in Hk as [_ Hk]. now apply Hst.
      + rewrite EnableAllJoiners_run in Hrun.
        destruct (Commissioner.IsActive c); [|injection Hrun as <-; apply Hst].
        cbv zeta in Hrun. destruct (NoError _); injection Hrun as <-; [|apply Hst].
        cbn [mJoiners set_mJoiners]. apply joiners_consistent_emplace.
        intros k' j' Hk'. apply erased_subset in Hk'. now apply Hst.
      + rewrite DisableAllJoiners_run in Hrun.
        destruct (Commissioner.IsActive c); [|injection Hrun as <-; apply Hst].
        cbv zeta in Hrun. destruct (NoError _); injection Hrun as <-; [|apply Hst].
        cbn [mJoiners set_mJoiners]. intros Hk. apply erased_subset in Hk. now apply Hst.
    - intros k j. rewrite (run_joiners_frame c op st st' Hw Hrun). apply Hst. }
  split; [exact Hst'|].
  intros t e. unfold IsJoinerCommissioned.
  destruct (mJoiners st' !! (t, Joiner.ComputeJoinerId e)) as [j|] eqn:E; [|reflexivity].
  apply Hst' in E as [_ E]. exact E.
Qed.

(** The commissioner-dataset field a joiner-management operation is about. *)
Definition touched_field (op : Op) : option CommissionerDatasetField :=
  match op with
  | OpEnableJoiner t _ _ _ | OpDisableJoiner t _ | OpEnableAllJoiners t _ _
  | OpDisableAllJoiners t => Some (steering_field t)
  | OpSetJoinerUdpPort t _ => Some (udp_port_field t)
  | _ => None
  end.

Definition leader_owned (f : CommissionerDatasetField) : bool :=
  match f with
  | kSessionId | kBorderAgentLocator => true
  | _ => false
  end.

Lemma outbound_copy_fields f st :
  view f (outbound_copy L st) = view f (mCommDataset st) /\
  comm_present L f (outbound_copy L st) =
    negb (leader_owned f) && comm_present L f (mCommDataset st).
Proof.
  split; [now destruct f|].
  unfold outbound_copy. cbv zeta. rewrite !(comm_present_clear_flag L L_ok).
  destruct f; cbn; now destruct (comm_present L _ (mCommDataset st)).
Qed.

Lemma steering_dataset_other t data st f :
  f <> steering_field t ->
  view f (steering_dataset L t data st) = view f (mCommDataset st) /\
  comm_present L f (steering_dataset L t data st) =
    negb (leader_owned f) && comm_present L f (mCommDataset st).
Proof.
  intros Hne. split.
  - destruct t, f; try reflexivity; now destruct Hne.
  - unfold steering_dataset. cbv zeta.
    destruct (GetSteeringData_ref_store L (outbound_copy L st) t data
                (fst (GetSteeringData_ref L (outbound_copy L st) t))) as (Hfl & _).
    rewrite (comm_present_flags L _ _ _ Hfl), GetSteeringData_ref_fst.
    rewrite (comm_present_set_flag L L_ok).
    rewrite bool_decide_eq_false_2 by congruence.
    apply outbound_copy_fields.
Qed.

Lemma udp_port_dataset_fields t port st f :
  (f <> udp_port_field t ->
   view f (udp_port_dataset L t port st) = view f (mCommDataset st) /\
   comm_present L f (udp_port_dataset L t port st) =
     negb (leader_owned f) && comm_present L f (mCommDataset st)) /\
  view (udp_port_field t) (udp_port_dataset L t port st) = VU16 port /\
  comm_present L (udp_port_field t) (udp_port_dataset L t port st) = true.
Proof.
  unfold udp_port_dataset. cbv zeta.
  destruct (GetJoinerUdpPort_ref_store L (outbound_copy L st) t port
              (fst (GetJoinerUdpPort_ref L (outbound_copy L st) t))) as (Hfl & Hv).
  split; [|split].
  - intros Hne. split.
    + destruct t, f; try reflexivity; now destruct Hne.
    + rewrite (comm_present_flags L _ _ _ Hfl), GetJoinerUdpPort_ref_fst.
      rewrite (comm_present_set_flag L L_ok).
      rewrite bool_decide_eq_false_2 by congruence.
      apply outbound_copy_fields.
  - exact Hv.
  - rewrite (comm_present_flags L _ _ _ Hfl), GetJoinerUdpPort_ref_fst.
    rewrite (comm_present_set_flag L L_ok). now rewrite bool_decide_eq_true_2.
Qed.

Lemma merged_other d st f :
  view f d = view f (mCommDataset st) ->
  comm_present L f d = negb (leader_owned f) && comm_present L f (mCommDataset st) ->
  view f (mCommDataset (merged L d st)) = view f (mCommDataset st) /\
  comm_present L f (mCommDataset (merged L d st)) = comm_present L f (mCommDataset st).
Proof.
  intros Hv Hp. unfold merged. cbn [mCommDataset set_mCommDataset].
  destruct (MergeDataset_Commissioner_field L L_ok f (mCommDataset st) d) as [Hv' Hp'].
  rewrite Hv', Hp', Hp, Hv. split.
  - now destruct (negb _ && _).
  - destruct f; cbn; now destruct (comm_present L _ (mCommDataset st)).
Qed.

(** X15: an operation changes no field of the cached commissioner dataset
    other than the one it is about: a joiner-management operation keeps the
    value and the presence of the border agent locator, the session ID, the
    steering data of the other joiner types and all UDP ports (for
    [SetJoinerUdpPort]: the other ports and all steering data). *)
Theorem joiner_management_keeps_other_fields (c : Commissioner.t) (op : Op)
    (st st' : CommissionerApp) (f : CommissionerDatasetField) :
  final_state (run L c op st) = Some st' ->
  touched_field op <> Some f ->
  view f (mCommDataset st') = view f (mCommDataset st) /\
  comm_present L f (mCommDataset st') = comm_present L f (mCommDataset st).
Proof.
  intros Hrun Hf.
  destruct (is_joiner_management op) eqn:Hop;
    [| now rewrite (run_comm_frame c op st st' Hop Hrun)].
  assert (Hsteer : forall t data, Some (steering_field t) <> Some f ->
            view f (mCommDataset (merged L (steering_dataset L t data st) st)) =
              view f (mCommDataset st) /\
            comm_present L f (mCommDataset (merged L (steering_dataset L t data st) st)) =
              comm_present L f (mCommDataset st)).
  { intros t data Hne.
    destruct (steering_dataset_other t data st f) as [Hv Hp]; [congruence|].
    now apply merged_other. }
  destruct op; try discriminate Hop; unfold run in Hrun;
    rewrite final_state_returning in Hrun; cbn [touched_field] in Hf.
  - rewrite EnableJoiner_run in Hrun.
    destruct (Commissioner.IsActive c); [|now injection Hrun as <-].
    destruct (map_count _ _ =? 0)%nat; [|now injection Hrun as <-].
    cbv zeta in Hrun. destruct (NoError _); injection Hrun as <-; [|split; reflexivity].
    rewrite EnableJoiner_dataset_steering. cbn [mCommDataset set_mJoiners]. now apply Hsteer.
  - rewrite DisableJoiner_run in Hrun.
    destruct (Commissioner.IsActive c); [|now injection Hrun as <-].
    cbv zeta in Hrun. destruct (NoError _); injection Hrun as <-; [|split; reflexivity].
    cbn [mCommDataset set_mJoiners]. now apply Hsteer.
  - rewrite EnableAllJoiners_run in Hrun.
    destruct (Commissioner.IsActive c); [|now injection Hrun as <-].
    cbv zeta in Hrun. destruct (NoError _); injection Hrun as <-; [|split; reflexivity].
    cbn [mCommDataset set_mJoiners]. now apply Hsteer.
  - rewrite DisableAllJoiners_run in Hrun.
    destruct (Commissioner.IsActive c); [|now injection Hrun as <-].
    cbv zeta in Hrun. destruct (NoError _); injection Hrun as <-; [|split; reflexivity].
    cbn [mCommDataset set_mJoiners]. now apply Hsteer.
  - rewrite SetJoinerUdpPort_run in Hrun.
    destruct (Commissioner.IsActive c); [|now injection Hrun as <-].
    cbv zeta in Hrun. destruct (NoError _); injection Hrun as <-; [|split; reflexivity].
    destruct (udp_port_dataset_fields aType aUdpPort st f) as [Hother _].
    destruct Hother as [Hv Hp]; [congruence|]. now apply merged_other.
Qed.

(** X16: the UDP port set by a successful [SetJoinerUdpPort] is the one
    [GetJoinerUdpPort] returns for that joiner type afterwards. *)
Theorem SetJoinerUdpPort_then_get (c : Commissioner.t) (t : JoinerType) (port : Z)
    (st st' : CommissionerApp) :
  SetJoinerUdpPort L c t port st = Return tt st' ->
  GetJoinerUdpPort L c t st' = Return port st'.
Proof.
  intros Hrun. rewrite SetJoinerUdpPort_run in Hrun.
  destruct (Commissioner.IsActive c) eqn:Hact; [|discriminate].
  cbv zeta in Hrun. destruct (NoError _); [|discriminate].
  injection Hrun as <-.
  destruct (udp_port_dataset_fields t port st (udp_port_field t)) as (_ & Hv & Hp).
  destruct (MergeDataset_Commissioner_field L L_ok (udp_port_field t) (mCommDataset st)
              (udp_port_dataset L t port st)) as [Hv' Hp'].
  rewrite Hp, Hv in Hv'. rewrite Hp in Hp'.
  assert (Hp'' : comm_present L (udp_port_field t)
                   (MergeDataset_Commissioner L (mCommDataset st) (udp_port_dataset L t port st))
                 = true) by (rewrite Hp'; now destruct t).
  unfold GetJoinerUdpPort. step_member. rewrite Hact.
  unfold merged. cbn [mCommDataset set_mCommDataset].
  destruct t; cbn [udp_port_field] in Hv', Hp''; rewrite Hp'';
    match goal with
    | |- Return ?x _ = _ =>
        assert (H : VU16 x = VU16 port) by exact Hv'; injection H as H; now rewrite H
    end.
Qed.

(** X17: [DisableJoiner] never removes the entry of another joiner.  On a
    consistent joiner map a successful call leaves every entry but the
    joiner's own as it was; the joiner's own entry is erased when the map
    holds some other entry and is kept when it does not. *)
Theorem DisableJoiner_entries (c : Commissioner.t) (t : JoinerType) (e : Z)
    (st st' : CommissionerApp) :
  joiners_consistent st ->
  DisableJoiner L c t e st = Return tt st' ->
  (forall k, k <> (t, Joiner.ComputeJoinerId e) -> mJoiners st' !! k = mJoiners st !! k) /\
  mJoiners st' !! (t, Joiner.ComputeJoinerId e) =
    if (remaining t e (map_to_list (mJoiners st)) =? 0)%nat
    then mJoiners st !! (t, Joiner.ComputeJoinerId e)
    else None.
Proof.
  intros Hst Hrun. rewrite DisableJoiner_run in Hrun.
  destruct (Commissioner.IsActive c); [|discriminate].
  cbv zeta in Hrun. destruct (NoError _); [|discriminate].
  apply Return_state in Hrun as <-. cbn [mJoiners set_mJoiners].
  unfold DisableJoiner_loop. rewrite DisableJoiner_fold_shape. cbn [snd].
  assert (Hnil : mJoiners st !! (t, @nil Z) = None).
  { destruct (mJoiners st !! (t, @nil Z)) as [j|] eqn:Ej; [|reflexivity].
    apply Hst in Ej as [Ek _]. injection Ek as _ Ek.
    apply (f_equal (@length Z)) in Ek. rewrite Joiner.ComputeJoinerId_length in Ek.
    discriminate Ek. }
  destruct (remaining t e (map_to_list (mJoiners st)) =? 0)%nat.
  - rewrite delete_id by exact Hnil. split; [intros k _|]; reflexivity.
  - split.
    + intros k Hk. now rewrite lookup_delete_ne.
    + apply lookup_delete_eq.
Qed.

End Joiners.

(** *** The operational and BBR datasets *)

Section Datasets.

Variable L : Layout.
Hypothesis L_ok : layout_ok L = true.

Lemma active_present_set_flag f g d :
  active_present L g (set_flag (active_pos L) f d) = bool_decide (f = g) || active_present L g d.
Proof. apply (present_flag_set _ (active_pos_range L L_ok) (active_pos_inj L L_ok)). Qed.


Lemma bbr_present_set_flag f g d :
  bbr_present L g (set_flag (bbr_pos L) f d) = bool_decide (f = g) || bbr_present L g d.
Proof. apply (present_flag_set _ (bbr_pos_range L L_ok) (bbr_pos_inj L L_ok)). Qed.

Lemma active_absent g d :
  ActiveOperationalDataset.mPresentFlags d = 0 -> active_present L g d = false.
Proof. unfold active_present, present, flag_test. cbn. now intros ->. Qed.


Lemma bbr_absent g d :
  BbrDataset.mPresentFlags d = 0 -> bbr_present L g d = false.
Proof. unfold bbr_present, present, flag_test. cbn. now intros ->. Qed.

(** The field an active-dataset setter assigns, and the value it assigns. *)
Definition active_assignment (op : Op) : option (ActiveOperationalDatasetField * Value) :=
  match op with
  | OpSetChannelMask m => Some (kChannelMask, VChannelMask m)
  | OpSetExtendedPanId x => Some (kExtendedPanId, VBytes x)
  | OpSetNetworkName n => Some (kNetworkName, VString n)
  | OpSetPSKc k => Some (kPSKc, VBytes k)
  | OpSetSecurityPolicy p => Some (kSecurityPolicy, VSecurityPolicy p)
  | _ => None
  end.

(** The getter that answers from the cached active dataset, per field. *)
Definition cached_getter (f : ActiveOperationalDatasetField) : option Op :=
  match f with
  | kActiveTimestamp => Some OpGetActiveTimestamp
  | kChannelMask => Some OpGetChannelMask
  | kExtendedPanId => Some OpGetExtendedPanId
  | kNetworkName => Some OpGetNetworkName
  | kPSKc => Some OpGetPSKc
  | kSecurityPolicy => Some OpGetSecurityPolicy
  | _ => None
  end.

(** What a successful active-dataset setter leaves in the cache, field by
    field. *)
Lemma active_setter_fields (c : Commissioner.t) (op : Op) (f : ActiveOperationalDatasetField)
    (v : Value) (st st' : CommissionerApp) (g : ActiveOperationalDatasetField) :
  active_assignment op = Some (f, v) ->
  run L c op st = Return VUnit st' ->
  Commissioner.IsActive c = true /\
  view g (mActiveDataset st') =
    (if bool_decide (f = g) then v else view g (mActiveDataset st)) /\
  active_present L g (mActiveDataset st') =
    bool_decide (f = g) || active_present L g (mActiveDataset st).
Proof.
  intros Hop.
  destruct op; try discriminate Hop; cbn in Hop; injection Hop as <- <-; open_member.
  all: destruct (Commissioner.IsActive c); try discriminate.
  all: destruct (NoError _); try discriminate.
  all: intros Hr; apply Return_state in Hr as <-; split; try reflexivity.
  all: cbn [mActiveDataset set_mActiveDataset].
  all: match goal with
       | |- context [MergeDataset_Active L ?a ?d] =>
           destruct (MergeDataset_Active_field L L_ok g a d) as [Hv Hp]; rewrite Hv, Hp
       end.
  all: rewrite active_present_set_flag, active_absent by reflexivity.
  all: rewrite orb_false_r; split; try reflexivity.
  all: case_bool_decide as E'; try subst g; reflexivity.
Qed.

(** X18: after a successful setter of the active operational dataset
    ([SetChannelMask], [SetExtendedPanId], [SetNetworkName], [SetPSKc],
    [SetSecurityPolicy]) the cached dataset holds the value set, marked
    present, and the getter of that field returns it without any request. *)
Theorem active_setter_then_getter (c : Commissioner.t) (op get : Op)
    (f : ActiveOperationalDatasetField) (v : Value) (st st' : CommissionerApp) :
  active_assignment op = Some (f, v) ->
  run L c op st = Return VUnit st' ->
  cached_getter f = Some get ->
  view f (mActiveDataset st') = v /\
  active_present L f (mActiveDataset st') = true /\
  run L c get st' = Return v st'.
Proof.
  intros Hop Hrun Hget.
  destruct (active_setter_fields c op f v st st' f Hop Hrun) as (Hact & Hv & Hp).
  rewrite bool_decide_eq_true_2 in Hv, Hp by reflexivity. cbn in Hp.
  split; [exact Hv|]. split; [exact Hp|].
  destruct f; try discriminate Hget; injection Hget as <-;
    open_member; rewrite Hact, Hp; cbn in Hv; now rewrite Hv.
Qed.





(** The field a setter of the BBR dataset assigns, and the getter of each
    field. *)
Definition bbr_assignment (op : Op) : option (BbrDatasetField * string) :=
  match op with
  | OpSetTriHostname h => Some (kTriHostname, h)
  | OpSetRegistrarHostname h => Some (kRegistrarHostname, h)
  | _ => None
  end.

Definition bbr_getter (f : BbrDatasetField) : Op :=
  match f with
  | kTriHostname => OpGetTriHostname
  | kRegistrarHostname => OpGetRegistrarHostname
  | kRegistrarIpv6Addr => OpGetRegistrarIpv6Addr
  end.

(** X21: after a successful [SetTriHostname] or [SetRegistrarHostname] the
    getter of that field returns the hostname set; the other fields of the
    cached BBR dataset, among them the registrar address, which has no
    setter, keep their value and presence. *)
Theorem bbr_setter_then_getter (c : Commissioner.t) (op : Op) (f : BbrDatasetField)
    (h : string) (st st' : CommissionerApp) :
  bbr_assignment op = Some (f, h) ->
  run L c op st = Return VUnit st' ->
  run L c (bbr_getter f) st' = Return (VString h) st' /\
  forall g, g <> f ->
    view g (mBbrDataset st') = view g (mBbrDataset st) /\
    bbr_present L g (mBbrDataset st') = bbr_present L g (mBbrDataset st).
Proof.
  intros Hop.
  assert (Hall : run L c op st = Return VUnit st' ->
            Commissioner.IsActive c = true /\ Commissioner.IsCcmMode c = true /\
            forall g,
              view g (mBbrDataset st') =
                (if bool_decide (f = g) then VString h else view g (mBbrDataset st)) /\
              bbr_present L g (mBbrDataset st') =
                bool_decide (f = g) || bbr_present L g (mBbrDataset st)).
  { destruct op; try discriminate Hop; cbn in Hop; injection Hop as <- <-; open_member.
    all: destruct (Commissioner.IsActive c); try discriminate.
    all: destruct (Commissioner.IsCcmMode c); try discriminate.
    all: destruct (NoError _); try discriminate.
    all: intros Hr; apply Return_state in Hr as <-; do 2 (split; try reflexivity).
    all: intros g; cbn [mBbrDataset set_mBbrDataset].
    all: match goal with
         | |- context [MergeDataset_Bbr L ?a ?d] =>
             destruct (MergeDataset_Bbr_field L L_ok g a d) as [Hv Hp]; rewrite Hv, Hp
         end.
    all: rewrite bbr_present_set_flag, bbr_absent by reflexivity.
    all: rewrite orb_false_r; split; try reflexivity.
    all: case_bool_decide as E'; try subst g; reflexivity. }
  intros Hrun. destruct (Hall Hrun) as (Hact & Hccm & Hfields). split.
  - destruct (Hfields f) as [Hv Hp].
    rewrite bool_decide_eq_true_2 in Hv, Hp by reflexivity. cbn in Hp.
    destruct f; cbn [bbr_getter]; open_member; rewrite Hact, Hccm; cbv beta iota;
      rewrite Hp; cbn in Hv; congruence.
  - intros g Hne. destruct (Hfields g) as [Hv Hp].
    rewrite bool_decide_eq_false_2 in Hv, Hp by congruence. now split.
Qed.

(** The operations of the Commercial Commissioning Mode. *)
Definition requires_ccm (op : Op) : bool :=
  match op with
  | OpGetTriHostname | OpSetTriHostname _ | OpGetRegistrarHostname
  | OpSetRegistrarHostname _ | OpGetRegistrarIpv6Addr
  | OpReenroll _ | OpDomainReset _ | OpMigrate _ _ => true
  | _ => false
  end.

(** The library object in the other mode, all else equal. *)
Definition with_ccm_mode (b : bool) (c : Commissioner.t) : Commissioner.t :=
  Commissioner.mk (Commissioner.IsActive c) b (Commissioner.GetSessionId c)
    (Commissioner.GetDomainName c) (Commissioner.SetCommissionerDataset c)
    (Commissioner.GetActiveDataset c) (Commissioner.SetActiveDataset c)
    (Commissioner.SetPendingDataset c) (Commissioner.SetBbrDataset c)
    (Commissioner.CommandReenroll c) (Commissioner.CommandDomainReset c)
    (Commissioner.CommandMigrate c) (Commissioner.RegisterMulticastListener c)
    (Commissioner.AnnounceBegin c) (Commissioner.PanIdQuery c) (Commissioner.EnergyScan c)
    (Commissioner.AddJoiner c) (Commissioner.GetMeshLocalAddr c)
    (Commissioner.Ipv6PrefixToString c) (Commissioner.Ipv6PrefixFromString c)
    (Commissioner.Address_Set c).

End Datasets.

(** X22: outside CCM mode the BBR dataset accessors and the three CCM
    commands are refused with [InvalidState], without any request and with
    the application object unchanged; each of the other member functions
    behind the session check (the other operations of [Op]) behaves the same
    in both modes. *)
Theorem ccm_mode_required (L : Layout) (c : Commissioner.t) (op : Op)
    (st : CommissionerApp) :
  Commissioner.IsCcmMode c = false ->
  (requires_ccm op = true -> run L c op st = Exit kInvalidState st) /\
  (requires_ccm op = false -> run L (with_ccm_mode true c) op st = run L c op st).
Proof.
  intros Hccm. split; intros Hop.
  - destruct op; try discriminate Hop; open_member; rewrite Hccm;
      now destruct (Commissioner.IsActive c).
  - destruct op; try discriminate Hop; reflexivity.
Qed.

(** *** Notifications *)

(** The two report notifications the library delivers through the handlers
    installed by [Init]. *)
Inductive Notification :=
| PanIdConflictReported (aPeerAddr : option string) (aChannelMask : option ChannelMask)
    (aPanId : option Z) (aError : Error)
| EnergyReported (aPeerAddr : option string) (aChannelMask : option ChannelMask)
    (aEnergyList : option ByteArray) (aError : Error).

Definition notify (c : Commissioner.t) (n : Notification) : M unit :=
  match n with
  | PanIdConflictReported aPeerAddr aChannelMask aPanId aError =>
      HandlePanIdConflict aPeerAddr aChannelMask aPanId aError
  | EnergyReported aPeerAddr aChannelMask aEnergyList aError =>
      HandleEnergyReport c aPeerAddr aChannelMask aEnergyList aError
  end.





(** *** Loading the network data *)

(** The member functions of the library object that fetch the datasets
    other than the active one.  Each takes the dataset to fill and the
    selection flags and answers with an error and the dataset as filled.
    The wire log of the application object has no entry for them. *)
Record DatasetQueries := mkDatasetQueries {
  GetCommissionerDataset : CommissionerDataset.t -> Z -> Error * CommissionerDataset.t;
  GetBbrDataset : BbrDataset.t -> Z -> Error * BbrDataset.t;
  GetPendingDataset : PendingOperationalDataset.t -> Z -> Error * PendingOperationalDataset.t
}.

Section NetworkData.

Variable L : Layout.

(** [Error CommissionerApp::PullNetworkData()]: the four datasets are fetched
    into locals and stored only after the last fetch has succeeded. *)
Definition PullNetworkData (c : Commissioner.t) (q : DatasetQueries) : M unit :=
  let commDataset := CommissionerDataset.empty in
  let activeDataset := ActiveOperationalDataset.empty in
  let pendingDataset := PendingOperationalDataset.empty in
  let bbrDataset := BbrDataset.empty in
  let r := GetCommissionerDataset q commDataset 0xFFFF in
  let commDataset := snd r in
  SuccessOrExit (fst r) ;;
  let* bbrDataset :=
    (if IsCcmMode c then
       let r := GetBbrDataset q bbrDataset 0xFFFF in
       SuccessOrExit (fst r) ;; ret (snd r)
     else ret bbrDataset) in
  let* r := request (MGMT_ACTIVE_GET 0xFFFF)
                    (Commissioner.GetActiveDataset c activeDataset 0xFFFF) in
  let activeDataset := snd r in
  SuccessOrExit (fst r) ;;
  let r := GetPendingDataset q pendingDataset 0xFFFF in
  let pendingDataset := snd r in
  SuccessOrExit (fst r) ;;
  modify (fun st => set_mCommDataset (MergeDataset_Commissioner L (mCommDataset st) commDataset) st) ;;
  (if IsCcmMode c then modify (set_mBbrDataset bbrDataset) else ret tt) ;;
  modify (set_mActiveDataset activeDataset) ;;
  modify (set_mPendingDataset pendingDataset).

(** [SetActiveDataset(const ActiveOperationalDataset &)] *)
Definition SetActiveDataset (c : Commissioner.t) (aDataset : ActiveOperationalDataset.t)
    : M unit :=
  let* error := request (MGMT_ACTIVE_SET aDataset)
                        (Commissioner.SetActiveDataset c aDataset) in
  SuccessOrExit error ;;
  modify (fun st => set_mActiveDataset (MergeDataset_Active L (mActiveDataset st) aDataset) st).

(** [SetPendingDataset(const PendingOperationalDataset &)] *)
Definition SetPendingDataset (c : Commissioner.t) (aDataset : PendingOperationalDataset.t)
    : M unit :=
  let* error := request (MGMT_PENDING_SET aDataset)
                        (Commissioner.SetPendingDataset c aDataset) in
  SuccessOrExit error ;;
  modify (fun st => set_mPendingDataset (MergeDataset_Pending L (mPendingDataset st) aDataset) st).

(** [SetBbrDataset(const BbrDataset &)] *)
Definition SetBbrDataset (c : Commissioner.t) (aDataset : BbrDataset.t) : M unit :=
  let* error := request (MGMT_BBR_SET aDataset) (Commissioner.SetBbrDataset c aDataset) in
  SuccessOrExit error ;;
  modify (fun st => set_mBbrDataset (MergeDataset_Bbr L (mBbrDataset st) aDataset) st).

(** X24: [PullNetworkData] stores all or nothing.  When it fails, whichever
    fetch failed, no cache has changed; when it succeeds the active and the
    pending cache are the library's answers, the BBR cache is the answer in
    CCM mode and untouched otherwise, and the commissioner dataset is merged
    into its cache. *)
Theorem PullNetworkData_all_or_nothing (c : Commissioner.t) (q : DatasetQueries)
    (st st' : CommissionerApp) :
  final_state (PullNetworkData c q st) = Some st' ->
  mJoiners st' = mJoiners st /\
  mPanIdConflicts st' = mPanIdConflicts st /\ mEnergyReports st' = mEnergyReports st /\
  (error_of (PullNetworkData c q st) <> Some kNone ->
     mCommDataset st' = mCommDataset st /\ mActiveDataset st' = mActiveDataset st /\
     mPendingDataset st' = mPendingDataset st /\ mBbrDataset st' = mBbrDataset st) /\
  (error_of (PullNetworkData c q st) = Some kNone ->
     mCommDataset st' =
       MergeDataset_Commissioner L (mCommDataset st)
         (snd (GetCommissionerDataset q CommissionerDataset.empty 0xFFFF)) /\
     mActiveDataset st' =
       snd (Commissioner.GetActiveDataset c ActiveOperationalDataset.empty 0xFFFF) /\
     mPendingDataset st' = snd (GetPendingDataset q PendingOperationalDataset.empty 0xFFFF) /\
     mBbrDataset st' =
       if Commissioner.IsCcmMode c then snd (GetBbrDataset q BbrDataset.empty 0xFFFF)
       else mBbrDataset st).
Proof.
  unfold PullNetworkData. step_member.
  repeat match goal with
         | |- context [NoError ?e] =>
             let E := fresh "E" in destruct (NoError e) eqn:E; cbv beta iota zeta
         | |- context [if Commissioner.IsCcmMode c then _ else _] =>
             destruct (Commissioner.IsCcmMode c); cbv beta iota zeta
         end.
  all: cbn [final_state error_of]; intros [= <-].
  all: split; [reflexivity|split; [reflexivity|split; [reflexivity|split]]]; intros Herr.
  all: try (now destruct Herr).
  all: try (repeat split; reflexivity).
  all: injection Herr as Herr; unfold NoError in *;
    repeat match goal with
           | H : bool_decide _ = false |- _ => apply bool_decide_eq_false in H
           end; congruence.
Qed.

End NetworkData.

(** *** The report maps over a run of the application *)

(** The entry points of the application object that change its state: the
    member functions behind the session check, the setters of a whole
    dataset, [PullNetworkData], and the two report notifications.  Each
    carries the library object as it answers at that moment. *)
Inductive Event :=
| Called (c : Commissioner.t) (op : Op)
| CalledSetCommissionerDataset (c : Commissioner.t) (aDataset : CommissionerDataset.t)
| CalledSetActiveDataset (c : Commissioner.t) (aDataset : ActiveOperationalDataset.t)
| CalledSetPendingDataset (c : Commissioner.t) (aDataset : PendingOperationalDataset.t)
| CalledSetBbrDataset (c : Commissioner.t) (aDataset : BbrDataset.t)
| CalledPullNetworkData (c : Commissioner.t) (q : DatasetQueries)
| Notified (c : Commissioner.t) (n : Notification).


(** The state an event leaves; [None] when an assertion aborts the program. *)
Definition occur (L : Layout) (ev : Event) (st : CommissionerApp) : option CommissionerApp :=
  match ev with
  | Called c op => final_state (run L c op st)
  | CalledSetCommissionerDataset c aDataset => final_state (SetCommissionerDataset L c aDataset st)
  | CalledSetActiveDataset c aDataset => final_state (SetActiveDataset L c aDataset st)
  | CalledSetPendingDataset c aDataset => final_state (SetPendingDataset L c aDataset st)
  | CalledSetBbrDataset c aDataset => final_state (SetBbrDataset L c aDataset st)
  | CalledPullNetworkData c q => final_state (PullNetworkData L c q st)
  | Notified c n => final_state (notify c n st)
  end.

Fixpoint play (L : Layout) (evs : list Event) (st : CommissionerApp)
    : option CommissionerApp :=
  match evs with
  | [] => Some st
  | ev :: evs' =>
      match occur L ev st with
      | Some st1 => play L evs' st1
      | None => None
      end
  end.





(** A run in which a query follows each notification: both reports are
    still there at the end. *)
Example play_sample :
  exists st',
    play header_layout
      [ Notified (stub header_layout true 0)
          (PanIdConflictReported (Some "fe80::1"%string) (Some sample_mask) (Some 0x1234) kNone);
        Called (stub header_layout true 0) (OpPanIdQuery 0x07FFF800 0x5678 "ff03::1");
        Notified (stub header_layout true 0)
          (EnergyReported (Some "fe80::1"%string) (Some sample_mask) (Some [0xC0; 0xB5]) kNone);
        Called (stub header_layout true 0) (OpEnergyScan 0x07FFF800 2 200 32 "ff03::1") ]
      sample_app = Some st' /\
    HasPanIdConflict 0x1234 st' = true /\
    GetEnergyReport (Commissioner.Address_Set (stub header_layout true 0) "fe80::1"%string) st' =
      Some (mkEnergyReport sample_mask [0xC0; 0xB5]) /\
    length (mWire st') = 2%nat.
Proof.
  eexists. split; [vm_compute; reflexivity|]. vm_compute. repeat split; reflexivity.
Qed.

(** *** Merging and the unguarded setters *)

Section Merging.

Variable L : Layout.
Hypothesis L_ok : layout_ok L = true.

(** X25: merging the same dataset a second time changes no field, for all
    four overloads of [MergeDataset]; and a merge into the active, the
    pending or the BBR dataset never takes a field away. *)
Theorem MergeDataset_idempotent :
  (forall a s f,
     (view f (MergeDataset_Active L (MergeDataset_Active L a s) s) =
        view f (MergeDataset_Active L a s) /\
      active_present L f (MergeDataset_Active L (MergeDataset_Active L a s) s) =
        active_present L f (MergeDataset_Active L a s)) /\
     (active_present L f a = true -> active_present L f (MergeDataset_Active L a s) = true)) /\
  (forall a s f,
     (view f (MergeDataset_Pending L (MergeDataset_Pending L a s) s) =
        view f (MergeDataset_Pending L a s) /\
      pending_present L f (MergeDataset_Pending L (MergeDataset_Pending L a s) s) =
        pending_present L f (MergeDataset_Pending L a s)) /\
     (pending_present L f a = true -> pending_present L f (MergeDataset_Pending L a s) = true)) /\
  (forall a s f,
     (view f (MergeDataset_Bbr L (MergeDataset_Bbr L a s) s) = view f (MergeDataset_Bbr L a s) /\
      bbr_present L f (MergeDataset_Bbr L (MergeDataset_Bbr L a s) s) =
        bbr_present L f (MergeDataset_Bbr L a s)) /\
     (bbr_present L f a = true -> bbr_present L f (MergeDataset_Bbr L a s) = true)) /\
  (forall a s f,
     view f (MergeDataset_Commissioner L (MergeDataset_Commissioner L a s) s) =
       view f (MergeDataset_Commissioner L a s) /\
     comm_present L f (MergeDataset_Commissioner L (MergeDataset_Commissioner L a s) s) =
       comm_present L f (MergeDataset_Commissioner L a s)).
Proof.
  split; [|split; [|split]]; intros a s f.
  - destruct (MergeDataset_Active_field L L_ok f (MergeDataset_Active L a s) s) as [Hv2 Hp2].
    destruct (MergeDataset_Active_field L L_ok f a s) as [Hv Hp].
    rewrite Hv2, Hp2, Hv, Hp.
    destruct (active_present L f s), (active_present L f a); repeat split; auto.
  - destruct (MergeDataset_Pending_field L L_ok f (MergeDataset_Pending L a s) s) as [Hv2 Hp2].
    destruct (MergeDataset_Pending_field L L_ok f a s) as [Hv Hp].
    rewrite Hv2, Hp2, Hv, Hp.
    destruct (pending_present L f s), (pending_present L f a); repeat split; auto.
  - destruct (MergeDataset_Bbr_field L L_ok f (MergeDataset_Bbr L a s) s) as [Hv2 Hp2].
    destruct (MergeDataset_Bbr_field L L_ok f a s) as [Hv Hp].
    rewrite Hv2, Hp2, Hv, Hp.
    destruct (bbr_present L f s), (bbr_present L f a); repeat split; auto.
  - destruct (MergeDataset_Commissioner_field L L_ok f (MergeDataset_Commissioner L a s) s)
      as [Hv2 Hp2].
    destruct (MergeDataset_Commissioner_field L L_ok f a s) as [Hv Hp].
    rewrite Hv2, Hp2, Hv, Hp.
    destruct (bool_decide (f ∈ replaced_fields)), (comm_present L f s),
      (comm_present L f a); split; reflexivity.
Qed.

(** X26: the setters that take a whole dataset do not look at the session:
    active or not, they hand the dataset to the library, report its answer,
    and on success merge the dataset into the cache, so that every field
    present in it reads back from the cache and every other field of the
    cache is as before; on failure the cache is unchanged. *)
Theorem whole_dataset_setters (c : Commissioner.t) (st : CommissionerApp) :
  (forall d, exists st',
     final_state (SetActiveDataset L c d st) = Some st' /\
     error_of (SetActiveDataset L c d st) = Some (Commissioner.SetActiveDataset c d) /\
     mWire st' = mWire st ++ [MGMT_ACTIVE_SET d] /\
     forall f,
       (view f (mActiveDataset st'), active_present L f (mActiveDataset st')) =
       if NoError (Commissioner.SetActiveDataset c d) && active_present L f d
       then (view f d, true)
       else (view f (mActiveDataset st), active_present L f (mActiveDataset st))) /\
  (forall d, exists st',
     final_state (SetPendingDataset L c d st) = Some st' /\
     error_of (SetPendingDataset L c d st) = Some (Commissioner.SetPendingDataset c d) /\
     mWire st' = mWire st ++ [MGMT_PENDING_SET d] /\
     forall f,
       (view f (mPendingDataset st'), pending_present L f (mPendingDataset st')) =
       if NoError (Commissioner.SetPendingDataset c d) && pending_present L f d
       then (view f d, true)
       else (view f (mPendingDataset st), pending_present L f (mPendingDataset st))) /\
  (forall d, exists st',
     final_state (SetBbrDataset L c d st) = Some st' /\
     error_of (SetBbrDataset L c d st) = Some (Commissioner.SetBbrDataset c d) /\
     mWire st' = mWire st ++ [MGMT_BBR_SET d] /\
     forall f,
       (view f (mBbrDataset st'), bbr_present L f (mBbrDataset st')) =
       if NoError (Commissioner.SetBbrDataset c d) && bbr_present L f d
       then (view f d, true)
       else (view f (mBbrDataset st), bbr_present L f (mBbrDataset st))).
Proof.
  split; [|split]; intros d.
  - unfold SetActiveDataset. step_member.
    destruct (NoError (Commissioner.SetActiveDataset c d)) eqn:E; eexists;
      (split; [reflexivity|]); cbn [error_of final_state].
    + apply bool_decide_eq_true in E. split; [now rewrite E|]. split; [reflexivity|].
      intros f. cbn [mActiveDataset set_mActiveDataset set_mWire].
      destruct (MergeDataset_Active_field L L_ok f (mActiveDataset st) d) as [Hv Hp].
      rewrite Hv, Hp. now destruct (active_present L f d).
    + split; [reflexivity|]. split; reflexivity.
  - unfold SetPendingDataset. step_member.
    destruct (NoError (Commissioner.SetPendingDataset c d)) eqn:E; eexists;
      (split; [reflexivity|]); cbn [error_of final_state].
    + apply bool_decide_eq_true in E. split; [now rewrite E|]. split; [reflexivity|].
      intros f. cbn [mPendingDataset set_mPendingDataset set_mWire].
      destruct (MergeDataset_Pending_field L L_ok f (mPendingDataset st) d) as [Hv Hp].
      rewrite Hv, Hp. now destruct (pending_present L f d).
    + split; [reflexivity|]. split; reflexivity.
  - unfold SetBbrDataset. step_member.
    destruct (NoError (Commissioner.SetBbrDataset c d)) eqn:E; eexists;
      (split; [reflexivity|]); cbn [error_of final_state].
    + apply bool_decide_eq_true in E. split; [now rewrite E|]. split; [reflexivity|].
      intros f. cbn [mBbrDataset set_mBbrDataset set_mWire].
      destruct (MergeDataset_Bbr_field L L_ok f (mBbrDataset st) d) as [Hv Hp].
      rewrite Hv, Hp. now destruct (bbr_present L f d).
    + split; [reflexivity|]. split; reflexivity.
Qed.

End Merging.

(** *** The multicast registration on the wire *)

Section Multicast.

Variable L : Layout.

(** X27: [RegisterMulticastListener] sends the MLR request only after it has
    pulled the active dataset, found the mesh-local prefix in the answer and
    located the primary BBR from that prefix; the request goes to that
    address.  On every other path of an active session the pull is the only
    request sent. *)
Theorem RegisterMulticastListener_wire (c : Commissioner.t) (l : list string)
    (timeout : Z) (st st' : CommissionerApp) :
  final_state (RegisterMulticastListener L c l timeout st) = Some st' ->
  let pulled := Commissioner.GetActiveDataset c (mActiveDataset st) 0xFFFF in
  let located :=
    Commissioner.GetMeshLocalAddr c EmptyString
      (Commissioner.Ipv6PrefixToString c
         (ActiveOperationalDataset.mMeshLocalPrefix (snd pulled)))
      kPrimaryBbrAloc16 in
  if Commissioner.IsActive c then
    mActiveDataset st' = snd pulled /\
    mWire st' =
      mWire st ++
      MGMT_ACTIVE_GET 0xFFFF ::
      (if NoError (fst pulled) && active_present L kMeshLocalPrefix (snd pulled) &&
          NoError (fst located)
       then [MLR_REQ (snd located) l timeout] else [])
  else st' = st.
Proof.
  cbv zeta. autounfold with member_functions. unfold pull_active. step_member.
  destruct (Commissioner.IsActive c); [|now intros [= <-]].
  destruct (NoError (fst (Commissioner.GetActiveDataset c (mActiveDataset st) 0xFFFF)));
    [|now intros [= <-]].
  cbn [mActiveDataset set_mActiveDataset set_mWire andb].
  destruct (active_present L kMeshLocalPrefix _); [|now intros [= <-]].
  cbn [andb]. destruct (NoError (fst (Commissioner.GetMeshLocalAddr _ _ _ _)));
    [|now intros [= <-]].
  destruct (NoError _); [|intros [= <-]; cbn; now rewrite <- app_assoc].
  destruct (_ =? _); intros [= <-]; cbn; now rewrite <- app_assoc.
Qed.

End Multicast.

(** *** The properties at concrete inputs

    The sample runs continue those of the claims: the header's bit
    assignment, the stub commissioner and the states it leaves. *)

Abbreviation sample_commissioner := (stub header_layout true 0).

Definition mask_set : CommissionerApp :=
  after (run header_layout sample_commissioner (OpSetChannelMask sample_mask) sample_app).


Definition prefix_pulled : CommissionerApp :=
  after (run header_layout sample_commissioner OpGetMeshLocalPrefix sample_app).

Definition port_set : CommissionerApp :=
  after (SetJoinerUdpPort header_layout sample_commissioner kAE 1000 sample_app).

Definition all_disabled : CommissionerApp :=
  after (DisableAllJoiners header_layout sample_commissioner kMeshCoP both_enabled).

Definition ccm_commissioner : Commissioner.t := with_ccm_mode true sample_commissioner.

Definition tri_set : CommissionerApp :=
  after (run header_layout ccm_commissioner (OpSetTriHostname "tri.example.com") sample_app).

Definition listener_registered : CommissionerApp :=
  after (RegisterMulticastListener header_layout sample_commissioner ["ff04::1"%string] 300
                                   sample_app).

(** A library whose pending dataset cannot be fetched. *)
Definition sample_queries (pending : Error) : DatasetQueries :=
  mkDatasetQueries
    (fun _ _ => (kNone, sample_comm_dataset))
    (fun d _ => (kNone, d))
    (fun d _ => (pending, d)).

Definition pull_refused : CommissionerApp :=
  after (PullNetworkData header_layout sample_commissioner (sample_queries kTimeout) sole_enabled).

Lemma sample_app_consistent : joiners_consistent sample_app.
Proof. intros k j H. cbn in H. now rewrite lookup_empty in H. Qed.

Lemma both_enabled_consistent : joiners_consistent both_enabled.
Proof.
  assert (Hm : mJoiners both_enabled =
               map_emplace (kMeshCoP, Joiner.ComputeJoinerId 1)
                 (JoinerInfo_new kMeshCoP 1 sample_pskd EmptyString)
                 (map_emplace (kMeshCoP, Joiner.ComputeJoinerId 2)
                    (JoinerInfo_new kMeshCoP 2 sample_pskd EmptyString) ∅))
    by (vm_compute; reflexivity).
  intros k j. rewrite Hm. apply joiners_consistent_emplace.
  intros k' j'. apply joiners_consistent_emplace.
  intros k'' j'' H. now rewrite lookup_empty in H.
Qed.


(** [GetMeshLocalPrefix] sends its pull and no [MGMT_*_SET]. *)
Lemma operations_emit_at_most_one_set_witness :
  final_state (run header_layout sample_commissioner OpGetMeshLocalPrefix sample_app)
    = Some prefix_pulled /\
  emits_set OpGetMeshLocalPrefix = false /\
  exists reqs,
    mWire prefix_pulled = mWire sample_app ++ reqs /\
    (length reqs <= 2)%nat /\
    (length (List.filter is_mgmt_set reqs) <= 1)%nat /\
    (emits_set OpGetMeshLocalPrefix = false -> List.filter is_mgmt_set reqs = []).
Proof.
  assert (Hrun : final_state (run header_layout sample_commissioner OpGetMeshLocalPrefix sample_app)
                 = Some prefix_pulled)
    by (vm_compute; reflexivity).
  split; [exact Hrun|]. split; [reflexivity|].
  exact (operations_emit_at_most_one_set header_layout sample_commissioner OpGetMeshLocalPrefix
           sample_app prefix_pulled Hrun).
Defined.

(** Enabling the enabled joiner again fails and changes nothing. *)
Lemma failed_operation_keeps_caches_witness :
  run header_layout sample_commissioner (OpEnableJoiner kMeshCoP 1 sample_pskd EmptyString)
      sole_enabled = Exit kAlreadyExists sole_enabled /\
  mJoiners sole_enabled = mJoiners sole_enabled /\
  mCommDataset sole_enabled = mCommDataset sole_enabled.
Proof.
  assert (Hrun : run header_layout sample_commissioner
                   (OpEnableJoiner kMeshCoP 1 sample_pskd EmptyString) sole_enabled
                 = Exit kAlreadyExists sole_enabled) by (vm_compute; reflexivity).
  destruct (failed_operation_keeps_caches header_layout sample_commissioner _ _ _ _ Hrun)
    as (Hj & Hc & _).
  split; [exact Hrun|]. split; [exact Hj | exact Hc].
Defined.

(** The first [EnableJoiner] of the sample runs. *)
Lemma EnableJoiner_adds_entry_witness :
  layout_ok header_layout = true /\
  EnableJoiner header_layout sample_commissioner kMeshCoP 1 sample_pskd EmptyString sample_app
    = Return tt sole_enabled /\
  mJoiners sample_app !! (kMeshCoP, Joiner.ComputeJoinerId 1) = None /\
  GetJoinerInfo kMeshCoP (Joiner.ComputeJoinerId 1) sole_enabled =
    Some (JoinerInfo_new kMeshCoP 1 sample_pskd EmptyString) /\
  IsJoinerCommissioned kMeshCoP 1 sole_enabled = false.
Proof.
  assert (Hrun : EnableJoiner header_layout sample_commissioner kMeshCoP 1 sample_pskd
                   EmptyString sample_app = Return tt sole_enabled)
    by (vm_compute; reflexivity).
  destruct (EnableJoiner_adds_entry header_layout eq_refl _ _ _ _ _ _ _ Hrun)
    as (Hnone & _ & Hinfo & Hcomm & _).
  split; [reflexivity|]. split; [exact Hrun|]. split; [exact Hnone|].
  split; [exact Hinfo | exact Hcomm].
Defined.

(** The same joiner with another PSKd and URL is still refused. *)
Lemma EnableJoiner_twice_witness :
  EnableJoiner header_layout sample_commissioner kMeshCoP 1 sample_pskd EmptyString sample_app
    = Return tt sole_enabled /\
  Commissioner.IsActive sample_commissioner = true /\
  EnableJoiner header_layout sample_commissioner kMeshCoP 1 [] "example.com" sole_enabled
    = Exit kAlreadyExists sole_enabled.
Proof.
  assert (Hrun : EnableJoiner header_layout sample_commissioner kMeshCoP 1 sample_pskd
                   EmptyString sample_app = Return tt sole_enabled)
    by (vm_compute; reflexivity).
  split; [exact Hrun|]. split; [reflexivity|].
  exact (EnableJoiner_twice header_layout sample_commissioner sample_commissioner kMeshCoP 1
           sample_pskd [] EmptyString "example.com" sample_app sole_enabled Hrun eq_refl).
Defined.

(** [DisableAllJoiners] on the state with two joiners enabled. *)
Lemma DisableAllJoiners_clears_witness :
  layout_ok header_layout = true /\
  DisableAllJoiners header_layout sample_commissioner kMeshCoP both_enabled
    = Return tt all_disabled /\
  GetSteeringData header_layout sample_commissioner kMeshCoP all_disabled
    = Return [0] all_disabled /\
  (forall id, GetJoinerInfo kMeshCoP id all_disabled = None).
Proof.
  assert (Hrun : DisableAllJoiners header_layout sample_commissioner kMeshCoP both_enabled
                 = Return tt all_disabled) by (vm_compute; reflexivity).
  destruct (DisableAllJoiners_clears header_layout eq_refl _ _ _ _ Hrun)
    as (Hsteer & _ & _ & Hinfo & _).
  split; [reflexivity|]. split; [exact Hrun|]. split; [exact Hsteer | exact Hinfo].
Defined.

(** [EnableAllJoiners] on a state with one joiner enabled. *)
Lemma EnableAllJoiners_admits_any_witness :
  EnableAllJoiners header_layout sample_commissioner kMeshCoP sample_pskd EmptyString
                   other_enabled = Return tt all_enabled /\
  (forall id, GetJoinerInfo kMeshCoP id all_enabled =
              Some (JoinerInfo_new kMeshCoP 0 sample_pskd EmptyString)).
Proof.
  assert (Hrun : EnableAllJoiners header_layout sample_commissioner kMeshCoP sample_pskd
                   EmptyString other_enabled = Return tt all_enabled)
    by (vm_compute; reflexivity).
  split; [exact Hrun|].
  exact (proj1 (EnableAllJoiners_admits_any header_layout _ _ _ _ _ _ Hrun)).
Defined.

(** [DisableJoiner] on the state with two joiners enabled. *)
Lemma joiner_map_stays_consistent_witness :
  joiners_consistent both_enabled /\
  final_state (run header_layout sample_commissioner (OpDisableJoiner kMeshCoP 1) both_enabled)
    = Some one_disabled /\
  joiners_consistent one_disabled /\
  IsJoinerCommissioned kMeshCoP 2 one_disabled = false.
Proof.
  assert (Hrun : final_state (run header_layout sample_commissioner
                                (OpDisableJoiner kMeshCoP 1) both_enabled) = Some one_disabled)
    by (vm_compute; reflexivity).
  destruct (joiner_map_stays_consistent header_layout sample_commissioner _ _ _
              both_enabled_consistent Hrun) as [Hc Hn].
  split; [exact both_enabled_consistent|]. split; [exact Hrun|].
  split; [exact Hc | exact (Hn kMeshCoP 2)].
Defined.

(** [EnableJoiner] keeps the cached session ID. *)
Lemma joiner_management_keeps_other_fields_witness :
  layout_ok header_layout = true /\
  final_state (run header_layout sample_commissioner
                   (OpEnableJoiner kMeshCoP 1 sample_pskd EmptyString) sample_app)
    = Some sole_enabled /\
  touched_field (OpEnableJoiner kMeshCoP 1 sample_pskd EmptyString) <> Some kSessionId /\
  view kSessionId (mCommDataset sole_enabled) = view kSessionId (mCommDataset sample_app) /\
  comm_present header_layout kSessionId (mCommDataset sole_enabled) =
    comm_present header_layout kSessionId (mCommDataset sample_app).
Proof.
  assert (Hrun : final_state (run header_layout sample_commissioner
                                (OpEnableJoiner kMeshCoP 1 sample_pskd EmptyString) sample_app)
                 = Some sole_enabled) by (vm_compute; reflexivity).
  assert (Hf : touched_field (OpEnableJoiner kMeshCoP 1 sample_pskd EmptyString)
               <> Some kSessionId) by discriminate.
  split; [reflexivity|]. split; [exact Hrun|]. split; [exact Hf|].
  exact (joiner_management_keeps_other_fields header_layout eq_refl _ _ _ _ _ Hrun Hf).
Defined.

(** The AE port set to 1000 and read back. *)
Lemma SetJoinerUdpPort_then_get_witness :
  layout_ok header_layout = true /\
  SetJoinerUdpPort header_layout sample_commissioner kAE 1000 sample_app = Return tt port_set /\
  GetJoinerUdpPort header_layout sample_commissioner kAE port_set = Return 1000 port_set.
Proof.
  assert (Hrun : SetJoinerUdpPort header_layout sample_commissioner kAE 1000 sample_app
                 = Return tt port_set)
    by (vm_compute; reflexivity).
  split; [reflexivity|]. split; [exact Hrun|].
  exact (SetJoinerUdpPort_then_get header_layout eq_refl _ _ _ _ _ Hrun).
Defined.

(** Disabling joiner 1 of two leaves the entry of joiner 2. *)
Lemma DisableJoiner_entries_witness :
  joiners_consistent both_enabled /\
  DisableJoiner header_layout sample_commissioner kMeshCoP 1 both_enabled
    = Return tt one_disabled /\
  mJoiners one_disabled !! (kMeshCoP, Joiner.ComputeJoinerId 2) =
    mJoiners both_enabled !! (kMeshCoP, Joiner.ComputeJoinerId 2).
Proof.
  assert (Hrun : DisableJoiner header_layout sample_commissioner kMeshCoP 1 both_enabled
                 = Return tt one_disabled) by (vm_compute; reflexivity).
  destruct (DisableJoiner_entries header_layout _ _ _ _ _ both_enabled_consistent Hrun)
    as [Hothers _].
  split; [exact both_enabled_consistent|]. split; [exact Hrun|].
  apply Hothers. vm_compute. discriminate.
Defined.

(** The channel mask set and read back. *)
Lemma active_setter_then_getter_witness :
  layout_ok header_layout = true /\
  active_assignment (OpSetChannelMask sample_mask) = Some (kChannelMask, VChannelMask sample_mask) /\
  run header_layout sample_commissioner (OpSetChannelMask sample_mask) sample_app
    = Return VUnit mask_set /\
  cached_getter kChannelMask = Some OpGetChannelMask /\
  run header_layout sample_commissioner OpGetChannelMask mask_set
    = Return (VChannelMask sample_mask) mask_set.
Proof.
  assert (Hrun : run header_layout sample_commissioner (OpSetChannelMask sample_mask) sample_app
                 = Return VUnit mask_set)
    by (vm_compute; reflexivity).
  split; [reflexivity|]. split; [reflexivity|]. split; [exact Hrun|]. split; [reflexivity|].
  exact (proj2 (proj2 (active_setter_then_getter header_layout eq_refl sample_commissioner
                         (OpSetChannelMask sample_mask) OpGetChannelMask kChannelMask
                         (VChannelMask sample_mask) sample_app mask_set
                         eq_refl Hrun eq_refl))).
Defined.



(** The TRI hostname set and read back in CCM mode. *)
Lemma bbr_setter_then_getter_witness :
  layout_ok header_layout = true /\
  bbr_assignment (OpSetTriHostname "tri.example.com") = Some (kTriHostname, "tri.example.com"%string) /\
  run header_layout ccm_commissioner (OpSetTriHostname "tri.example.com") sample_app
    = Return VUnit tri_set /\
  run header_layout ccm_commissioner OpGetTriHostname tri_set
    = Return (VString "tri.example.com") tri_set.
Proof.
  assert (Hrun : run header_layout ccm_commissioner (OpSetTriHostname "tri.example.com")
                     sample_app = Return VUnit tri_set)
    by (vm_compute; reflexivity).
  split; [reflexivity|]. split; [reflexivity|]. split; [exact Hrun|].
  exact (proj1 (bbr_setter_then_getter header_layout eq_refl ccm_commissioner
                  (OpSetTriHostname "tri.example.com") kTriHostname "tri.example.com"
                  sample_app tri_set eq_refl Hrun)).
Defined.

(** [Reenroll] outside CCM mode, and a getter that ignores the mode. *)
Lemma ccm_mode_required_witness :
  Commissioner.IsCcmMode sample_commissioner = false /\
  run header_layout sample_commissioner (OpReenroll "fd00::1") sample_app
    = Exit kInvalidState sample_app /\
  run header_layout (with_ccm_mode true sample_commissioner) OpGetChannelMask mask_set
    = run header_layout sample_commissioner OpGetChannelMask mask_set.
Proof.
  split; [reflexivity|]. split.
  - exact (proj1 (ccm_mode_required header_layout sample_commissioner (OpReenroll "fd00::1")
                    sample_app eq_refl) eq_refl).
  - exact (proj2 (ccm_mode_required header_layout sample_commissioner OpGetChannelMask
                    mask_set eq_refl) eq_refl).
Defined.


(** A pull whose last fetch times out. *)
Lemma PullNetworkData_all_or_nothing_witness :
  final_state (PullNetworkData header_layout sample_commissioner (sample_queries kTimeout)
                 sole_enabled) = Some pull_refused /\
  error_of (PullNetworkData header_layout sample_commissioner (sample_queries kTimeout)
              sole_enabled) <> Some kNone /\
  mCommDataset pull_refused = mCommDataset sole_enabled /\
  mActiveDataset pull_refused = mActiveDataset sole_enabled.
Proof.
  assert (Hrun : final_state (PullNetworkData header_layout sample_commissioner
                                (sample_queries kTimeout) sole_enabled) = Some pull_refused)
    by (vm_compute; reflexivity).
  assert (Herr : error_of (PullNetworkData header_layout sample_commissioner
                             (sample_queries kTimeout) sole_enabled) <> Some kNone)
    by (vm_compute; discriminate).
  destruct (PullNetworkData_all_or_nothing header_layout sample_commissioner _ _ _ Hrun)
    as (_ & _ & _ & Hfail & _).
  destruct (Hfail Herr) as (Hc & Ha & _).
  split; [exact Hrun|]. split; [exact Herr|]. split; [exact Hc | exact Ha].
Defined.

(** The commissioner merge of the sample dataset, twice. *)
Lemma MergeDataset_idempotent_witness :
  layout_ok header_layout = true /\
  comm_present header_layout kSteeringData
    (MergeDataset_Commissioner header_layout
       (MergeDataset_Commissioner header_layout (mCommDataset sole_enabled) sample_comm_dataset)
       sample_comm_dataset) =
  comm_present header_layout kSteeringData
    (MergeDataset_Commissioner header_layout (mCommDataset sole_enabled) sample_comm_dataset).
Proof.
  split; [reflexivity|].
  exact (proj2 (proj2 (proj2 (proj2 (MergeDataset_idempotent header_layout eq_refl)))
                  (mCommDataset sole_enabled) sample_comm_dataset kSteeringData)).
Defined.

(** [SetActiveDataset] on a session that is not active. *)
Lemma whole_dataset_setters_witness :
  layout_ok header_layout = true /\
  Commissioner.IsActive (stub header_layout false 0) = false /\
  exists st',
    final_state (SetActiveDataset header_layout (stub header_layout false 0)
                   (sample_active_dataset header_layout) sample_app) = Some st' /\
    mWire st' = mWire sample_app ++ [MGMT_ACTIVE_SET (sample_active_dataset header_layout)] /\
    view kMeshLocalPrefix (mActiveDataset st') = VBytes sample_prefix.
Proof.
  split; [reflexivity|]. split; [reflexivity|].
  destruct (proj1 (whole_dataset_setters header_layout eq_refl (stub header_layout false 0)
                     sample_app) (sample_active_dataset header_layout))
    as (st' & Hrun & _ & Hw & Hf).
  exists st'. split; [exact Hrun|]. split; [exact Hw|].
  exact (f_equal fst (Hf kMeshLocalPrefix)).
Defined.

(** A registration that reaches the MLR request. *)
Lemma RegisterMulticastListener_wire_witness :
  final_state (RegisterMulticastListener header_layout sample_commissioner ["ff04::1"%string]
                 300 sample_app) = Some listener_registered /\
  mWire listener_registered =
    mWire sample_app ++
    [MGMT_ACTIVE_GET 0xFFFF; MLR_REQ "fdde:ad00:beef::/64" ["ff04::1"%string] 300].
Proof.
  assert (Hrun : final_state (RegisterMulticastListener header_layout sample_commissioner
                                ["ff04::1"%string] 300 sample_app) = Some listener_registered)
    by (vm_compute; reflexivity).
  split; [exact Hrun|].
  exact (proj2 (RegisterMulticastListener_wire header_layout sample_commissioner _ _ _ _ Hrun)).
Defined.

End AppMore.
